(** * Wisp: scoring, retrieval and gateway — a shallow embedding

    The development follows the Python sources of the repository:

    - [wisp/server/enrich.py]   enrichment status tracking, backlink scoring,
                                 marketplace ranking;
    - [wisp/server/relevance.py] the hybrid (keyword + vector) search query;
    - [wisp/server/retriever.py] paging and hydration of search results;
    - [wisp/server/mcp_client.py] placeholder resolution, extraction status;
    - [wisp/server.py]           the HTTP gateway;
    - [wisp/sdk/wisp_sdk/client.py] the client of the gateway.

    Modelling conventions.

    - Python [float] and SQLite [REAL] values are real numbers ([R]); rounding
      is not modelled.  [math.log1p], [math.log10], [math.exp] and [math.sqrt]
      are the real functions; Python raises outside their domains, so the
      theorems carry the domain facts the sources rely on where they matter.
    - SQL [NULL] and Python [None] are [option]; a table is the list of its
      rows in storage order; a [dict] used as a map is a [gmap].
    - Calls that leave the process (the clock, ISO date parsing, the
      embedding distance, the FTS5 ranking, the tool session) are Section
      variables: every theorem holds for every behaviour of them.
    - [str.lower] is the ASCII lower-casing. *)

From stdpp Require Import base option list gmap strings.
From Stdlib Require Import Reals Lra Lia ZArith Ascii String.
From Stdlib Require Import Sorting.Sorted Numbers.DecimalString.

Local Open Scope string_scope.

(* ===================================================================== *)
(** * Python and SQL primitives                                           *)
(* ===================================================================== *)

Module Py.

Local Open Scope R_scope.

(** [math.log1p] and [math.log10]. *)
Definition log1p (x : R) : R := ln (1 + x).

Definition log10 (x : R) : R := ln x / ln 10.

(** Comparisons of reals are decidable propositions. *)
#[global] Instance Rlt_decision (x y : R) : Decision (x < y) := Rlt_dec x y.

#[global] Instance Rle_decision (x y : R) : Decision (x <= y) := Rle_dec x y.

#[global] Instance Req_decision : EqDecision R := Req_dec_T.

(** [sorted(vals)]: stable insertion sort, ascending. *)
Fixpoint insert_asc (x : R) (l : list R) : list R :=
  match l with
  | [] => [x]
  | y :: l' => if Rlt_dec y x then y :: insert_asc x l' else x :: y :: l'
  end.

Definition sorted (l : list R) : list R := foldr insert_asc [] l.

(** [sorted(xs, key=..., reverse=True)] and SQL [ORDER BY key DESC]: stable
    insertion sort, descending on the key. *)
Fixpoint insert_desc {A : Type} (key : A -> R) (x : A) (l : list A) : list A :=
  match l with
  | [] => [x]
  | y :: l' =>
      if Rle_dec (key y) (key x) then x :: y :: l'
      else y :: insert_desc key x l'
  end.

Definition sort_desc {A : Type} (key : A -> R) (l : list A) : list A :=
  foldr (insert_desc key) [] l.

(** The order of a list sorted descending on a key. *)
Definition desc_by {A : Type} (key : A -> R) (x y : A) : Prop := key y <= key x.

(** [str.lower] on ASCII letters. *)
Definition lower_ascii (c : ascii) : ascii :=
  let n := nat_of_ascii c in
  if (65 <=? n)%nat && (n <=? 90)%nat then ascii_of_nat (n + 32) else c.

Fixpoint lower (s : string) : string :=
  match s with
  | EmptyString => EmptyString
  | String c t => String (lower_ascii c) (lower t)
  end.

(** [s.startswith(p)]. *)
Definition startswith (s p : string) : bool := String.prefix p s.

(** [needle in hay] on strings. *)
Fixpoint contains (needle hay : string) : bool :=
  String.prefix needle hay ||
  match hay with
  | EmptyString => false
  | String _ t => contains needle t
  end.

(** [s[n:]]. *)
Fixpoint drop_chars (n : nat) (s : string) : string :=
  match n, s with
  | O, _ => s
  | S k, EmptyString => EmptyString
  | S k, String _ t => drop_chars k t
  end.

(** Truthiness of an optional string: [None] and [''] are falsy. *)
Definition truthy_str (s : option string) : option string :=
  match s with
  | Some EmptyString => None
  | other => other
  end.

(** [d.get(k, default)] on a literal [dict] with string keys. *)
Fixpoint dict_get {V : Type} (d : list (string * V)) (k : string) (default : V) : V :=
  match d with
  | [] => default
  | (k', v) :: d' => if String.eqb k' k then v else dict_get d' k default
  end.

(** [x or 0] on an optional integer. *)
Definition or_zero (x : option Z) : Z :=
  match x with
  | Some v => v
  | None => 0%Z
  end.

(** [int(n * 0.99)] for a list length [n]. *)
Definition percentile_index (n : nat) : nat := (n * 99) / 100.

(** [str(n)] for an integer. *)
Definition str_of_Z (n : Z) : string := NilZero.string_of_int (Z.to_int n).

(** [xs[start:stop]] with Python's treatment of negative and out-of-range
    indices. *)
Definition slice_index (len i : Z) : Z :=
  if (i <? 0)%Z then Z.max 0 (i + len) else Z.min i len.

Definition slice {A : Type} (l : list A) (start stop : Z) : list A :=
  let len := Z.of_nat (List.length l) in
  let lo := slice_index len start in
  let hi := slice_index len stop in
  take (Z.to_nat (hi - lo)) (drop (Z.to_nat lo) l).

End Py.

(** Python values that travel as JSON: [None], [bool], [int], [float], [str],
    [list] and [dict] with string keys (in insertion order). *)
#[warnings="-register-all"] Inductive json :=
| JNull
| JBool (b : bool)
| JInt (n : Z)
| JFloat (x : R)
| JStr (s : string)
| JArr (items : list json)
| JObj (fields : list (string * json)).

Module Sql.

Local Open Scope R_scope.

(** [COALESCE(x, d)]. *)
Definition coalesce {A : Type} (x : option A) (d : A) : A :=
  match x with
  | Some v => v
  | None => d
  end.

(** The row a [LEFT JOIN] on a unique key attaches: the first one that
    satisfies the join condition, [NULL]s when there is none. *)
Definition find_row {A : Type} (P : A -> Prop) `{!forall x, Decision (P x)}
    (l : list A) : option A :=
  snd <$> list_find P l.

(** [NULLIF(x, 0)]. *)
Definition nullif0 (x : option R) : option R :=
  match x with
  | Some v => if Req_dec_T v 0 then None else Some v
  | None => None
  end.

(** SQLite division: [NULL] when an operand is [NULL] or the divisor is 0. *)
Definition div (a b : option R) : option R :=
  match a, b with
  | Some x, Some y => if Req_dec_T y 0 then None else Some (x / y)
  | _, _ => None
  end.

(** The scalar [log1p] registered on every connection in [db.get_connection]:
    [safe_log1p]. *)
Definition safe_log1p (x : option R) : R :=
  match x with
  | None => 0
  | Some v => Py.log1p (Rmax 0 v)
  end.

(** [MAX(col)] over a result set: [NULL] on an empty one. *)
Definition max_agg (l : list R) : option R :=
  match l with
  | [] => None
  | x :: l' => Some (foldl Rmax x l')
  end.

End Sql.

(* ===================================================================== *)
(** * enrich.py — backlink scoring                                        *)
(* ===================================================================== *)

Module Backlinks.

Local Open Scope R_scope.

Definition TIER_WEIGHTS : list (string * R) :=
  [ ("tier1_config", 1.0);
    ("tier2_dependency", 0.8);
    ("tier3_deployment", 0.6);
    ("tier4_curated", 0.3);
    ("tier5_mention", 0.1) ].

Definition CONFIG_TYPE_TO_TIER : list (string * string) :=
  [ ("claude_desktop", "tier1_config");
    ("cursor", "tier1_config");
    ("windsurf", "tier1_config");
    ("cline", "tier1_config") ].

(** A row of [servers], as selected by the scorer. *)
Record server_row := {
  srv_name : string;
  srv_repository_url : option string
}.

(** A row of [config_references]; [sample_repos] holds the decoded JSON
    array ([None] for SQL [NULL]). *)
Record config_reference := {
  cr_server_name : string;
  cr_config_type : string;
  cr_reference_count : Z;
  cr_sample_repos : option (list string)
}.

(** A row of [dependency_signals]. *)
Record dependency_signal := {
  ds_server_name : string;
  ds_dependents_count : option Z;
  ds_dependent_repos_count : option Z;
  ds_sourcerank : option Z
}.

(** The referencer metadata columns of a [backlink_edges] row. *)
Record repo_metadata := {
  meta_repo_stars : option Z;
  meta_repo_pushed_at : option string;
  meta_is_archived : bool;
  meta_is_fork : bool
}.

(** An entry of [edges_to_store], written to [backlink_edges]. *)
Record edge := {
  edge_server_name : string;
  edge_referencer_repo : string;
  edge_tier : string;
  edge_tier_weight : R;
  edge_repo_stars : Z;
  edge_repo_pushed_at : option string;
  edge_is_archived : bool;
  edge_is_fork : bool;
  edge_score : R
}.

(** The per-server accumulators of the scoring loop. *)
Record scoring_state := {
  st_tier1 : R;
  st_unique_repos : list (string * string);
  st_edges_to_store : list edge
}.

(** An entry of [server_raw_results]. *)
Record raw_result := {
  res_server_name : string;
  res_raw_score : R;
  res_tier1 : R;
  res_tier2 : R;
  res_tier3 : R;
  res_tier4 : R;
  res_edges_to_store : list edge
}.

(** A row written to [backlink_scores]. *)
Record backlink_score := {
  bs_server_name : string;
  bs_raw_score : R;
  bs_normalized_score : R;
  bs_tier1_contribution : R;
  bs_tier2_contribution : R;
  bs_tier3_contribution : R;
  bs_tier4_contribution : R
}.

Section Scoring.

(** [(now - datetime.fromisoformat(pushed_at.replace('Z', '+00:00'))).days];
    [None] when the parse or the subtraction raises. *)
Variable days_since : string -> option Z.

(** [re.search(r'github\.com[/:]([^/]+/[^/\.]+)', repo_url)], group 1. *)
Variable search_own_repo : string -> option string.

(** The [SELECT ... UNION ... LIMIT 1] lookup of cached referencer metadata
    in [backlink_edges], after the pre-fetch stage. *)
Variable lookup_metadata : string -> option repo_metadata.

Definition compute_recency_factor (pushed_at : option string) (decay_rate : R) : R :=
  match Py.truthy_str pushed_at with
  | None => 0.5
  | Some s =>
      match days_since s with
      | Some days =>
          let years_ago := IZR days / 365.0 in
          exp (- decay_rate * years_ago)
      | None => 0.5
      end
  end.

Definition compute_quality_factor (is_archived is_fork : bool) (stars : Z) : R :=
  let factor := 1.0 in
  let factor := if is_archived then factor * 0.2 else factor in
  let factor := if is_fork then factor * 0.5 else factor in
  factor.

Definition compute_edge_score (tier_weight : R) (stars : Z)
    (pushed_at : option string) (is_archived is_fork : bool) : R :=
  let star_factor := 1.0 + Py.log1p (IZR stars) in
  let recency := compute_recency_factor pushed_at 0.5 in
  let quality := compute_quality_factor is_archived is_fork stars in
  tier_weight * star_factor * recency * quality.

(** An edge whose score is the edge score of its own columns. *)
Definition edge_consistent (e : edge) : Prop :=
  edge_score e =
  compute_edge_score
    (edge_tier_weight e) (edge_repo_stars e)
    (edge_repo_pushed_at e)
    (edge_is_archived e) (edge_is_fork e).

(** The recency factor in the words of the specification: [0.5] for an
    unknown or unparseable date, the exponential decay over the years elapsed
    otherwise. *)
Definition recency_spec (pushed_at : option string) : R :=
  match pushed_at with
  | None | Some EmptyString => 0.5
  | Some s =>
      match days_since s with
      | Some days => exp (- 0.5 * (IZR days / 365))
      | None => 0.5
      end
  end.

(** [own_repo] of a server: the lower-cased [owner/repo] of its GitHub URL. *)
Definition own_repo_of (repo_url : option string) : option string :=
  match Py.truthy_str repo_url with
  | Some url =>
      if Py.contains "github.com" url then
        match search_own_repo url with
        | Some g => Some (Py.lower g)
        | None => None
        end
      else None
  | None => None
  end.

(** One iteration of [for repo_fullname in sample_repos]. *)
Definition process_sample_repo (server_name : string) (own_repo : option string)
    (tier : string) (tier_weight : R)
    (st : scoring_state) (repo_fullname : string) : scoring_state :=
  if String.eqb repo_fullname "" then st
  else if match Py.truthy_str own_repo with
          | Some o => String.eqb (Py.lower repo_fullname) o
          | None => false
          end then st
  else
    let repo_tier_key := (Py.lower repo_fullname, tier) in
    if bool_decide (repo_tier_key ∈ st_unique_repos st) then st
    else
      let existing := lookup_metadata repo_fullname in
      let '(stars, pushed_at, is_archived, is_fork) :=
        match existing with
        | Some {| meta_repo_stars := Some stars; meta_repo_pushed_at := p;
                  meta_is_archived := a; meta_is_fork := f |} => (stars, p, a, f)
        | _ => (0%Z, None, false, false)
        end in
      let score := compute_edge_score tier_weight stars pushed_at is_archived is_fork in
      {| st_tier1 := st_tier1 st + score;
         st_unique_repos := repo_tier_key :: st_unique_repos st;
         st_edges_to_store :=
           st_edges_to_store st ++
           [ {| edge_server_name := server_name;
                edge_referencer_repo := repo_fullname;
                edge_tier := tier;
                edge_tier_weight := tier_weight;
                edge_repo_stars := stars;
                edge_repo_pushed_at := pushed_at;
                edge_is_archived := is_archived;
                edge_is_fork := is_fork;
                edge_score := score |} ] |}.

(** One iteration of [for ref in cursor.fetchall()] over the server's
    [config_references] rows. *)
Definition process_config_reference (server_name : string) (own_repo : option string)
    (st : scoring_state) (ref : config_reference) : scoring_state :=
  let sample_repos := Sql.coalesce (cr_sample_repos ref) [] in
  let tier := Py.dict_get CONFIG_TYPE_TO_TIER (cr_config_type ref) "tier1_config" in
  let tier_weight := Py.dict_get TIER_WEIGHTS tier 0.5 in
  foldl (process_sample_repo server_name own_repo tier tier_weight) st sample_repos.

(** The synthetic tier-2 score of one [dependency_signals] row. *)
Definition dep_score (dep : dependency_signal) : R :=
  let dependents := Py.or_zero (ds_dependents_count dep) in
  let repos := Py.or_zero (ds_dependent_repos_count dep) in
  let tier_weight := Py.dict_get TIER_WEIGHTS "tier2_dependency" 0 in
  tier_weight * Py.log1p (IZR dependents) * sqrt (1 + IZR repos / 100).

(** The body of [for server in servers]: the entry of [server_raw_results]. *)
Definition score_server (config_references : list config_reference)
    (dependency_signals : list dependency_signal) (server : server_row) : raw_result :=
  let server_name := srv_name server in
  let own_repo := own_repo_of (srv_repository_url server) in
  let refs := filter (fun r => String.eqb (cr_server_name r) server_name = true) config_references in
  let st := foldl (process_config_reference server_name own_repo)
              {| st_tier1 := 0.0; st_unique_repos := []; st_edges_to_store := [] |} refs in
  let deps := filter (fun d => String.eqb (ds_server_name d) server_name = true) dependency_signals in
  let tier2 := foldl (fun acc d => acc + dep_score d) 0.0 deps in
  let raw_score := st_tier1 st + tier2 + 0.0 + 0.0 in
  {| res_server_name := server_name;
     res_raw_score := raw_score;
     res_tier1 := st_tier1 st;
     res_tier2 := tier2;
     res_tier3 := 0.0;
     res_tier4 := 0.0;
     res_edges_to_store := st_edges_to_store st |}.

(** Stage 3: the 99th percentile of [log1p(raw_score)] over the positive raw
    scores, clamped from below. *)
Definition q99_log_raw (results : list raw_result) : R :=
  let all_log_raws :=
    map (fun res => Py.log1p (res_raw_score res))
        (filter (fun res => 0 < res_raw_score res) results) in
  match all_log_raws with
  | [] => 1.0
  | _ :: _ =>
      let sorted_log_raws := Py.sorted all_log_raws in
      Rmax (nth (Py.percentile_index (List.length sorted_log_raws)) sorted_log_raws 0) 1e-6
  end.

Definition normalized_of (q99 : R) (raw_score : R) : R :=
  let log_raw := Py.log1p raw_score in
  if Rlt_dec 0 raw_score then Rmin 1.0 (log_raw / q99) else 0.0.

Definition store_score (q99 : R) (res : raw_result) : backlink_score :=
  {| bs_server_name := res_server_name res;
     bs_raw_score := res_raw_score res;
     bs_normalized_score := normalized_of q99 (res_raw_score res);
     bs_tier1_contribution := res_tier1 res;
     bs_tier2_contribution := res_tier2 res;
     bs_tier3_contribution := res_tier3 res;
     bs_tier4_contribution := res_tier4 res |}.

(** [compute_backlink_scores], stages 2 and 3: the rows written to
    [backlink_edges] and to [backlink_scores].  Server names are unique
    ([servers.name] is [UNIQUE]), so the dictionary [server_raw_results] is
    the list of its entries in server order. *)
Definition compute_backlink_scores (servers : list server_row)
    (config_references : list config_reference)
    (dependency_signals : list dependency_signal)
    (query : option string) : list edge * list backlink_score :=
  let servers :=
    match Py.truthy_str query with
    | Some qs =>
        let q := Py.lower qs in
        filter (fun s => Py.contains q (Py.lower (srv_name s)) = true) servers
    | None => servers
    end in
  let server_raw_results := map (score_server config_references dependency_signals) servers in
  let q99 := q99_log_raw server_raw_results in
  (List.concat (map res_edges_to_store server_raw_results),
   map (store_score q99) server_raw_results).

End Scoring.

End Backlinks.

(* ===================================================================== *)
(** * enrich.py — marketplace ranking                                     *)
(* ===================================================================== *)

Module Market.

Local Open Scope R_scope.

Definition TRUSTED_ORGS : list string :=
  [ "modelcontextprotocol"; "anthropic"; "google"; "openai"; "meta-llama";
    "microsoft"; "facebook"; "docker"; "hashicorp"; "aws"; "cloudflare";
    "vercel"; "supabase"; "mongodb"; "pinecone"; "elastic" ].

(** The columns of the tables the ranking query reads. *)
Record server_row := {
  srv_name : string;
  srv_repository_url : option string
}.

Record backlink_score_row := {
  bsr_server_name : string;
  bsr_raw_score : option R
}.

Record github_signal_row := {
  gs_server_name : string;
  gs_repo_owner : option string;
  gs_stars : option Z;
  gs_forks : option Z;
  gs_last_push : option string
}.

Record package_download_row := {
  pd_server_name : string;
  pd_downloads_last_week : option Z
}.

Record environment_variable_row := {
  ev_server_name : string;
  ev_is_secret : bool
}.

Record tables := {
  servers : list server_row;
  backlink_scores : list backlink_score_row;
  github_signals : list github_signal_row;
  package_downloads : list package_download_row;
  environment_variables : list environment_variable_row
}.

(** A row of the result of the signal query. *)
Record signal_row := {
  sig_name : string;
  sig_repository_url : option string;
  sig_usage_raw : R;
  sig_stars : Z;
  sig_forks : Z;
  sig_last_push : option string;
  sig_downloads : Z;
  sig_auth_count : Z;
  sig_repo_owner : option string
}.

(** An entry of [raw_data]. *)
Record raw_entry := {
  raw_name : string;
  u_raw : R;
  r_raw : R;
  activity : R;
  c_raw : R;
  raw_is_zero_auth : bool;
  raw_is_verified : bool
}.

(** A row written to [market_rankings]. *)
Record market_ranking := {
  mr_server_name : string;
  mr_total_score : R;
  mr_usage_score : R;
  mr_reputation_score : R;
  mr_activity_score : R;
  mr_reach_score : R;
  mr_is_zero_auth : bool;
  mr_is_verified : bool
}.

(** [SUM(col)]: [NULL] values are skipped, and the sum of no value is [NULL]. *)
Definition sum_agg (l : list (option Z)) : option Z :=
  match omap (fun x : option Z => x) l with
  | [] => None
  | vs => Some (foldr Z.add 0%Z vs)
  end.

(** The [SELECT ... FROM servers s LEFT JOIN ...] of step 1.  Each joined
    table holds at most one row per server ([UNIQUE] / [GROUP BY]), found by
    [Sql.find_row]. *)
Definition select_signals (db : tables) : list signal_row :=
  map (fun s =>
    let name := srv_name s in
    let bs := Sql.find_row (fun b => bsr_server_name b = name) (backlink_scores db) in
    let gs := Sql.find_row (fun g => gs_server_name g = name) (github_signals db) in
    let pd := sum_agg (map pd_downloads_last_week
                (filter (fun p => pd_server_name p = name) (package_downloads db))) in
    {| sig_name := name;
       sig_repository_url := srv_repository_url s;
       sig_usage_raw := Sql.coalesce (bs ≫= bsr_raw_score) 0;
       sig_stars := Sql.coalesce (gs ≫= gs_stars) 0%Z;
       sig_forks := Sql.coalesce (gs ≫= gs_forks) 0%Z;
       sig_last_push := gs ≫= gs_last_push;
       sig_downloads := Sql.coalesce pd 0%Z;
       sig_auth_count :=
         Z.of_nat (List.length
           (filter (fun e => ev_server_name e = name ∧ ev_is_secret e = true)
                   (environment_variables db)));
       sig_repo_owner := gs ≫= gs_repo_owner |})
    (servers db).

Section Ranking.

(** [(now - datetime.fromisoformat(pushed_at.replace('Z', '+00:00'))).days]
    with [now = datetime.now(timezone.utc)]; [None] when it raises. *)
Variable days_since : string -> option Z.

(** Pillar 3 of the first loop. *)
Definition activity_of (pushed_at : option string) : R :=
  match Py.truthy_str pushed_at with
  | Some s =>
      match days_since s with
      | Some days =>
          let years_ago := IZR days / 365.0 in
          exp (- 0.5 * years_ago)
      | None => 0.5
      end
  | None => 0.5
  end.

(** The body of [for r in rows]. *)
Definition raw_entry_of (r : signal_row) : raw_entry :=
  {| raw_name := sig_name r;
     u_raw := Py.log1p (sig_usage_raw r);
     r_raw := Py.log10 (IZR (1 + sig_stars r)) + Py.log10 (IZR (1 + sig_forks r));
     activity := activity_of (sig_last_push r);
     c_raw := Py.log10 (IZR (1 + sig_downloads r));
     raw_is_zero_auth := bool_decide (sig_auth_count r = 0%Z);
     raw_is_verified :=
       bool_decide (Py.lower (Sql.coalesce (sig_repo_owner r) "") ∈ TRUSTED_ORGS) |}.

Definition get_q99 (vals : list R) : R :=
  match vals with
  | [] => 1.0
  | _ :: _ =>
      let sorted_v := Py.sorted vals in
      Rmax (nth (Py.percentile_index (List.length sorted_v)) sorted_v 0) 1e-6
  end.

(** The body of [for d in raw_data]. *)
Definition rank_entry (q99_u q99_r q99_c : R) (d : raw_entry) : market_ranking :=
  let u_norm := Rmin 1.0 (u_raw d / q99_u) in
  let r_norm := Rmin 1.0 (r_raw d / q99_r) in
  let a_norm := activity d in
  let c_norm := Rmin 1.0 (c_raw d / q99_c) in
  let composite := (0.45 * u_norm) + (0.30 * r_norm) + (0.15 * a_norm) + (0.10 * c_norm) in
  let composite := if raw_is_zero_auth d then composite + 0.05 else composite in
  let composite := if raw_is_verified d then composite + 0.10 else composite in
  let final_score := Rmax 0.0 (Rmin 1.0 composite) in
  {| mr_server_name := raw_name d;
     mr_total_score := final_score;
     mr_usage_score := u_norm;
     mr_reputation_score := r_norm;
     mr_activity_score := a_norm;
     mr_reach_score := c_norm;
     mr_is_zero_auth := raw_is_zero_auth d;
     mr_is_verified := raw_is_verified d |}.

(** [compute_market_rankings] on the rows of the signal query. *)
Definition rank_rows (rows : list signal_row) : list market_ranking :=
  let raw_data := map raw_entry_of rows in
  let u_vals := map u_raw raw_data in
  let r_vals := map r_raw raw_data in
  let c_vals := map c_raw raw_data in
  let q99_u := get_q99 u_vals in
  let q99_r := get_q99 r_vals in
  let q99_c := get_q99 c_vals in
  map (rank_entry q99_u q99_r q99_c) raw_data.

Definition compute_market_rankings (db : tables) : list market_ranking :=
  rank_rows (select_signals db).

(** The composite of the specification: the weighted pillars plus the two
    bonuses, clamped to [[0, 1]]. *)
Definition composite_spec (U Rp A C : R) (zero_auth verified : bool) : R :=
  Rmax 0 (Rmin 1
    (0.45 * U + 0.30 * Rp + 0.15 * A + 0.10 * C
     + (if zero_auth then 0.05 else 0) + (if verified then 0.10 else 0))).

(** The boundary statement of the specification: a server without backlink
    references and without downloads scores within [[0, 0.10 + 0.05]]. *)
Definition zero_signal_bound : Prop :=
  forall (db : tables) (i : nat) (r : signal_row) (mr : market_ranking),
    select_signals db !! i = Some r ->
    compute_market_rankings db !! i = Some mr ->
    sig_usage_raw r = 0 -> sig_downloads r = 0%Z ->
    0 <= mr_total_score mr <= 0.10 + 0.05.

End Ranking.

(** A registry of one server with a starred, freshly pushed repository, no
    backlink score and no download row. *)
Definition acme_db : tables :=
  {| servers := [ {| srv_name := "acme/tool";
                     srv_repository_url := Some "https://github.com/acme/tool" |} ];
     backlink_scores := [];
     github_signals :=
       [ {| gs_server_name := "acme/tool"; gs_repo_owner := Some "acme";
            gs_stars := Some 100%Z; gs_forks := Some 10%Z;
            gs_last_push := Some "2026-01-01T00:00:00Z" |} ];
     package_downloads := [];
     environment_variables := [] |}.

(** Its row in the signal query. *)
Definition acme_row : signal_row :=
  {| sig_name := "acme/tool";
     sig_repository_url := Some "https://github.com/acme/tool";
     sig_usage_raw := 0;
     sig_stars := 100;
     sig_forks := 10;
     sig_last_push := Some "2026-01-01T00:00:00Z";
     sig_downloads := 0;
     sig_auth_count := 0;
     sig_repo_owner := Some "acme" |}.

(** Its ranking when the push happened today. *)
Definition acme_ranking : market_ranking :=
  let d := raw_entry_of (fun _ => Some 0%Z) acme_row in
  rank_entry (get_q99 [u_raw d]) (get_q99 [r_raw d]) (get_q99 [c_raw d]) d.

End Market.

(* ===================================================================== *)
(** * db.py — the tables and views read by retrieval                      *)
(* ===================================================================== *)

Module Db.

Record server_row := {
  srv_name : string;
  srv_description : option string
}.

Record tool_row := {
  tool_id : Z;
  tool_server_name : string;
  tool_name : string;
  tool_title : option string;
  tool_description : option string;
  tool_input_schema : option string
}.

Record environment_variable_row := {
  ev_server_name : string;
  ev_is_secret : bool
}.

(** A row of [tools_search]. *)
Record search_doc := {
  doc_tool_id : Z;
  doc_tool_name : string;
  doc_server_name : string;
  doc_desc_text : string
}.

(** A row of [market_rankings]. *)
Record market_ranking_row := {
  mr_server_name : string;
  mr_total_score : option R
}.

(** A row of the view [v_tools_full]. *)
Record tool_full := {
  vt_tool_id : Z;
  vt_tool_name : string;
  vt_title : option string;
  vt_description : option string;
  vt_input_schema : option string;
  vt_server_name : string;
  vt_server_description : option string;
  vt_requires_auth : bool
}.

Record tables := {
  servers : list server_row;
  tools : list tool_row;
  environment_variables : list environment_variable_row;
  tools_search : list search_doc;
  market_rankings : list market_ranking_row
}.

(** [CREATE VIEW v_tools_full AS SELECT ... FROM tools t JOIN servers s
    ON t.server_name = s.name], with [requires_auth] the test that the server
    has a secret environment variable. *)
Definition v_tools_full (db : tables) : list tool_full :=
  t ← tools db;
  s ← filter (fun s => srv_name s = tool_server_name t) (servers db);
  [ {| vt_tool_id := tool_id t;
       vt_tool_name := tool_name t;
       vt_title := tool_title t;
       vt_description := tool_description t;
       vt_input_schema := tool_input_schema t;
       vt_server_name := srv_name s;
       vt_server_description := srv_description s;
       vt_requires_auth :=
         bool_decide (0 < List.length
           (filter (fun e => ev_server_name e = srv_name s ∧ ev_is_secret e = true)
                   (environment_variables db)))%nat |} ].

(** The rows of the view that one row of [tools] gives rise to. *)
Definition view_rows_of_tool (db : tables) (t : tool_row) : list tool_full :=
  v_tools_full
    {| servers := servers db; tools := [t];
       environment_variables := environment_variables db;
       tools_search := tools_search db;
       market_rankings := market_rankings db |}.

End Db.

(* ===================================================================== *)
(** * relevance.py — hybrid search                                        *)
(* ===================================================================== *)

Module Relevance.

Local Open Scope R_scope.

(** An entry of the list returned by [hybrid_search]. *)
Record candidate := {
  cand_tool_id : Z;
  cand_tool_name : string;
  cand_server_name : string;
  cand_description : string;
  cand_relevance : R;
  cand_quality : R;
  cand_final_score : R
}.

(** [\s] and [str.isspace] on the characters below 256. *)
Definition is_space (c : ascii) : bool :=
  let n := nat_of_ascii c in
  ((9 <=? n) && (n <=? 13) || (28 <=? n) && (n <=? 32) || (n =? 133) || (n =? 160))%nat.

Definition is_alnum (c : ascii) : bool :=
  let n := nat_of_ascii c in
  ((48 <=? n) && (n <=? 57) || (65 <=? n) && (n <=? 90) || (97 <=? n) && (n <=? 122))%nat.

Fixpoint map_chars (f : ascii -> ascii) (s : string) : string :=
  match s with
  | EmptyString => EmptyString
  | String c t => String (f c) (map_chars f t)
  end.

Fixpoint lstrip (s : string) : string :=
  match s with
  | EmptyString => EmptyString
  | String c t => if is_space c then lstrip t else s
  end.

Fixpoint rstrip (s : string) : string :=
  match s with
  | EmptyString => EmptyString
  | String c t =>
      match rstrip t with
      | EmptyString => if is_space c then EmptyString else String c EmptyString
      | t' => String c t'
      end
  end.

(** [re.sub(r'[^a-zA-Z0-9\s]', ' ', query).strip()]. *)
Definition sanitize (query : string) : string :=
  rstrip (lstrip (map_chars (fun c => if is_alnum c || is_space c then c else " "%char) query)).

(** SQL [LIMIT n]: a negative [n] means no limit. *)
Definition sql_limit {A : Type} (n : Z) (l : list A) : list A :=
  if (n <? 0)%Z then l else take (Z.to_nat n) l.

(** The first value bound to a tool id in a hit list (the [LEFT JOIN] of a
    CTE whose [tool_id] is unique). *)
Definition hit (hits : list (Z * R)) (tid : Z) : option R :=
  snd <$> Sql.find_row (fun h => fst h = tid) hits.

Section Search.

(** The embedding vectors, the model's [encode] and sqlite-vec's
    [vec_distance_cosine]. *)
Variable embedding : Type.

Variable encode : string -> embedding.

Variable vec_distance_cosine : embedding -> embedding -> R.

(** The rows of [tools_fts] matching an FTS5 query with their
    [bm25(tools_fts, 5.0, 3.0, 1.0)] rank; [None] when FTS5 rejects the
    query. *)
Variable fts_match : string -> option (list (Z * R)).

(** The rows of [tool_embeddings]. *)
Variable tool_embeddings : list (Z * embedding).

(** CTE [vector_hits]. *)
Definition vector_hits (query : string) : list (Z * R) :=
  let query_vec := encode query in
  take 200 (Py.sort_desc snd
    (map (fun te => (fst te, 1.0 - vec_distance_cosine (snd te) query_vec)) tool_embeddings)).

(** CTE [fts_hits]. *)
Definition fts_hits (matches : list (Z * R)) : list (Z * R) :=
  take 200 (Py.sort_desc snd (map (fun m => (fst m, - snd m)) matches)).

(** CTE [k_stats]. *)
Definition k_stats (hits : list (Z * R)) : option R := Sql.max_agg (map snd hits).

(** The [relevance] column. *)
Definition relevance_of (s_score k_raw k_max : option R) : R :=
  (0.7 * Sql.coalesce s_score 0.0) +
  (0.3 * Sql.coalesce
           (Sql.div (Some (Sql.safe_log1p k_raw))
                    (Some (Sql.safe_log1p (Sql.nullif0 k_max)))) 0.0).

(** The relevance in the words of the specification, with the store's
    [log1p(x) = ln(1 + max(0, x))]: a missing side counts 0, and so does the
    keyword side when [log1p(k_max)] is 0. *)
Definition relevance_spec (s_score k_raw k_max : option R) : R :=
  0.7 * (match s_score with Some s => s | None => 0 end) +
  0.3 * (match k_raw, k_max with
         | Some kr, Some km =>
             if decide (km <= 0) then 0
             else Py.log1p (Rmax 0 kr) / Py.log1p (Rmax 0 km)
         | _, _ => 0
         end).

(** The tool ids in the union of the two hit lists. *)
Definition candidate_union (v k : list (Z * R)) : list Z :=
  remove_dups (map fst v ++ map fst k).

(** The [quality] column. *)
Definition quality_of (db : Db.tables) (server_name : string) : R :=
  Sql.coalesce
    (Sql.find_row (fun m => Db.mr_server_name m = server_name) (Db.market_rankings db)
       ≫= Db.mr_total_score) 0.

(** The joined row of one [tools_search] document, before [WHERE]. *)
Definition joined_row (db : Db.tables) (v k : list (Z * R)) (ts : Db.search_doc)
    : candidate :=
  let relevance :=
    relevance_of (hit v (Db.doc_tool_id ts)) (hit k (Db.doc_tool_id ts)) (k_stats k) in
  let quality := quality_of db (Db.doc_server_name ts) in
  {| cand_tool_id := Db.doc_tool_id ts;
     cand_tool_name := Db.doc_tool_name ts;
     cand_server_name := Db.doc_server_name ts;
     cand_description := Db.doc_desc_text ts;
     cand_relevance := relevance;
     cand_quality := quality;
     cand_final_score := (0.8 * relevance) + (0.2 * quality) |}.

(** The documents joined to at least one hit:
    [WHERE (v.tool_id IS NOT NULL OR k.tool_id IS NOT NULL)]. *)
Definition joined_candidates (db : Db.tables) (v k : list (Z * R)) : list candidate :=
  map (joined_row db v k)
    (filter (fun ts => is_Some (hit v (Db.doc_tool_id ts)) ∨ is_Some (hit k (Db.doc_tool_id ts)))
            (Db.tools_search db)).

(** [hybrid_search]: [None] when the statement raises. *)
Definition hybrid_search (db : Db.tables) (query : string) (limit : Z)
    : option (list candidate) :=
  let fts_query := sanitize query in
  match fts_match fts_query with
  | None => None
  | Some matches =>
      let v := vector_hits query in
      let k := fts_hits matches in
      Some (sql_limit limit
              (Py.sort_desc cand_final_score
                 (filter (fun c => 0.3 < cand_relevance c) (joined_candidates db v k))))
  end.

End Search.

(** The fusion scenario: four indexed tools, of which the first three are
    embedded at cosine distances 0.2, 0.6 and 0.8 from the query and the
    second alone matches its keywords; only the server of the first and
    third has a ranking row. *)
Definition fusion_db : Db.tables :=
  {| Db.servers := [];
     Db.tools := [];
     Db.environment_variables := [];
     Db.tools_search :=
       [ {| Db.doc_tool_id := 1; Db.doc_tool_name := "search";
            Db.doc_server_name := "alpha"; Db.doc_desc_text := "semantic match" |};
         {| Db.doc_tool_id := 2; Db.doc_tool_name := "lookup";
            Db.doc_server_name := "beta"; Db.doc_desc_text := "keyword match" |};
         {| Db.doc_tool_id := 3; Db.doc_tool_name := "other";
            Db.doc_server_name := "alpha"; Db.doc_desc_text := "weak match" |};
         {| Db.doc_tool_id := 4; Db.doc_tool_name := "idle";
            Db.doc_server_name := "beta"; Db.doc_desc_text := "no match" |} ];
     Db.market_rankings :=
       [ {| Db.mr_server_name := "alpha"; Db.mr_total_score := Some 0.5 |} ] |}.

(** Its embeddings, each standing for its distance from the query. *)
Definition fusion_embeddings : list (Z * R) := [ (1%Z, 0.2); (2%Z, 0.6); (3%Z, 0.8) ].

(** Its keyword matches with their [bm25] rank. *)
Definition fusion_matches : list (Z * R) := [ (2%Z, - 3) ].

End Relevance.

(* ===================================================================== *)
(** * mcp_client.py — placeholder resolution                              *)
(* ===================================================================== *)

Module Placeholders.

(** [os.environ]. *)
Abbreviation environ := (gmap string string).

(** The longest prefix free of the closing brace, and what follows it:
    the greedy [[^}]+] of the pattern. *)
Fixpoint span_body (s : string) : string * string :=
  match s with
  | EmptyString => (EmptyString, EmptyString)
  | String c t =>
      if Ascii.eqb c "}"%char then (EmptyString, s)
      else let '(body, rest) := span_body t in (String c body, rest)
  end.

(** The text [p] stripped from the front of [s], when [s] starts with it. *)
Fixpoint strip_prefix (p s : string) : option string :=
  match p, s with
  | EmptyString, _ => Some s
  | String a p', String b s' => if Ascii.eqb a b then strip_prefix p' s' else None
  | String _ _, EmptyString => None
  end.

(** Group 1 of a match whose braces enclose [body]: the optional [input:]
    is consumed only when a non-empty name remains after it. *)
Definition group1 (body : string) : string :=
  match strip_prefix "input:" body with
  | Some (String c t) => String c t
  | _ => body
  end.

(** A match of [\${(?:input:)?([^}]+)}] anchored at the start of [s]:
    group 1, the matched text (group 0) and the text after the match. *)
Definition match_here (s : string) : option (string * string * string) :=
  match s with
  | String c1 (String c2 t) =>
      if Ascii.eqb c1 "$" && Ascii.eqb c2 "{" then
        match span_body t with
        | (String c b, String _ after) =>
            let body := String c b in
            Some (group1 body, "${" ++ body ++ "}", after)
        | _ => None
        end
      else None
  | _ => None
  end.

(** [replace_match]. *)
Definition replace_match (env : environ) (var_name whole : string) : string :=
  match env !! var_name with
  | Some val => val
  | None => whole
  end.

(** [re.sub(pattern, replace_match, data)]: leftmost matches, left to right,
    the scan resuming after each match.  [fuel] bounds the number of scan
    steps; [String.length data] steps always suffice. *)
Fixpoint re_sub_fuel (fuel : nat) (env : environ) (data : string) : string :=
  match fuel with
  | O => data
  | S fuel' =>
      match data with
      | EmptyString => EmptyString
      | String c t =>
          match match_here data with
          | Some (var_name, whole, after) =>
              replace_match env var_name whole ++ re_sub_fuel fuel' env after
          | None => String c (re_sub_fuel fuel' env t)
          end
      end
  end.

Definition re_sub (env : environ) (data : string) : string :=
  re_sub_fuel (String.length data) env data.

(** The [str] branch of [resolve_env_vars]. *)
Definition resolve_str (env : environ) (data : string) : string :=
  if Py.startswith data "ENV:" then
    default data (env !! Py.drop_chars 4 data)
  else re_sub env data.

(** [resolve_env_vars]. *)
Fixpoint resolve_env_vars (env : environ) (data : json) : json :=
  match data with
  | JObj fields =>
      JObj (map (fun kv => match kv with (k, v) => (k, resolve_env_vars env v) end) fields)
  | JArr items => JArr (map (resolve_env_vars env) items)
  | JStr s => JStr (resolve_str env s)
  | other => other
  end.

(** The variable names a string refers to: the name after [ENV:], or group 1
    of every match of the pattern. *)
Fixpoint pattern_names_fuel (fuel : nat) (data : string) : list string :=
  match fuel with
  | O => []
  | S fuel' =>
      match data with
      | EmptyString => []
      | String c t =>
          match match_here data with
          | Some (var_name, _, after) => var_name :: pattern_names_fuel fuel' after
          | None => pattern_names_fuel fuel' t
          end
      end
  end.

Definition referenced (data : string) : list string :=
  if Py.startswith data "ENV:" then [Py.drop_chars 4 data]
  else pattern_names_fuel (String.length data) data.

(** The fixed-point property of the specification: resolving twice is
    resolving once when every variable the string refers to is set. *)
Definition resolution_idempotent : Prop :=
  forall (env : environ) (s : string),
    (forall name, name ∈ referenced s -> is_Some (env !! name)) ->
    resolve_str env (resolve_str env s) = resolve_str env s.

(** Values that are neither strings nor containers. *)
Definition is_scalar (v : json) : bool :=
  match v with
  | JNull | JBool _ | JInt _ | JFloat _ => true
  | JStr _ | JArr _ | JObj _ => false
  end.

End Placeholders.

(* ===================================================================== *)
(** * retriever.py — paging and hydration                                 *)
(* ===================================================================== *)

Module Retriever.

Local Open Scope R_scope.

(** The dictionary built for one tool by [get_tools_for_server], and the
    common part of the one built by [retrieve]. *)
Record tool_info := {
  ti_tool_id : Z;
  ti_name : string;
  ti_title : option string;
  ti_description : option string;
  ti_input_schema : option json;
  ti_requires_auth : bool;
  ti_server_name : string;
  ti_server_description : option string
}.

(** An entry of [final_results]. *)
Record search_result := {
  sr_tool : tool_info;
  sr_relevance : R;
  sr_quality : R;
  sr_score : R
}.

(** The dictionary returned by [retrieve]. *)
Record response := {
  resp_query : string;
  resp_page : Z;
  resp_limit : Z;
  resp_total_candidates : Z;
  resp_results : list search_result
}.

Section Retrieve.

(** [json.loads]; [None] for [json.JSONDecodeError]. *)
Variable json_loads : string -> option json.

(** The collaborators of the relevance engine (see [Relevance]). *)
Variable embedding : Type.

Variable encode : string -> embedding.

Variable vec_distance_cosine : embedding -> embedding -> R.

Variable fts_match : string -> option (list (Z * R)).

Variable tool_embeddings : list (Z * embedding).

(** [self.relevance_engine.hybrid_search]. *)
Definition hybrid_search : Db.tables -> string -> Z -> option (list Relevance.candidate) :=
  Relevance.hybrid_search embedding encode vec_distance_cosine fts_match tool_embeddings.

(** The parsed [input_schema] of a row. *)
Definition parse_input_schema (raw : option string) : option json :=
  match Py.truthy_str raw with
  | Some text => json_loads text
  | None => None
  end.

Definition tool_info_of (db_r : Db.tool_full) : tool_info :=
  {| ti_tool_id := Db.vt_tool_id db_r;
     ti_name := Db.vt_tool_name db_r;
     ti_title := Db.vt_title db_r;
     ti_description := Db.vt_description db_r;
     ti_input_schema := parse_input_schema (Db.vt_input_schema db_r);
     ti_requires_auth := Db.vt_requires_auth db_r;
     ti_server_name := Db.vt_server_name db_r;
     ti_server_description := Db.vt_server_description db_r |}.

(** [cand_map = {c['tool_id']: c for c in paged_candidates}]. *)
Definition cand_map_of (paged_candidates : list Relevance.candidate)
    : gmap Z Relevance.candidate :=
  foldl (fun m c => <[Relevance.cand_tool_id c := c]> m) ∅ paged_candidates.

(** The hydration query: [tools t JOIN v_tools_full vt ON t.id = vt.tool_id
    WHERE t.id IN (...)]. *)
Definition hydration_rows (db : Db.tables) (tool_ids : list Z) : list Db.tool_full :=
  t ← filter (fun t => Db.tool_id t ∈ tool_ids) (Db.tools db);
  filter (fun vt => Db.vt_tool_id vt = Db.tool_id t) (Db.v_tools_full db).

(** [retrieve]; [None] when the search raises. *)
Definition retrieve (db : Db.tables) (query : string) (page limit : Z) : option response :=
  let candidate_limit := 100%Z in
  match hybrid_search db query candidate_limit with
  | None => None
  | Some candidates =>
      let total_results := Z.of_nat (List.length candidates) in
      let start_idx := ((page - 1) * limit)%Z in
      let end_idx := (start_idx + limit)%Z in
      let paged_candidates := Py.slice candidates start_idx end_idx in
      match paged_candidates with
      | [] =>
          Some {| resp_query := query; resp_page := page; resp_limit := limit;
                  resp_total_candidates := total_results; resp_results := [] |}
      | _ :: _ =>
          let tool_ids := map Relevance.cand_tool_id paged_candidates in
          let cand_map := cand_map_of paged_candidates in
          let db_results := hydration_rows db tool_ids in
          let final_results :=
            omap (fun db_r =>
                    cand ← cand_map !! Db.vt_tool_id db_r;
                    Some {| sr_tool := tool_info_of db_r;
                            sr_relevance := Relevance.cand_relevance cand;
                            sr_quality := Relevance.cand_quality cand;
                            sr_score := Relevance.cand_final_score cand |})
                 db_results in
          Some {| resp_query := query; resp_page := page; resp_limit := limit;
                  resp_total_candidates := total_results;
                  resp_results := Py.sort_desc sr_score final_results |}
      end
  end.

(** [get_tools_for_server]. *)
Definition get_tools_for_server (db : Db.tables) (server_name : string) : list tool_info :=
  map tool_info_of
    (filter (fun vt => Db.vt_server_name vt = server_name) (Db.v_tools_full db)).

(** The relevance-floor scenario of the specification: when no candidate
    clears the floor, the results are empty and [total_candidates] is still
    the size of the union of the two hit lists. *)
Definition floor_keeps_total : Prop :=
  forall (db : Db.tables) (query : string) (page limit : Z)
         (matches : list (Z * R)) (resp : response),
    fts_match (Relevance.sanitize query) = Some matches ->
    let v := Relevance.vector_hits embedding encode vec_distance_cosine tool_embeddings query in
    let k := Relevance.fts_hits matches in
    Forall (fun c => Relevance.cand_relevance c <= 0.3)
           (Relevance.joined_candidates db v k) ->
    retrieve db query page limit = Some resp ->
    resp_results resp = [] /\
    resp_total_candidates resp = Z.of_nat (List.length (Relevance.candidate_union v k)).

End Retrieve.

(** A store with one indexed tool. *)
Definition one_tool_db : Db.tables :=
  {| Db.servers := [ {| Db.srv_name := "s"; Db.srv_description := None |} ];
     Db.tools :=
       [ {| Db.tool_id := 1; Db.tool_server_name := "s"; Db.tool_name := "t";
            Db.tool_title := None; Db.tool_description := None;
            Db.tool_input_schema := None |} ];
     Db.environment_variables := [];
     Db.tools_search :=
       [ {| Db.doc_tool_id := 1; Db.doc_tool_name := "t"; Db.doc_server_name := "s";
            Db.doc_desc_text := "" |} ];
     Db.market_rankings := [] |}.

End Retriever.

(* ===================================================================== *)
(** * enrich.py — enrichment status tracking and workers                  *)
(* ===================================================================== *)

Module Enrich.

(** [categorize_enrichment_failure]: the pair [(status, failure_reason)]. *)
Definition categorize_enrichment_failure (status_code : option Z)
    (error_message : option string) : string * string :=
  let by_message :=
    match Py.truthy_str error_message with
    | Some msg =>
        let error_lower := Py.lower msg in
        if Py.contains "not found" error_lower || Py.contains "404" error_lower
        then ("permanent_failure", "not_found")
        else if Py.contains "does not exist" error_lower
        then ("permanent_failure", "does_not_exist")
        else if Py.contains "package not found" error_lower
        then ("permanent_failure", "package_not_found")
        else if Py.contains "repository not found" error_lower
        then ("permanent_failure", "repo_not_found")
        else if Py.contains "timeout" error_lower
        then ("transient_failure", "timeout")
        else if Py.contains "rate limit" error_lower
        then ("transient_failure", "rate_limited")
        else if Py.contains "connection" error_lower
        then ("transient_failure", "connection_error")
        else ("transient_failure", "unknown")
    | None => ("transient_failure", "unknown")
    end in
  match status_code with
  | Some code =>
      if (code =? 0)%Z then by_message
      else if (code =? 404)%Z then ("permanent_failure", "not_found_404")
      else if (code =? 401)%Z || (code =? 403)%Z then ("permanent_failure", "auth_required")
      else if (code =? 429)%Z then ("transient_failure", "rate_limited")
      else if (500 <=? code)%Z then ("transient_failure", "server_error_" ++ Py.str_of_Z code)
      else by_message
  | None => by_message
  end.

(** A row of [enrichment_status], keyed by [(server_name, enrichment_type)]. *)
Record status_row := {
  status : string;
  failure_reason : option string;
  last_attempted_at : string;
  retry_count : Z
}.

Abbreviation status_table := (gmap (string * string) status_row).

(** [update_enrichment_status]; [now] is the timestamp of the call. *)
Definition update_enrichment_status (conn : status_table) (now : string)
    (server_name enrichment_type : string) (success : bool)
    (failure_reason : option string) : status_table :=
  if success then
    <[(server_name, enrichment_type) :=
        {| status := "success"; failure_reason := None;
           last_attempted_at := now; retry_count := 0 |}]> conn
  else
    let '(st, reason) := categorize_enrichment_failure None failure_reason in
    let retries :=
      match conn !! (server_name, enrichment_type) with
      | Some old => (retry_count old + 1)%Z
      | None => 1%Z
      end in
    <[(server_name, enrichment_type) :=
        {| status := st; failure_reason := Some reason;
           last_attempted_at := now; retry_count := retries |}]> conn.

(** [get_permanent_failures]. *)
Definition get_permanent_failures (conn : status_table) (enrichment_type : string)
    : list string :=
  omap (fun kv =>
          if String.eqb (snd (fst kv)) enrichment_type &&
             String.eqb (status (snd kv)) "permanent_failure"
          then Some (fst (fst kv)) else None)
       (map_to_list conn).

(** The candidate rows a worker iterates over. *)
Record package_candidate := {
  pc_server_name : string;
  pc_identifier : string;
  pc_registry_type : string
}.

Record server_candidate := {
  sc_name : string;
  sc_repository_url : option string
}.

(** What the workers write: the domain rows, as the keys they replace, and
    the status table. *)
Record store := {
  github_signals : list string;
  package_downloads : list (string * string * string);
  dependency_signals : list (string * string);
  enrichment_status : status_table
}.

Section Workers.

(** The timestamp taken by each status update. *)
Variable now : string.

(** [parse_github_url]. *)
Variable parse_github_url : option string -> option (string * string).

(** Whether [fetch_github_data] returned data for [owner/repo]. *)
Variable fetch_github_data : string -> string -> bool.

(** Whether [fetch_docker_pulls] returned a pull count for an image. *)
Variable fetch_docker_pulls : string -> bool.

(** Whether [fetch_librariesio_data] returned data for [platform/package]. *)
Variable fetch_librariesio_data : string -> string -> bool.

(** The candidates left after [permanent_failures] are removed. *)
Definition skip_permanent {A : Type} (name_of : A -> string) (conn : status_table)
    (enrichment_type : string) (skip_failures : bool) (rows : list A) : list A :=
  let permanent_failures :=
    if skip_failures then get_permanent_failures conn enrichment_type else [] in
  filter (fun r => name_of r ∉ permanent_failures) rows.

(** The loop of [enrich_github] over [servers]. *)
Definition enrich_github_step (db : store) (server : server_candidate) : store :=
  match parse_github_url (sc_repository_url server) with
  | None => db
  | Some (owner, repo) =>
      if fetch_github_data owner repo then
        {| github_signals := sc_name server :: github_signals db;
           package_downloads := package_downloads db;
           dependency_signals := dependency_signals db;
           enrichment_status := enrichment_status db |}
      else db
  end.

Definition enrich_github (db : store) (servers : list server_candidate)
    (skip_failures : bool) : store :=
  foldl enrich_github_step db
    (skip_permanent sc_name (enrichment_status db) "github" skip_failures servers).

(** The loop of [enrich_docker] over [packages]. *)
Definition enrich_docker_step (db : store) (pkg : package_candidate) : store :=
  let server_name := pc_server_name pkg in
  let image_name := pc_identifier pkg in
  if fetch_docker_pulls image_name then
    {| github_signals := github_signals db;
       package_downloads := (server_name, "docker", image_name) :: package_downloads db;
       dependency_signals := dependency_signals db;
       enrichment_status :=
         update_enrichment_status (enrichment_status db) now server_name "docker" true None |}
  else
    {| github_signals := github_signals db;
       package_downloads := package_downloads db;
       dependency_signals := dependency_signals db;
       enrichment_status :=
         update_enrichment_status (enrichment_status db) now server_name "docker" false
           (Some "image_not_found") |}.

Definition enrich_docker (db : store) (packages : list package_candidate)
    (skip_failures : bool) : store :=
  foldl enrich_docker_step db
    (skip_permanent pc_server_name (enrichment_status db) "docker" skip_failures packages).

(** The loop of [enrich_dependents] over [packages]. *)
Definition enrich_dependents_step (db : store) (pkg : package_candidate) : store :=
  let server_name := pc_server_name pkg in
  let package_name := pc_identifier pkg in
  let platform :=
    Py.dict_get [("npm", "npm"); ("pypi", "pypi")] (pc_registry_type pkg) (pc_registry_type pkg) in
  if fetch_librariesio_data platform package_name then
    {| github_signals := github_signals db;
       package_downloads := package_downloads db;
       dependency_signals := (server_name, package_name) :: dependency_signals db;
       enrichment_status := enrichment_status db |}
  else
    {| github_signals := github_signals db;
       package_downloads := package_downloads db;
       dependency_signals := dependency_signals db;
       enrichment_status :=
         update_enrichment_status (enrichment_status db) now server_name "dependents" false
           (Some "package_not_found") |}.

Definition enrich_dependents (db : store) (packages : list package_candidate)
    (skip_failures : bool) : store :=
  foldl enrich_dependents_step db
    (skip_permanent pc_server_name (enrichment_status db) "dependents" skip_failures packages).

End Workers.

End Enrich.

(* ===================================================================== *)
(** * server.py — the HTTP gateway                                        *)
(* ===================================================================== *)

Module Gateway.

Local Open Scope R_scope.

(** Rows of the connection tables; JSON columns hold the decoded value
    ([None] for SQL [NULL] or an empty text). *)
Record remote_row := {
  rem_server_name : string;
  rem_transport_type : option string;
  rem_url : option string;
  rem_headers : option json
}.

Record package_row := {
  pkg_server_name : string;
  pkg_registry_type : option string;
  pkg_identifier : option string;
  pkg_transport_type : option string;
  pkg_runtime_hint : option string
}.

Record local_source_row := {
  loc_server_name : string;
  loc_command : string;
  loc_args : option (list string);
  loc_working_dir : option string;
  loc_env : option (list (string * string))
}.

Record tables := {
  server_remotes : list remote_row;
  server_packages : list package_row;
  server_local_sources : list local_source_row
}.

(** The dictionary returned by [get_server_connection_info]. *)
Inductive connection_info :=
| Remote (url : option string) (headers : option json)
| Stdio (registry identifier runtime_hint : option string)
| Local (command : string) (args : list string) (cwd : option string)
        (env : list (string * string)).

(** Truthiness of a decoded JSON value. *)
Definition truthy_json (v : option json) : option json :=
  match v with
  | None | Some JNull | Some (JBool false) | Some (JStr EmptyString)
  | Some (JArr []) | Some (JObj []) => None
  | Some (JInt n) => if (n =? 0)%Z then None else v
  | Some (JFloat x) => if Req_dec_T x 0 then None else v
  | other => other
  end.

(** [get_server_connection_info]: the first of a remote row, a stdio package
    row and a local-source row of the server. *)
Definition get_server_connection_info (db : tables) (environ : Placeholders.environ)
    (server_name : string) : option connection_info :=
  match Sql.find_row (fun r => rem_server_name r = server_name) (server_remotes db) with
  | Some remote =>
      let headers := rem_headers remote in
      let headers :=
        match truthy_json headers with
        | Some h => Some (Placeholders.resolve_env_vars environ h)
        | None => headers
        end in
      Some (Remote (rem_url remote) headers)
  | None =>
      match Sql.find_row
              (fun p => pkg_server_name p = server_name ∧ pkg_transport_type p = Some "stdio")
              (server_packages db) with
      | Some pkg =>
          Some (Stdio (pkg_registry_type pkg) (pkg_identifier pkg) (pkg_runtime_hint pkg))
      | None =>
          match Sql.find_row (fun l => loc_server_name l = server_name)
                             (server_local_sources db) with
          | Some loc =>
              Some (Local (loc_command loc) (Sql.coalesce (loc_args loc) [])
                          (loc_working_dir loc) (Sql.coalesce (loc_env loc) []))
          | None => None
          end
      end
  end.

(** [build_stdio_command]. *)
Definition build_stdio_command (registry identifier runtime_hint : option string)
    : option string * list (option string) :=
  match Py.truthy_str runtime_hint with
  | Some hint => (Some hint, [identifier])
  | None =>
      match registry with
      | Some "npm" => (Some "npx", [Some "-y"; Some "--quiet"; identifier])
      | Some "pypi" => (Some "uvx", [Some "--quiet"; identifier])
      | Some "oci" => (Some "docker", [Some "run"; Some "--rm"; Some "-i"; identifier])
      | _ => (Some "npx", [Some "-y"; Some "--quiet"; identifier])
      end
  end.

(** The exceptions the handlers of [call_tool] meet: [asyncio.TimeoutError],
    the [ExceptionGroup] a task group raises for the exceptions it collected,
    and any other [Exception] with its message. *)
#[warnings="-register-all"] Inductive exn :=
| TimeoutError
| OtherException (message : string)
| ExceptionGroup (message : string) (exceptions : list exn).

(** [str(e)]: a group prints its message and the number of exceptions it
    holds. *)
Definition str (e : exn) : string :=
  match e with
  | TimeoutError => EmptyString
  | OtherException message => message
  | ExceptionGroup message exceptions =>
      let n := List.length exceptions in
      message ++ " (" ++ Py.str_of_Z (Z.of_nat n) ++ " sub-exception"
        ++ (if (n =? 1)%nat then EmptyString else "s") ++ ")"
  end.

(** An awaited operation: the seconds it takes and what it produces. *)
Record awaited (A : Type) := {
  elapsed : R;
  outcome : exn + A
}.

Arguments elapsed {A}.
Arguments outcome {A}.

(** [asyncio.wait_for(op, timeout)]. *)
Definition wait_for {A : Type} (op : awaited A) (timeout : R) : exn + A :=
  if Rlt_dec timeout (elapsed op) then inl TimeoutError else outcome op.

(** The behaviour of an opened transport and session: the exception that
    leaves the two [async with] statements when entering them fails, if any,
    then the two awaited calls of the body. *)
Record session := {
  enter : option exn;
  initialize : awaited unit;
  session_call_tool : string -> list (string * json) -> awaited json
}.

(** Leaving an [async with] block of the protocol client.  [ClientSession],
    [stdio_client] and [streamable_http_client] each run the block inside a
    task group, and a task group re-raises the exception of its block as an
    [ExceptionGroup] that holds it. *)
Definition task_group_exit {A : Type} (block : exn + A) : exn + A :=
  match block with
  | inl e => inl (ExceptionGroup "unhandled errors in a TaskGroup" [e])
  | inr result => inr result
  end.

(** The transport a connection attempt reaches. *)
Inductive launch :=
| LaunchHttp (url : option string) (headers : option json)
| LaunchStdio (command : option string) (args : list (option string))
              (extra_env : list (string * string)) (cwd : option string).

(** The answer of the endpoint: the returned value, a raised
    [HTTPException], or the framework's answer to a body that does not fit
    the request model, with its list of errors. *)
Inductive http_response :=
| Ok200 (body : json)
| HTTPException (status_code : Z) (detail : string)
| RequestValidationError (errors : json).

Definition status_of (r : http_response) : Z :=
  match r with
  | Ok200 _ => 200%Z
  | HTTPException code _ => code
  | RequestValidationError _ => 422%Z
  end.

(** [CallRequest]. *)
Record CallRequest := {
  req_server_name : string;
  req_tool_name : string;
  req_arguments : list (string * json)
}.

(** [d.get(key)] on the fields of a JSON object. *)
Fixpoint lookup_field (fields : list (string * json)) (key : string) : option json :=
  match fields with
  | [] => None
  | (k, v) :: rest => if String.eqb k key then Some v else lookup_field rest key
  end.

(** The validation of a request body against [CallRequest]: an object whose
    [server_name] and [tool_name] are strings and whose [arguments], when
    given, is an object ([{}] by default). *)
Definition validate (body : json) : option CallRequest :=
  match body with
  | JObj fields =>
      match lookup_field fields "server_name", lookup_field fields "tool_name" with
      | Some (JStr server_name), Some (JStr tool_name) =>
          match lookup_field fields "arguments" with
          | None =>
              Some {| req_server_name := server_name; req_tool_name := tool_name;
                      req_arguments := [] |}
          | Some (JObj arguments) =>
              Some {| req_server_name := server_name; req_tool_name := tool_name;
                      req_arguments := arguments |}
          | Some _ => None
          end
      | _, _ => None
      end
  | _ => None
  end.

Section Call.

(** The tool-protocol client: the session each launch yields. *)
Variable connect : launch -> session.

(** The errors the framework lists for a body it rejects. *)
Variable validation_errors : json -> json.

(** The two awaited calls inside the [async with] blocks. *)
Definition awaited_calls (s : session) (tool_name : string)
    (arguments : list (string * json)) (timeout : R) : exn + json :=
  match wait_for (initialize s) timeout with
  | inl e => inl e
  | inr _ => wait_for (session_call_tool s tool_name arguments) timeout
  end.

(** The two nested [async with] blocks: the transport, and inside it the
    [ClientSession] around the two awaited calls. *)
Definition run_session (s : session) (tool_name : string)
    (arguments : list (string * json)) (timeout : R) : exn + json :=
  match enter s with
  | Some e => inl e
  | None => task_group_exit (task_group_exit (awaited_calls s tool_name arguments timeout))
  end.

(** The launch chosen for a connection info. *)
Definition launch_of (info : connection_info) : launch :=
  match info with
  | Remote url headers => LaunchHttp url (truthy_json headers)
  | Stdio registry identifier runtime_hint =>
      let '(command, args) := build_stdio_command registry identifier runtime_hint in
      LaunchStdio command args [] None
  | Local command args cwd env => LaunchStdio (Some command) (map Some args) env cwd
  end.

(** [call_tool], the handler of [POST /call]: [except asyncio.TimeoutError]
    comes first, then [except Exception]. *)
Definition call_tool (db : tables) (environ : Placeholders.environ)
    (request : CallRequest) : http_response :=
  match get_server_connection_info db environ (req_server_name request) with
  | None =>
      HTTPException 404
        ("Connection info for server '" ++ req_server_name request ++ "' not found.")
  | Some info =>
      let timeout := 60 in
      match run_session (connect (launch_of info)) (req_tool_name request)
              (req_arguments request) timeout with
      | inr result => Ok200 result
      | inl TimeoutError => HTTPException 504 "Tool execution timed out."
      | inl e => HTTPException 500 (str e)
      end
  end.

(** [POST /call] as the framework serves it: the body is validated against
    [CallRequest], then handed to [call_tool]. *)
Definition post_call (db : tables) (environ : Placeholders.environ) (body : json)
    : http_response :=
  match validate body with
  | Some request => call_tool db environ request
  | None => RequestValidationError (validation_errors body)
  end.

End Call.

(** A registry with one stdio package, and a session whose [initialize]
    answers after 61 seconds. *)
Definition slow_db : tables :=
  {| server_remotes := [];
     server_packages :=
       [ {| pkg_server_name := "acme/slow"; pkg_registry_type := Some "npm";
            pkg_identifier := Some "@acme/slow"; pkg_transport_type := Some "stdio";
            pkg_runtime_hint := None |} ];
     server_local_sources := [] |}.

Definition slow_session : session :=
  {| enter := None;
     initialize := {| elapsed := 61; outcome := inr tt |};
     session_call_tool := fun _ _ => {| elapsed := 1; outcome := inr JNull |} |}.

Definition slow_request : CallRequest :=
  {| req_server_name := "acme/slow"; req_tool_name := "run"; req_arguments := [] |}.

(** The dictionary of one tool, as serialised in a response. *)
Definition opt_str (s : option string) : json :=
  match s with
  | Some v => JStr v
  | None => JNull
  end.

Definition tool_json (t : Retriever.tool_info) : json :=
  JObj [ ("tool_id", JInt (Retriever.ti_tool_id t));
         ("name", JStr (Retriever.ti_name t));
         ("title", opt_str (Retriever.ti_title t));
         ("description", opt_str (Retriever.ti_description t));
         ("input_schema", Sql.coalesce (Retriever.ti_input_schema t) JNull);
         ("requires_auth", JBool (Retriever.ti_requires_auth t));
         ("server",
          JObj [ ("name", JStr (Retriever.ti_server_name t));
                 ("description", opt_str (Retriever.ti_server_description t)) ]) ].

(** [list_server_tools], the handler of [GET /servers/<name>/tools]. *)
Definition list_server_tools (json_loads : string -> option json) (db : Db.tables)
    (server_name : string) : json :=
  let tools := Retriever.get_tools_for_server json_loads db server_name in
  JObj [ ("server", JStr server_name); ("tools", JArr (map tool_json tools)) ].

(** The value of a field of a JSON object. *)
Definition json_field (key : string) (v : json) : option json :=
  match v with
  | JObj fields => Some (Py.dict_get fields key JNull)
  | _ => None
  end.

(** The names of the tools the view lists for a server. *)
Definition server_tool_names (db : Db.tables) (server_name : string) : list string :=
  map Db.vt_tool_name
    (filter (fun vt => Db.vt_server_name vt = server_name) (Db.v_tools_full db)).

(** The response shape of the specification: [tools] is the list of the
    tool names, as strings. *)
Definition tools_are_names : Prop :=
  forall (json_loads : string -> option json) (db : Db.tables) (server_name : string),
    list_server_tools json_loads db server_name =
    JObj [ ("server", JStr server_name);
           ("tools", JArr (map JStr (server_tool_names db server_name))) ].

End Gateway.

(* ===================================================================== *)
(** * enrich.py — the HTTP fetcher                                        *)
(* ===================================================================== *)

Module Fetcher.

Local Open Scope R_scope.

(** What one [requests.get] does: a response with its status code, a
    [requests.exceptions.Timeout], or any other exception. *)
Inductive outcome :=
| Responded (status_code : Z)
| TimedOut
| Failed.

(** The status codes retried with backoff. *)
Definition retried (status_code : Z) : bool :=
  bool_decide (status_code ∈ [429; 500; 502; 503; 504]%Z).

(** The loop [for attempt in range(max_retries + 1)] of
    [exponential_backoff_request], from iteration [attempt] on with [fuel]
    iterations left: the response returned ([None] for no response) and the
    waits slept, in order.  [request i] is what the call of iteration [i]
    does. *)
Fixpoint backoff_from (request : nat -> outcome) (max_retries : Z) (base_delay : R)
    (fuel attempt : nat) : option Z * list R :=
  match fuel with
  | O => (None, [])
  | S fuel' =>
      let wait_time := base_delay * 2 ^ attempt in
      match request attempt with
      | Responded status_code =>
          if (status_code =? 200)%Z then (Some status_code, [])
          else if (status_code =? 404)%Z then (Some status_code, [])
          else if retried status_code then
            if (Z.of_nat attempt <? max_retries)%Z then
              let '(r, sleeps) :=
                backoff_from request max_retries base_delay fuel' (S attempt) in
              (r, wait_time :: sleeps)
            else (Some status_code, [])
          else (Some status_code, [])
      | TimedOut =>
          if (Z.of_nat attempt <? max_retries)%Z then
            let '(r, sleeps) :=
              backoff_from request max_retries base_delay fuel' (S attempt) in
            (r, wait_time :: sleeps)
          else (None, [])
      | Failed => (None, [])
      end
  end.

(** [exponential_backoff_request]. *)
Definition exponential_backoff_request (request : nat -> outcome) (max_retries : Z)
    (base_delay : R) : option Z * list R :=
  backoff_from request max_retries base_delay (Z.to_nat (max_retries + 1)) 0.

(** The waits of a run that slept [n] times. *)
Definition schedule (base_delay : R) (n : nat) : list R :=
  map (fun attempt => base_delay * 2 ^ attempt) (seq 0 n).

(** [sum(xs)] for floats. *)
Definition total (xs : list R) : R := foldr Rplus 0 xs.



End Fetcher.

(* ===================================================================== *)
(** * enrich.py — sequences of status updates                             *)
(* ===================================================================== *)

Module StatusLog.

(** One call of [update_enrichment_status]. *)
Record update := {
  upd_now : string;
  upd_server_name : string;
  upd_enrichment_type : string;
  upd_success : bool;
  upd_failure_reason : option string
}.

Definition apply_update (conn : Enrich.status_table) (u : update) : Enrich.status_table :=
  Enrich.update_enrichment_status conn (upd_now u) (upd_server_name u)
    (upd_enrichment_type u) (upd_success u) (upd_failure_reason u).

(** The calls made one after the other. *)
Definition apply_updates (conn : Enrich.status_table) (us : list update)
    : Enrich.status_table :=
  foldl apply_update conn us.

(** A failed update of one key. *)
Definition failure (server_name enrichment_type : string) (attempt : string * option string)
    : update :=
  {| upd_now := fst attempt; upd_server_name := server_name;
     upd_enrichment_type := enrichment_type; upd_success := false;
     upd_failure_reason := snd attempt |}.

(** The shape of a row: a success has no reason and no retry, a failure is
    of one of the two failure kinds, has a reason and counts at least one
    try. *)
Definition well_formed (row : Enrich.status_row) : Prop :=
  (Enrich.status row = "success" /\ Enrich.failure_reason row = None /\
   Enrich.retry_count row = 0%Z) \/
  ((Enrich.status row = "permanent_failure" \/ Enrich.status row = "transient_failure") /\
   is_Some (Enrich.failure_reason row) /\ (1 <= Enrich.retry_count row)%Z).

(** The retry count stored for a key, 0 when there is no row. *)
Definition retries (conn : Enrich.status_table) (key : string * string) : Z :=
  match conn !! key with
  | Some row => Enrich.retry_count row
  | None => 0%Z
  end.

(** The row a worker leaves for a server it handled at time [now] when it
    passes a reason that is not classified as permanent. *)
Definition attempted (now enrichment_type : string) (conn : Enrich.status_table)
    (server_name : string) : Prop :=
  exists row,
    conn !! (server_name, enrichment_type) = Some row /\
    Enrich.last_attempted_at row = now /\
    (Enrich.status row = "success" \/ Enrich.status row = "transient_failure").

End StatusLog.


(* ===================================================================== *)
(** * enrich.py — the NPM and PyPI download workers                       *)
(* ===================================================================== *)

Module Downloads.

(** The line break of a triple-quoted text. *)
Definition newline : string := String (ascii_of_nat 10) "".

Fixpoint join_lines (lines : list string) : string :=
  match lines with
  | [] => ""
  | l :: rest =>
      match rest with
      | [] => l
      | _ => l ++ newline ++ join_lines rest
      end
  end.

(** The text assigned to [query] in [enrich_npm] and [enrich_pypi], which
    differ in the registry name only. *)
Definition select_text (registry : string) : string :=
  join_lines
    [ "";
      "        SELECT DISTINCT sp.server_name, sp.identifier";
      "        FROM server_packages sp";
      "        LEFT JOIN package_downloads pd ";
      "            ON sp.server_name = pd.server_name ";
      "            AND sp.identifier = pd.package_name";
      "            AND pd.registry_type = '" ++ registry ++ "'";
      "        WHERE sp.registry_type = '" ++ registry ++ "'";
      "          AND (pd.enriched_at IS NULL ";
      "               OR pd.enriched_at < datetime('now', '-1 days'))";
      "    " ].

(** [if limit: query += f" LIMIT {limit}"]. *)
Definition with_limit (query : string) (limit : option Z) : string :=
  match limit with
  | Some n => if (n =? 0)%Z then query else query ++ " LIMIT " ++ Py.str_of_Z n
  | None => query
  end.

Section Workers.

(** The timestamp taken by each status update. *)
Variable now : string.

(** Whether [fetch_npm_downloads] / [fetch_pypi_downloads] returned data. *)
Variable fetch_npm_downloads : string -> bool.
Variable fetch_pypi_downloads : string -> bool.

(** The body of the loop over [packages], the same in both workers up to
    the registry name and the fetcher. *)
Definition enrich_step (registry : string) (fetch : string -> bool)
    (db : Enrich.store) (pkg : Enrich.package_candidate) : Enrich.store :=
  let server_name := Enrich.pc_server_name pkg in
  let package_name := Enrich.pc_identifier pkg in
  if fetch package_name then
    {| Enrich.github_signals := Enrich.github_signals db;
       Enrich.package_downloads :=
         (server_name, registry, package_name) :: Enrich.package_downloads db;
       Enrich.dependency_signals := Enrich.dependency_signals db;
       Enrich.enrichment_status :=
         Enrich.update_enrichment_status (Enrich.enrichment_status db) now server_name
           registry true None |}
  else
    {| Enrich.github_signals := Enrich.github_signals db;
       Enrich.package_downloads := Enrich.package_downloads db;
       Enrich.dependency_signals := Enrich.dependency_signals db;
       Enrich.enrichment_status :=
         Enrich.update_enrichment_status (Enrich.enrichment_status db) now server_name
           registry false (Some "package_not_found") |}.

(** The packages the loop runs over: [fetched] is what the cursor returned
    for the text in [query]; the permanent failures are taken out, and then
    the rows whose server name does not contain [query.lower()], where
    [query] is by now the SQL text and no longer the caller's argument. *)
Definition selected (registry : string) (conn : Enrich.status_table)
    (fetched : list Enrich.package_candidate) (limit : option Z) (skip_failures : bool)
    : list Enrich.package_candidate :=
  let query := with_limit (select_text registry) limit in
  let packages := Enrich.skip_permanent Enrich.pc_server_name conn registry skip_failures fetched in
  match Py.truthy_str (Some query) with
  | Some query =>
      let q := Py.lower query in
      filter (fun p => Py.contains q (Py.lower (Enrich.pc_server_name p)) = true) packages
  | None => packages
  end.

Definition enrich_npm (db : Enrich.store) (fetched : list Enrich.package_candidate)
    (limit : option Z) (skip_failures : bool) : Enrich.store :=
  foldl (enrich_step "npm" fetch_npm_downloads) db
    (selected "npm" (Enrich.enrichment_status db) fetched limit skip_failures).

Definition enrich_pypi (db : Enrich.store) (fetched : list Enrich.package_candidate)
    (limit : option Z) (skip_failures : bool) : Enrich.store :=
  foldl (enrich_step "pypi" fetch_pypi_downloads) db
    (selected "pypi" (Enrich.enrichment_status db) fetched limit skip_failures).

End Workers.

End Downloads.

(* ===================================================================== *)
(** * enrich.py — GitHub URLs and Docker image names                      *)
(* ===================================================================== *)

Module Urls.

(** The longest prefix of [s] whose characters satisfy [p], and what
    follows it: a greedy character class. *)
Fixpoint span (p : ascii -> bool) (s : string) : string * string :=
  match s with
  | EmptyString => (EmptyString, EmptyString)
  | String c t =>
      if p c then let '(taken, rest) := span p t in (String c taken, rest)
      else (EmptyString, s)
  end.

Fixpoint all_chars (p : ascii -> bool) (s : string) : bool :=
  match s with
  | EmptyString => true
  | String c t => p c && all_chars p t
  end.

(** [c in chars]. *)
Fixpoint in_chars (c : ascii) (chars : string) : bool :=
  match chars with
  | EmptyString => false
  | String d t => Ascii.eqb c d || in_chars c t
  end.

(** [s.rstrip(chars)]: the trailing characters that occur in [chars] are
    removed. *)
Fixpoint rstrip_chars (chars s : string) : string :=
  match s with
  | EmptyString => EmptyString
  | String c t =>
      match rstrip_chars chars t with
      | EmptyString => if in_chars c chars then EmptyString else String c EmptyString
      | t' => String c t'
      end
  end.

(** The classes [[^/]] and [[^/\.]]. *)
Definition not_slash (c : ascii) : bool := negb (Ascii.eqb c "/").

Definition not_slash_dot (c : ascii) : bool :=
  negb (Ascii.eqb c "/") && negb (Ascii.eqb c ".").

(** A match of [github\.com[/:]([^/]+)/([^/\.]+)] anchored at the start of
    [s]: groups 1 and 2. Group 1 is the whole run up to the next slash (a
    shorter one is not followed by a slash), group 2 the whole run up to the
    next slash or dot. *)
Definition match_github (s : string) : option (string * string) :=
  match Placeholders.strip_prefix "github.com" s with
  | Some (String sep rest) =>
      if Ascii.eqb sep "/" || Ascii.eqb sep ":" then
        match span not_slash rest with
        | (String c o, String _ rest') =>
            match span not_slash_dot rest' with
            | (String d r, _) => Some (String c o, String d r)
            | _ => None
            end
        | _ => None
        end
      else None
  | _ => None
  end.

(** A match of [raw\.githubusercontent\.com/([^/]+)/([^/]+)] anchored at
    the start of [s]. *)
Definition match_raw (s : string) : option (string * string) :=
  match Placeholders.strip_prefix "raw.githubusercontent.com/" s with
  | Some rest =>
      match span not_slash rest with
      | (String c o, String _ rest') =>
          match span not_slash rest' with
          | (String d r, _) => Some (String c o, String d r)
          | _ => None
          end
      | _ => None
      end
  | None => None
  end.

(** [re.search]: the match at the leftmost position that has one. *)
Fixpoint search (match_at : string -> option (string * string)) (s : string)
    : option (string * string) :=
  match match_at s with
  | Some groups => Some groups
  | None =>
      match s with
      | EmptyString => None
      | String _ t => search match_at t
      end
  end.

(** [parse_github_url]. *)
Definition parse_github_url (url : option string) : option (string * string) :=
  match Py.truthy_str url with
  | None => None
  | Some url =>
      match search match_github url with
      | Some (owner, repo) => Some (owner, rstrip_chars ".git" repo)
      | None =>
          match search match_raw url with
          | Some (owner, repo) => Some (owner, rstrip_chars ".git" repo)
          | None => None
          end
      end
  end.

(** [s.split(sep)] for a one-character separator. *)
Fixpoint split (sep : ascii) (s : string) : list string :=
  match s with
  | EmptyString => [EmptyString]
  | String c t =>
      if Ascii.eqb c sep then EmptyString :: split sep t
      else
        match split sep t with
        | first :: others => String c first :: others
        | [] => [String c EmptyString]
        end
  end.

(** [sep.join(parts)]. *)
Fixpoint join (sep : string) (parts : list string) : string :=
  match parts with
  | [] => EmptyString
  | p :: rest =>
      match rest with
      | [] => p
      | _ => p ++ sep ++ join sep rest
      end
  end.

(** The namespace and the repository [fetch_docker_pulls] asks Docker Hub
    about. *)
Definition docker_repository (image : string) : string * string :=
  let parts := split "/" image in
  let '(namespace, repo) :=
    match parts with
    | [] => ("library", EmptyString)
    | [only] => ("library", only)
    | first :: rest => (first, join "/" rest)
    end in
  (namespace, hd EmptyString (split ":" repo)).

End Urls.

(* ===================================================================== *)
(** * enrich.py — what the backlink scorer stores                         *)
(* ===================================================================== *)

Module Scores.

Local Open Scope R_scope.

(** The key under which the scoring loop remembers a referencer:
    [(repo_fullname.lower(), tier)]. *)
Definition edge_key (e : Backlinks.edge) : string * string :=
  (Py.lower (Backlinks.edge_referencer_repo e), Backlinks.edge_tier e).

(** [SUM(edge_score)] over a set of edges (0 for none). *)
Definition edge_total (edges : list Backlinks.edge) : R :=
  foldr (fun e acc => Backlinks.edge_score e + acc) 0 edges.

(** The rows of [backlink_edges] written for one server. *)
Definition edges_of (server_name : string) (edges : list Backlinks.edge)
    : list Backlinks.edge :=
  filter (fun e => Backlinks.edge_server_name e = server_name) edges.

(** What holds of an edge stored for [server_name], whose own repository is
    [own_repo]. *)
Definition edge_ok (server_name : string) (own_repo : option string)
    (e : Backlinks.edge) : Prop :=
  Backlinks.edge_server_name e = server_name /\
  Backlinks.edge_tier e = "tier1_config" /\
  Backlinks.edge_tier_weight e = 1 /\
  Backlinks.edge_referencer_repo e <> "" /\
  own_repo <> Some (Py.lower (Backlinks.edge_referencer_repo e)).

(** The state of the scoring loop agrees with the edges it has buffered. *)
Definition state_ok (server_name : string) (own_repo : option string)
    (st : Backlinks.scoring_state) : Prop :=
  Backlinks.st_tier1 st = edge_total (Backlinks.st_edges_to_store st) /\
  Forall (edge_ok server_name own_repo) (Backlinks.st_edges_to_store st) /\
  Forall (fun e => edge_key e ∈ Backlinks.st_unique_repos st) (Backlinks.st_edges_to_store st) /\
  NoDup (map edge_key (Backlinks.st_edges_to_store st)).

End Scores.

(* ===================================================================== *)
(** * enrich.py — GitHub code search and configuration references         *)
(* ===================================================================== *)

Module CodeSearch.

(** The header [X-RateLimit-Reset] of a 403 answer: missing or empty, not
    an integer, or the time stamp it holds. *)
Inductive reset_header :=
| NoReset
| BadReset
| ResetAt (reset_ts : Z).

(** What one request to the code search does: a 200 answer with its
    [total_count] and the [repository.full_name] of each item (empty when
    missing), a 403 answer with its reset header and the time at which it is
    read, an answer with another status, or an exception. *)
Inductive answer :=
| Found (total_count : Z) (names : list string)
| Forbidden (reset : reset_header) (now : Z)
| OtherStatus (status_code : Z)
| Raised.

(** The loop over [data['items']]: names are kept once, in order of first
    appearance, and empty ones dropped. *)
Fixpoint collect (repos : list string) (names : list string) : list string :=
  match names with
  | [] => repos
  | repo_name :: rest =>
      if negb (String.eqb repo_name "") && negb (bool_decide (repo_name ∈ repos))
      then collect (repos ++ [repo_name]) rest
      else collect repos rest
  end.

(** The wait before retry number [retry_count + 1]. *)
Definition wait_secs (reset : reset_header) (now : Z) (retry_count : nat) : Z :=
  match reset with
  | ResetAt reset_ts => Z.min (Z.max (reset_ts - now + 5) 30) 120
  | NoReset | BadReset => 60 * 2 ^ Z.of_nat retry_count
  end.

(** [search_github_code] from the call with [retry_count] on: the pair
    returned and the waits slept, in order.  [request i] is the answer to
    the call made with [retry_count = i]; [fuel] bounds the calls. *)
Fixpoint search_from (request : nat -> answer) (fuel retry_count : nat)
    : (Z * list string) * list Z :=
  match fuel with
  | O => ((0, []), [])
  | S fuel' =>
      match request retry_count with
      | Found total names => ((total, collect [] names), [])
      | Forbidden reset now =>
          if (retry_count <? 3)%nat then
            let w := wait_secs reset now retry_count in
            let '(r, waits) := search_from request fuel' (S retry_count) in
            (r, w :: waits)
          else ((0, []), [])
      | OtherStatus _ => ((0, []), [])
      | Raised => ((0, []), [])
      end
  end%Z.

Definition search_github_code (request : nat -> answer) (retry_count : nat)
    : (Z * list string) * list Z :=
  search_from request (S (3 - retry_count)) retry_count.

(** [get_own_repo]: group 1 of [github\.com[/:]([^/]+/[^/\.]+)]. *)
Definition get_own_repo (repo_url : option string) : option string :=
  match Py.truthy_str repo_url with
  | Some url =>
      if Py.contains "github.com" url then
        match Urls.search Urls.match_github url with
        | Some (owner, repo) => Some (owner ++ "/" ++ repo)
        | None => None
        end
      else None
  | None => None
  end.

(** The [reference_count] and [sample_repos] written to
    [config_references] for what one search returned. *)
Definition config_reference_of (own_repo : option string) (found : Z * list string)
    : Z * option (list string) :=
  let '(total, repos) := found in
  let '(total, repos) :=
    match Py.truthy_str own_repo with
    | Some own =>
        let repos := filter (fun r => Py.lower r <> Py.lower own) repos in
        let total :=
          if bool_decide (Py.lower own ∈ map Py.lower repos)
          then Z.max 0 (total - 1) else total in
        (total, repos)
    | None => (total, repos)
    end in
  (total, match repos with
          | [] => None
          | _ => Some (take 5 repos)
          end).

End CodeSearch.

(* ===================================================================== *)
(** * enrich.py — service cost hints                                      *)
(* ===================================================================== *)

Module Costs.

(** [KNOWN_PAID_SERVICES]: the service name, whether a free tier is
    available, and the pricing note, by key. *)
Definition KNOWN_PAID_SERVICES : list (string * (string * bool * string)) :=
  [
    ("openai", ("OpenAI", false, "Pay-per-token, ~$0.002-0.12/1K tokens"));
    ("anthropic", ("Anthropic Claude", false, "Pay-per-token, ~$0.003-0.075/1K tokens"));
    ("cohere", ("Cohere", true, "Free tier: 100 calls/min"));
    ("replicate", ("Replicate", true, "Free tier available, then pay-per-use"));
    ("huggingface", ("Hugging Face", true, "Free tier for inference API"));
    ("pinecone", ("Pinecone", true, "Free tier: 1 index"));
    ("weaviate", ("Weaviate Cloud", true, "Free sandbox available"));
    ("supabase", ("Supabase", true, "Free tier: 500MB"));
    ("firebase", ("Firebase", true, "Generous free tier"));
    ("stripe", ("Stripe", false, "Transaction fees only"));
    ("twilio", ("Twilio", true, "Free trial credits"));
    ("sendgrid", ("SendGrid", true, "Free: 100 emails/day"));
    ("aws", ("AWS", true, "Free tier for 12 months"));
    ("gcp", ("Google Cloud", true, "Free tier + $300 credit"));
    ("azure", ("Azure", true, "Free tier + $200 credit"));
    ("notion", ("Notion", true, "Free for personal use"));
    ("slack", ("Slack", true, "Free tier available"));
    ("discord", ("Discord", true, "Free for bots"));
    ("github", ("GitHub", true, "Free for public repos"));
    ("gitlab", ("GitLab", true, "Free tier available"));
    ("jira", ("Jira", true, "Free for small teams"));
    ("linear", ("Linear", true, "Free tier available"));
    ("airtable", ("Airtable", true, "Free tier available"));
    ("figma", ("Figma", true, "Free for 3 files"));
    ("spotify", ("Spotify", true, "Free API access"));
    ("twitter", ("Twitter/X", true, "Free: 1500 tweets/mo"));
    ("google", ("Google APIs", true, "Various free tiers"));
    ("brave", ("Brave Search", true, "Free: 2000 queries/mo"));
    ("perplexity", ("Perplexity", false, "Pay-per-query"));
    ("exa", ("Exa", true, "Free tier available"));
    ("serpapi", ("SerpAPI", true, "Free: 100 searches/mo"));
    ("wolfram", ("Wolfram Alpha", true, "Free: 2000/mo non-commercial")) ].

(** The second component of [KNOWN_PAID_SERVICES.get(key, (None, True, None))]. *)
Definition free_available_of (key : string) : bool :=
  snd (fst (Py.dict_get KNOWN_PAID_SERVICES key ("", true, ""))).

(** A row of [service_cost_hints]. *)
Record cost_hint := {
  requires_paid_service : bool;
  paid_services : option (list string);
  free_tier_available : option bool;
  notes : option string
}.

(** One iteration of the loop over [KNOWN_PAID_SERVICES.items()], on the
    pair [(paid_services, has_free_tier)]. *)
Definition check_service (vars_lower : string) (acc : list string * bool)
    (entry : string * (string * bool * string)) : list string * bool :=
  let '(service_key, (service_name, free_available, _)) := entry in
  let '(paid, has_free_tier) := acc in
  if Py.contains service_key vars_lower
  then ((paid ++ [service_name])%list, if free_available then has_free_tier else false)
  else (paid, has_free_tier).

(** The body of the loop of [analyze_service_costs] for a server whose
    secret variable names are concatenated in [secret_vars] ([None] for SQL
    [NULL]): the row written, if any. *)
Definition analyze (secret_vars : option string) : option cost_hint :=
  let secret_vars := Sql.coalesce secret_vars "" in
  let vars_lower := Py.lower secret_vars in
  let '(paid, has_free_tier) :=
    foldl (check_service vars_lower) ([], true) KNOWN_PAID_SERVICES in
  let some_paid := negb (bool_decide (paid = [])) in
  let some_vars := negb (String.eqb secret_vars "") in
  if some_paid || some_vars then
    let requires_paid :=
      (0 <? List.length paid)%nat &&
      negb (forallb (fun s => free_available_of (Py.lower s)) paid) in
    Some {| requires_paid_service := requires_paid;
            paid_services := if some_paid then Some paid else None;
            free_tier_available := if some_paid then Some has_free_tier else None;
            notes := if some_vars && negb some_paid
                     then Some ("Secret vars: " ++ secret_vars) else None |}
  else None.

End Costs.

(* ===================================================================== *)
(** * mcp_client.py — extraction status                                   *)
(* ===================================================================== *)

Module McpClient.

Definition permanent_patterns : list (string * string) :=
  [ ("not found", "package_not_found");
    ("404", "http_404");
    ("could not determine executable", "no_executable");
    ("no such file or directory", "file_not_found");
    ("package not found", "package_not_found");
    ("module not found", "module_not_found");
    ("registry error", "registry_error");
    ("invalid url", "invalid_url") ].

Definition auth_patterns : list (string * string) :=
  [ ("401", "http_401");
    ("403", "http_403");
    ("unauthorized", "unauthorized");
    ("forbidden", "forbidden");
    ("authentication required", "auth_required") ].

Definition docker_patterns : list (string * string) :=
  [ ("docker", "docker_not_running");
    ("container", "container_error");
    ("daemon", "daemon_not_running") ].

Definition transient_patterns : list (string * string) :=
  [ ("timeout", "timeout");
    ("timed out", "timeout");
    ("connection refused", "connection_refused");
    ("connection reset", "connection_reset");
    ("rate limit", "rate_limited");
    ("500", "http_500");
    ("502", "http_502");
    ("503", "http_503");
    ("504", "http_504");
    ("server error", "server_error") ].

Definition protocol_errors : list (string * string) :=
  [ ("taskgroup", "mcp_protocol_error");
    ("sub-exception", "mcp_protocol_error");
    ("unhandled errors", "mcp_protocol_error");
    ("too many values to unpack", "mcp_response_error");
    ("cannot unpack", "mcp_response_error");
    ("not enough values", "mcp_response_error");
    ("unexpected keyword argument", "mcp_sdk_error");
    ("type error", "mcp_type_error");
    ("attribute error", "mcp_attribute_error");
    ("json decode", "mcp_invalid_response");
    ("invalid json", "mcp_invalid_response") ].

(** [for pattern, reason in patterns: if pattern in error_lower: return
    reason]. *)
Fixpoint first_reason (patterns : list (string * string)) (error_lower : string)
    : option string :=
  match patterns with
  | [] => None
  | (pattern, reason) :: rest =>
      if Py.contains pattern error_lower then Some reason
      else first_reason rest error_lower
  end.

(** [categorize_failure]: the pair [(failure_category, failure_reason)]. *)
Definition categorize_failure (error_message : option string) : string * string :=
  match Py.truthy_str error_message with
  | None => ("unknown", "no error message")
  | Some msg =>
      let error_lower := Py.lower msg in
      match first_reason permanent_patterns error_lower with
      | Some reason => ("permanent", reason)
      | None =>
      match first_reason auth_patterns error_lower with
      | Some reason => ("auth_required", reason)
      | None =>
      match first_reason docker_patterns error_lower with
      | Some reason => ("permanent", reason)
      | None =>
      match first_reason transient_patterns error_lower with
      | Some reason => ("transient", reason)
      | None =>
      match first_reason protocol_errors error_lower with
      | Some reason => ("permanent", reason)
      | None => ("transient", "unknown_error")
      end end end end end
  end.

(** A row of [tool_extraction_status], keyed by [server_name]. *)
Record extraction_row := {
  status : string;
  failure_category : option string;
  failure_reason : option string;
  tools_count : Z;
  resources_count : Z;
  prompts_count : Z;
  connection_method : option string;
  last_attempted_at : option string;
  last_successful_at : option string;
  retry_count : Z
}.

Abbreviation status_table := (gmap string extraction_row).

(** [update_extraction_status]; [now] is the timestamp of the call. *)
Definition update_extraction_status (conn : status_table) (now : string)
    (server_name : string) (success : bool) (method : string)
    (error_message : option string) (tools resources prompts : Z) : status_table :=
  if success then
    <[server_name :=
        {| status := "success"; failure_category := None; failure_reason := None;
           tools_count := tools; resources_count := resources; prompts_count := prompts;
           connection_method := Some method;
           last_attempted_at := Some now; last_successful_at := Some now;
           retry_count := 0 |}]> conn
  else
    let '(category, reason) := categorize_failure error_message in
    let new_status :=
      if String.eqb category "permanent" then "permanent_failure" else "transient_failure" in
    match conn !! server_name with
    | None =>
        <[server_name :=
            {| status := new_status; failure_category := Some category;
               failure_reason := Some reason;
               tools_count := 0; resources_count := 0; prompts_count := 0;
               connection_method := Some method;
               last_attempted_at := Some now; last_successful_at := None;
               retry_count := 1 |}]> conn
    | Some old =>
        <[server_name :=
            {| status := new_status; failure_category := Some category;
               failure_reason := Some reason;
               tools_count := tools_count old; resources_count := resources_count old;
               prompts_count := prompts_count old;
               connection_method := Some method;
               last_attempted_at := Some now;
               last_successful_at := last_successful_at old;
               retry_count := (retry_count old + 1)%Z |}]> conn
    end.

(** One call of [update_extraction_status]. *)
Record update := {
  upd_now : string;
  upd_server_name : string;
  upd_success : bool;
  upd_method : string;
  upd_error : option string;
  upd_tools : Z;
  upd_resources : Z;
  upd_prompts : Z
}.

Definition apply_update (conn : status_table) (u : update) : status_table :=
  update_extraction_status conn (upd_now u) (upd_server_name u) (upd_success u)
    (upd_method u) (upd_error u) (upd_tools u) (upd_resources u) (upd_prompts u).

(** The shape of a row written by [update_extraction_status]. *)
Definition well_formed (row : extraction_row) : Prop :=
  (status row = "success" /\ failure_category row = None /\ failure_reason row = None /\
   retry_count row = 0%Z /\ is_Some (last_successful_at row) /\
   last_successful_at row = last_attempted_at row) \/
  ((status row = "permanent_failure" /\ failure_category row = Some "permanent" \/
    status row = "transient_failure" /\
    (failure_category row = Some "transient" \/
     failure_category row = Some "auth_required" \/
     failure_category row = Some "unknown")) /\
   is_Some (failure_reason row) /\ (1 <= retry_count row)%Z /\
   (last_successful_at row = None ->
    tools_count row = 0%Z /\ resources_count row = 0%Z /\ prompts_count row = 0%Z)).

End McpClient.

(* ===================================================================== *)
(** * mcp_client.py — which servers are tried, and what a try records     *)
(* ===================================================================== *)

Module Connectable.

Record remote_row := {
  rem_server_name : string;
  rem_transport_type : option string;
  rem_url : option string;
  rem_headers_json : option string
}.

Record package_row := {
  pkg_server_name : string;
  pkg_registry_type : option string;
  pkg_identifier : option string;
  pkg_version : option string;
  pkg_runtime_hint : option string;
  pkg_transport_type : option string
}.

Record local_row := {
  loc_server_name : string;
  loc_command : option string;
  loc_args_json : option string;
  loc_working_dir : option string;
  loc_env_json : option string
}.

#[global] Instance remote_row_eq_dec : EqDecision remote_row.
Proof. solve_decision. Defined.

#[global] Instance package_row_eq_dec : EqDecision package_row.
Proof. solve_decision. Defined.

#[global] Instance local_row_eq_dec : EqDecision local_row.
Proof. solve_decision. Defined.

(** The tables read and written: the names in [servers], the connection
    tables, [environment_variables] as [(server_name, is_secret)], [tools]
    as [(server_name, tool_name)], and [tool_extraction_status]. *)
Record tables := {
  servers : list string;
  server_remotes : list remote_row;
  server_packages : list package_row;
  server_local_sources : list local_row;
  environment_variables : list (string * bool);
  tools : list (string * string);
  tool_extraction_status : McpClient.status_table
}.

(** An entry of the list returned by [get_connectable_servers]. *)
Inductive server_dict :=
| RemoteServer (row : remote_row) (requires_auth : bool)
| StdioServer (row : package_row)
| LocalServer (row : local_row).

Definition name_of (d : server_dict) : string :=
  match d with
  | RemoteServer row _ => rem_server_name row
  | StdioServer row => pkg_server_name row
  | LocalServer row => loc_server_name row
  end.

Definition connection_method_of (d : server_dict) : string :=
  match d with
  | RemoteServer _ _ => "remote"
  | StdioServer _ => "stdio"
  | LocalServer _ => "local"
  end.

(** [SELECT COUNT( * ) ... WHERE server_name = ? AND is_secret = 1] is
    positive. *)
Definition has_secret (db : tables) (server_name : string) : bool :=
  (0 <? List.length
          (filter (fun e => fst e = server_name /\ snd e = true)
                  (environment_variables db)))%nat.

(** [server_name in skip_set]. *)
Definition in_skip_set (db : tables) (skip_extracted : bool) (server_name : string) : bool :=
  if skip_extracted then
    bool_decide (server_name ∈ map fst (tools db)) ||
    match tool_extraction_status db !! server_name with
    | Some row => String.eqb (McpClient.status row) "permanent_failure"
    | None => false
    end
  else false.

(** [SELECT DISTINCT ... FROM servers s JOIN t ON s.name = t.server_name]. *)
Definition joined {A : Type} `{EqDecision A} (db : tables) (name : A -> string)
    (rows : list A) : list A :=
  remove_dups (s ← servers db; filter (fun r => name r = s) rows).

(** [get_connectable_servers]. *)
Definition get_connectable_servers (db : tables) (skip_auth skip_extracted : bool)
    (query : option string) : list server_dict :=
  let remotes :=
    omap (fun row =>
            let server_name := rem_server_name row in
            if in_skip_set db skip_extracted server_name then None
            else
              let requires_auth := has_secret db server_name in
              if skip_auth && requires_auth then None
              else Some (RemoteServer row requires_auth))
         (joined db rem_server_name
            (filter (fun r => is_Some (Py.truthy_str (rem_url r))) (server_remotes db))) in
  let stdios :=
    omap (fun row =>
            let server_name := pkg_server_name row in
            if in_skip_set db skip_extracted server_name then None
            else if skip_auth && has_secret db server_name then None
            else Some (StdioServer row))
         (joined db pkg_server_name
            (filter (fun p => pkg_transport_type p = Some "stdio") (server_packages db))) in
  let locals :=
    omap (fun row =>
            if in_skip_set db skip_extracted (loc_server_name row) then None
            else Some (LocalServer row))
         (joined db loc_server_name (server_local_sources db)) in
  let servers := (remotes ++ stdios ++ locals)%list in
  match Py.truthy_str query with
  | Some query =>
      let query := Py.lower query in
      filter (fun s => Py.contains query (Py.lower (name_of s)) = true) servers
  | None => servers
  end.

(** What a fetch returned: the names of the tools, the numbers of
    resources and prompts, and the error message. *)
Record fetched := {
  fetched_tools : list string;
  fetched_resources : nat;
  fetched_prompts : nat;
  fetched_error : option string
}.

(** [save_tools] on the [(server_name, tool_name)] keys: [INSERT OR REPLACE]
    under [UNIQUE(server_name, tool_name)]. *)
Definition save_tools (rows : list (string * string)) (server_name : string)
    (tool_names : list string) : list (string * string) :=
  foldl (fun rows tool_name =>
           (filter (fun r => r <> (server_name, tool_name)) rows
            ++ [(server_name, tool_name)])%list)
        rows tool_names.

(** [extract_from_server], after the fetch: the tables as it leaves them
    and the value returned. *)
Definition extract_from_server (db : tables) (now : string) (server : server_dict)
    (result : fetched) : tables * bool :=
  let server_name := name_of server in
  let connection_method := connection_method_of server in
  let n_tools := List.length (fetched_tools result) in
  let success :=
    bool_decide (fetched_error result = None) &&
    ((0 <? n_tools)%nat || (0 <? fetched_resources result)%nat
     || (0 <? fetched_prompts result)%nat) in
  let status :=
    McpClient.update_extraction_status (tool_extraction_status db) now server_name success
      connection_method (fetched_error result)
      (Z.of_nat n_tools) (Z.of_nat (fetched_resources result))
      (Z.of_nat (fetched_prompts result)) in
  ({| servers := servers db;
      server_remotes := server_remotes db;
      server_packages := server_packages db;
      server_local_sources := server_local_sources db;
      environment_variables := environment_variables db;
      tools := if success then save_tools (tools db) server_name (fetched_tools result)
               else tools db;
      tool_extraction_status := status |},
   success).

(** When an entry is among the servers to try, in words. *)
Definition eligible (db : tables) (skip_auth skip_extracted : bool) (query : option string)
    (d : server_dict) : Prop :=
  name_of d ∈ servers db /\
  in_skip_set db skip_extracted (name_of d) = false /\
  (forall q, Py.truthy_str query = Some q ->
             Py.contains (Py.lower q) (Py.lower (name_of d)) = true) /\
  match d with
  | RemoteServer row requires_auth =>
      row ∈ server_remotes db /\ is_Some (Py.truthy_str (rem_url row)) /\
      requires_auth = has_secret db (rem_server_name row) /\
      skip_auth && requires_auth = false
  | StdioServer row =>
      row ∈ server_packages db /\ pkg_transport_type row = Some "stdio" /\
      skip_auth && has_secret db (pkg_server_name row) = false
  | LocalServer row => row ∈ server_local_sources db
  end.

End Connectable.

(* ===================================================================== *)
(** * relevance.py — storing the embeddings                               *)
(* ===================================================================== *)

Module Embeddings.

Section Update.

(** The embedding vectors and the model's [encode] for one document. *)
Variable embedding : Type.

Variable encode : string -> embedding.

(** [range(0, total, step)] for a positive [step]. *)
Definition range_step (total step : nat) : list nat :=
  map (fun k => k * step)%nat (seq 0 ((total + step - 1) / step)).

(** The body of the loop for one batch of [(tool_id, full_doc)] rows:
    [INSERT OR REPLACE INTO tool_embeddings] for every row of the batch. *)
Definition store_batch (tool_embeddings : gmap Z embedding) (batch : list (Z * string))
    : gmap Z embedding :=
  let batch_ids := map fst batch in
  let batch_docs := map snd batch in
  let embeddings := map encode batch_docs in
  foldl (fun te p => <[fst p := snd p]> te) tool_embeddings (zip batch_ids embeddings).

(** [update_embeddings] on the [(tool_id, full_doc)] columns of
    [tools_search]: the table [tool_embeddings] it leaves; [None] when
    [range] raises for a zero step. *)
Definition update_embeddings (tools_search : list (Z * string))
    (tool_embeddings : gmap Z embedding) (batch_size : Z) : option (gmap Z embedding) :=
  let rows := filter (fun ts => tool_embeddings !! fst ts = None) tools_search in
  match rows with
  | [] => Some tool_embeddings
  | _ :: _ =>
      let total_tools := List.length rows in
      if (batch_size =? 0)%Z then None
      else if (batch_size <? 0)%Z then Some tool_embeddings
      else
        let step := Z.to_nat batch_size in
        Some (foldl (fun te i => store_batch te (take step (drop i rows)))
                    tool_embeddings (range_step total_tools step))
  end.

End Update.

End Embeddings.
(* ===================================================================== *)
(** * sdk/wisp_sdk/client.py — the client of the gateway                  *)
(* ===================================================================== *)

Module Sdk.

(** What a call of the client ends in: the returned value, one of the
    errors of [errors.py] with its message (and status), or the
    [AttributeError] of a [.get] on a value that is no dictionary. *)
Inductive outcome :=
| Returned (data : json)
| WispTimeoutError (message : string)
| WispAPIError (message : string) (status_code : Z)
| WispConnectionError (message : string)
| AttributeError.

Section Client.

(** [f"{detail}"] for a detail that is not a string. *)
Variable format_detail : json -> string.

(** [_handle_response] on an answer of the gateway: a raised
    [HTTPException] reaches the client as its status code with the body
    [{"detail": detail}], a rejected body as 422 with the list of errors as
    detail. *)
Definition handle_response (response : Gateway.http_response) : outcome :=
  match response with
  | Gateway.Ok200 body => Returned body
  | Gateway.HTTPException status detail =>
      if (status <? 400)%Z then Returned (JObj [("detail", JStr detail)])
      else if (status =? 504)%Z then WispTimeoutError ("Request timed out: " ++ detail)
      else WispAPIError (detail ++ " (Status: " ++ Py.str_of_Z status ++ ")") status
  | Gateway.RequestValidationError errors =>
      WispAPIError (format_detail errors ++ " (Status: 422)") 422
  end.

(** The body [call] posts: [arguments or {}] replaces a falsy value. *)
Definition payload (server_name tool_name arguments : json) : json :=
  JObj [ ("server_name", server_name);
         ("tool_name", tool_name);
         ("arguments", Sql.coalesce (Gateway.truthy_json (Some arguments)) (JObj [])) ].

(** [WispClient.call]: [client_error] is the message of the
    [aiohttp.ClientError] raised when the gateway is not reached, [post] the
    gateway's answer to a body posted to [/call]. *)
Definition call (client_error : option string) (post : json -> Gateway.http_response)
    (server_name tool_name arguments : json) : outcome :=
  let payload := payload server_name tool_name arguments in
  match client_error with
  | Some e => WispConnectionError ("Failed to connect to Wisp: " ++ e)
  | None => handle_response (post payload)
  end.

(** [WispClient.list_tools], declared to return [List[str]]: [get] is the
    gateway's answer to [GET /servers/<server_name>/tools]. *)
Definition list_tools (client_error : option string)
    (get : string -> Gateway.http_response) (server_name : string) : outcome :=
  match client_error with
  | Some e => WispConnectionError ("Failed to connect to Wisp: " ++ e)
  | None =>
      match handle_response (get server_name) with
      | Returned (JObj fields) => Returned (Py.dict_get fields "tools" (JArr []))
      | Returned _ => AttributeError
      | raised => raised
      end
  end.

End Client.

End Sdk.

(* ===================================================================== *)
(** * Facts about the primitives                                          *)
(* ===================================================================== *)

Section PrimitiveFacts.

Local Open Scope R_scope.

Lemma one_point_zero : 1.0 = 1.
Proof. lra. Qed.

Lemma zero_point_zero : 0.0 = 0.
Proof. lra. Qed.

Lemma log1p_0 : Py.log1p 0 = 0.
Proof. unfold Py.log1p. rewrite Rplus_0_r. apply ln_1. Qed.

Lemma log1p_pos (x : R) : 0 < x -> 0 < Py.log1p x.
Proof.
  intros Hx. unfold Py.log1p. rewrite <- ln_1.
  apply ln_increasing; lra.
Qed.

Lemma log1p_nonneg (x : R) : 0 <= x -> 0 <= Py.log1p x.
Proof.
  intros [Hx | <-].
  - left. by apply log1p_pos.
  - rewrite log1p_0. lra.
Qed.

Lemma log1p_mono (x y : R) : 0 <= x -> x <= y -> Py.log1p x <= Py.log1p y.
Proof.
  intros Hx [Hlt | ->]; [|lra].
  left. unfold Py.log1p. apply ln_increasing; lra.
Qed.

Lemma log10_1 : Py.log10 1 = 0.
Proof. unfold Py.log10. rewrite ln_1. lra. Qed.

Lemma ln_10_pos : 0 < ln 10.
Proof. rewrite <- ln_1. apply ln_increasing; lra. Qed.

Lemma log10_nonneg (x : R) : 1 <= x -> 0 <= Py.log10 x.
Proof.
  intros Hx. unfold Py.log10.
  apply Rmult_le_pos.
  - destruct Hx as [Hx | <-]; [|rewrite ln_1; lra].
    left. rewrite <- ln_1. apply ln_increasing; lra.
  - left. apply Rinv_0_lt_compat, ln_10_pos.
Qed.

Lemma insert_asc_length (x : R) (l : list R) :
  List.length (Py.insert_asc x l) = S (List.length l).
Proof.
  induction l as [|y l IH]; simpl; [done|].
  destruct (Rlt_dec y x); simpl; by rewrite ?IH.
Qed.

Lemma sorted_length (l : list R) : List.length (Py.sorted l) = List.length l.
Proof.
  induction l as [|x l IH]; simpl; [done|].
  fold (Py.sorted l). by rewrite insert_asc_length, IH.
Qed.

Lemma insert_asc_perm (x : R) (l : list R) : Py.insert_asc x l ≡ₚ x :: l.
Proof.
  induction l as [|y l IH]; simpl; [done|].
  destruct (Rlt_dec y x); [|done].
  rewrite IH. apply Permutation_swap.
Qed.

Lemma sorted_perm (l : list R) : Py.sorted l ≡ₚ l.
Proof.
  induction l as [|x l IH]; simpl; [done|].
  fold (Py.sorted l). by rewrite insert_asc_perm, IH.
Qed.

Lemma insert_asc_sorted (x : R) (l : list R) :
  Sorted Rle l -> Sorted Rle (Py.insert_asc x l).
Proof.
  induction l as [|y l IH]; intros Hs; simpl.
  - by repeat constructor.
  - destruct (Rlt_dec y x) as [Hlt | Hge].
    + inversion Hs as [|? ? Hs' Hhd]; subst.
      constructor; [by apply IH|].
      destruct l as [|z l]; simpl.
      * constructor. lra.
      * destruct (Rlt_dec z x); constructor; [|lra].
        by inversion Hhd.
    + constructor; [done|]. constructor. lra.
Qed.

Lemma sorted_Sorted (l : list R) : Sorted Rle (Py.sorted l).
Proof.
  induction l as [|x l IH]; simpl; [constructor|].
  by apply insert_asc_sorted.
Qed.

Lemma percentile_index_lt (n : nat) : (0 < n)%nat -> (Py.percentile_index n < n)%nat.
Proof.
  intros Hn. unfold Py.percentile_index.
  apply Nat.Div0.div_lt_upper_bound. lia.
Qed.

Lemma insert_desc_perm {A : Type} (key : A -> R) (x : A) (l : list A) :
  Py.insert_desc key x l ≡ₚ x :: l.
Proof.
  induction l as [|y l IH]; simpl; [done|].
  destruct (Rle_dec (key y) (key x)); [done|].
  rewrite IH. apply Permutation_swap.
Qed.

Lemma sort_desc_perm {A : Type} (key : A -> R) (l : list A) :
  Py.sort_desc key l ≡ₚ l.
Proof.
  induction l as [|x l IH]; simpl; [done|].
  fold (Py.sort_desc key l). by rewrite insert_desc_perm, IH.
Qed.

Lemma insert_desc_sorted {A : Type} (key : A -> R) (x : A) (l : list A) :
  Sorted (Py.desc_by key) l -> Sorted (Py.desc_by key) (Py.insert_desc key x l).
Proof.
  induction l as [|y l IH]; intros Hs; simpl.
  - by repeat constructor.
  - destruct (Rle_dec (key y) (key x)) as [Hle | Hgt].
    + constructor; [done|]. by constructor.
    + inversion Hs as [|? ? Hs' Hhd]; subst.
      constructor; [by apply IH|].
      destruct l as [|z l]; simpl.
      * constructor. unfold Py.desc_by. lra.
      * destruct (Rle_dec (key z) (key x)); constructor; unfold Py.desc_by; [lra|].
        by inversion Hhd.
Qed.

Lemma sort_desc_sorted {A : Type} (key : A -> R) (l : list A) :
  Sorted (Py.desc_by key) (Py.sort_desc key l).
Proof.
  induction l as [|x l IH]; simpl; [constructor|].
  by apply insert_desc_sorted.
Qed.

Lemma sorted_take {A : Type} (R' : A -> A -> Prop) (n : nat) (l : list A) :
  Sorted R' l -> Sorted R' (take n l).
Proof.
  revert n. induction l as [|x l IH]; intros n Hs; destruct n; simpl; try constructor.
  - apply IH. by inversion Hs.
  - inversion Hs as [|? ? _ Hhd]; subst.
    destruct l, n; simpl; constructor. by inversion Hhd.
Qed.

End PrimitiveFacts.

(* ===================================================================== *)
(** * Backlink scoring: edge scores and normalisation                     *)
(* ===================================================================== *)

Section BacklinkFacts.

Local Open Scope R_scope.

Variable days_since : string -> option Z.
Variable search_own_repo : string -> option string.
Variable lookup_metadata : string -> option Backlinks.repo_metadata.

Lemma process_sample_repo_consistent server_name own_repo tier tier_weight st repo :
  Forall (Backlinks.edge_consistent days_since) (Backlinks.st_edges_to_store st) ->
  Forall (Backlinks.edge_consistent days_since)
    (Backlinks.st_edges_to_store
       (Backlinks.process_sample_repo days_since lookup_metadata
          server_name own_repo tier tier_weight st repo)).
Proof.
  intros Hst. unfold Backlinks.process_sample_repo.
  destruct (String.eqb repo ""); [done|].
  destruct (match Py.truthy_str own_repo with
            | Some o => String.eqb (Py.lower repo) o
            | None => false
            end); [done|].
  case_bool_decide; [done|].
  destruct (lookup_metadata repo) as [[[stars|] p a f]|]; simpl;
    (apply Forall_app; split; [done|]); by repeat constructor.
Qed.

Lemma foldl_sample_repos_consistent server_name own_repo tier tier_weight repos st :
  Forall (Backlinks.edge_consistent days_since) (Backlinks.st_edges_to_store st) ->
  Forall (Backlinks.edge_consistent days_since)
    (Backlinks.st_edges_to_store
       (foldl (Backlinks.process_sample_repo days_since lookup_metadata
                 server_name own_repo tier tier_weight) st repos)).
Proof.
  revert st. induction repos as [|r repos IH]; intros st Hst; simpl; [done|].
  by apply IH, process_sample_repo_consistent.
Qed.

Lemma foldl_config_references_consistent server_name own_repo refs st :
  Forall (Backlinks.edge_consistent days_since) (Backlinks.st_edges_to_store st) ->
  Forall (Backlinks.edge_consistent days_since)
    (Backlinks.st_edges_to_store
       (foldl (Backlinks.process_config_reference days_since lookup_metadata
                 server_name own_repo) st refs)).
Proof.
  revert st. induction refs as [|r refs IH]; intros st Hst; simpl; [done|].
  apply IH. unfold Backlinks.process_config_reference.
  by apply foldl_sample_repos_consistent.
Qed.

Lemma score_server_consistent config_references dependency_signals server :
  Forall (Backlinks.edge_consistent days_since)
    (Backlinks.res_edges_to_store
       (Backlinks.score_server days_since search_own_repo lookup_metadata
          config_references dependency_signals server)).
Proof.
  unfold Backlinks.score_server. simpl.
  apply foldl_config_references_consistent. simpl. constructor.
Qed.

Lemma stored_edges_consistent servers config_references dependency_signals query :
  Forall (Backlinks.edge_consistent days_since)
    (fst (Backlinks.compute_backlink_scores days_since search_own_repo lookup_metadata
            servers config_references dependency_signals query)).
Proof.
  unfold Backlinks.compute_backlink_scores. cbn [fst].
  match goal with |- context [map (Backlinks.score_server _ _ _ _ _) ?l] => generalize l end.
  intros l. induction l as [|s l IH]; cbn [map List.concat]; [constructor|].
  apply Forall_app. split; [|apply IH].
  apply (score_server_consistent config_references dependency_signals s).
Qed.

(** The quality factor, as a product of the two penalties. *)
Lemma compute_quality_factor_product is_archived is_fork stars :
  Backlinks.compute_quality_factor is_archived is_fork stars =
  (if is_archived then 0.2 else 1) * (if is_fork then 0.5 else 1).
Proof.
  unfold Backlinks.compute_quality_factor.
  destruct is_archived, is_fork; lra.
Qed.

Lemma compute_recency_factor_spec pushed_at :
  Backlinks.compute_recency_factor days_since pushed_at 0.5 = Backlinks.recency_spec days_since pushed_at.
Proof.
  unfold Backlinks.compute_recency_factor, Backlinks.recency_spec.
  destruct pushed_at as [[|c s]|]; simpl; try done.
  destruct (days_since (String c s)); [|done].
  f_equal. lra.
Qed.

(** C5. Every edge stored by the backlink scorer whose referencer has a
    non-negative star count carries
    [edge_score = tier_weight * (1 + log1p(stars)) * recency * quality], where
    the recency is [exp(-0.5 * years since pushed_at)], or [0.5] when
    [pushed_at] is missing or does not parse, and the quality is
    [(0.2 if archived else 1) * (0.5 if fork else 1)]. *)
Theorem stored_edge_score_formula servers config_references dependency_signals query e :
  e ∈ fst (Backlinks.compute_backlink_scores days_since search_own_repo lookup_metadata
             servers config_references dependency_signals query) ->
  (0 <= Backlinks.edge_repo_stars e)%Z ->
  Backlinks.edge_score e =
    Backlinks.edge_tier_weight e
    * (1 + Py.log1p (IZR (Backlinks.edge_repo_stars e)))
    * Backlinks.recency_spec days_since (Backlinks.edge_repo_pushed_at e)
    * ((if Backlinks.edge_is_archived e then 0.2 else 1)
       * (if Backlinks.edge_is_fork e then 0.5 else 1)).
Proof.
  intros Hin _.
  pose proof (stored_edges_consistent servers config_references dependency_signals query) as Hall.
  rewrite Forall_forall in Hall. specialize (Hall e Hin).
  unfold Backlinks.edge_consistent in Hall. rewrite Hall.
  unfold Backlinks.compute_edge_score.
  rewrite compute_recency_factor_spec, compute_quality_factor_product. lra.
Qed.

End BacklinkFacts.

(** A run of the scorer on one server referenced from one repository. *)
Lemma stored_edge_score_formula_witness :
  let days_since := fun _ : string => Some 365%Z in
  let lookup := fun _ : string =>
    Some {| Backlinks.meta_repo_stars := Some 1%Z;
            Backlinks.meta_repo_pushed_at := Some "2024-01-01T00:00:00Z";
            Backlinks.meta_is_archived := false;
            Backlinks.meta_is_fork := true |} in
  let servers := [ {| Backlinks.srv_name := "x"; Backlinks.srv_repository_url := None |} ] in
  let refs := [ {| Backlinks.cr_server_name := "x"; Backlinks.cr_config_type := "cursor";
                   Backlinks.cr_reference_count := 1;
                   Backlinks.cr_sample_repos := Some ["other/repo"] |} ] in
  exists e,
    e ∈ fst (Backlinks.compute_backlink_scores days_since (fun _ => None) lookup
               servers refs [] None) /\
    Backlinks.edge_repo_stars e = 1%Z /\
    Backlinks.edge_score e = (1.0 * (1 + Py.log1p 1) * exp (- 0.5 * (365 / 365)) * (1 * 0.5))%R.
Proof.
  intros days_since lookup servers refs.
  eexists. split; [|split].
  - cbn. apply list_elem_of_here.
  - reflexivity.
  - match goal with |- Backlinks.edge_score ?e = _ =>
      rewrite (stored_edge_score_formula days_since (fun _ => None) lookup
                 servers refs [] None e)
    end.
    + reflexivity.
    + cbn. apply list_elem_of_here.
    + cbn. lia.
Defined.

Section NormalisationFacts.

Local Open Scope R_scope.

Variable days_since : string -> option Z.
Variable search_own_repo : string -> option string.
Variable lookup_metadata : string -> option Backlinks.repo_metadata.

Lemma q99_log_raw_floor results : 1e-6 <= Backlinks.q99_log_raw results.
Proof.
  unfold Backlinks.q99_log_raw.
  destruct (map _ _); [lra | apply Rmax_r].
Qed.

Lemma normalized_of_range q raw :
  0 < q -> 0 <= Backlinks.normalized_of q raw <= 1.
Proof.
  intros Hq. unfold Backlinks.normalized_of. rewrite one_point_zero.
  destruct (Rlt_dec 0 raw) as [Hraw | Hraw]; [|lra].
  split; [|apply Rmin_l].
  apply Rmin_glb; [lra|].
  apply Rmult_le_pos; [left; by apply log1p_pos|].
  left. by apply Rinv_0_lt_compat.
Qed.

Lemma normalized_of_zero q raw :
  0 < q -> Backlinks.normalized_of q raw = 0 <-> ~ 0 < raw.
Proof.
  intros Hq. unfold Backlinks.normalized_of.
  destruct (Rlt_dec 0 raw) as [Hraw | Hraw]; [|split; [done | intros _; lra]].
  split; [|done]. intros Hz. exfalso.
  assert (0 < Py.log1p raw / q) as Hpos.
  { apply Rmult_lt_0_compat; [by apply log1p_pos | by apply Rinv_0_lt_compat]. }
  revert Hz. unfold Rmin. destruct (Rle_dec _ (Py.log1p raw / q)); lra.
Qed.

Lemma normalized_of_mono q a b :
  0 < q -> b <= a -> Backlinks.normalized_of q b <= Backlinks.normalized_of q a.
Proof.
  intros Hq Hba. unfold Backlinks.normalized_of.
  destruct (Rlt_dec 0 b) as [Hb | Hb].
  - destruct (Rlt_dec 0 a) as [Ha | Ha]; [|lra].
    apply Rle_min_compat_l.
    apply Rmult_le_compat_r; [left; by apply Rinv_0_lt_compat|].
    apply log1p_mono; lra.
  - destruct (Rlt_dec 0 a) as [Ha | Ha]; [|lra].
    apply (normalized_of_range q a) in Hq as [Hlo _].
    unfold Backlinks.normalized_of in Hlo.
    destruct (Rlt_dec 0 a); [lra | done].
Qed.

Lemma stored_raw_scores q results :
  map Backlinks.bs_raw_score (map (Backlinks.store_score q) results) =
  map Backlinks.res_raw_score results.
Proof. induction results as [|r l IH]; simpl; [done|]. by rewrite IH. Qed.

Lemma filter_positive_map {A : Type} (f : A -> R) (l : list A) :
  filter (fun r => 0 < r) (map f l) = map f (filter (fun x => 0 < f x) l).
Proof.
  induction l as [|x l IH]; [done|].
  cbn [map]. rewrite !filter_cons. destruct (decide (0 < f x)); cbn [map]; by rewrite IH.
Qed.

(** C6. Within one scoring run every stored [normalized_score] lies in
    [[0, 1]], is [0] exactly when [raw_score] is not positive, and is
    [min(1, log1p(raw_score) / q)] otherwise, where [q] is the entry at index
    [int(0.99 * n)] of the ascending sort of the [n] values [log1p(raw_score)]
    of the positive raw scores, clamped to at least [1e-6]; and a larger
    [raw_score] never gets a smaller [normalized_score]. *)
Theorem normalisation_bounded_monotone servers config_references dependency_signals query :
  let scores :=
    snd (Backlinks.compute_backlink_scores days_since search_own_repo lookup_metadata
           servers config_references dependency_signals query) in
  let logs :=
    map Py.log1p (filter (fun r => 0 < r) (map Backlinks.bs_raw_score scores)) in
  exists q,
    1e-6 <= q /\
    (logs <> [] ->
     exists ascending,
       ascending ≡ₚ logs /\ Sorted Rle ascending /\
       (Py.percentile_index (List.length logs) < List.length ascending)%nat /\
       q = Rmax (nth (Py.percentile_index (List.length logs)) ascending 0) 1e-6) /\
    Forall (fun s =>
      0 <= Backlinks.bs_normalized_score s <= 1 /\
      (Backlinks.bs_normalized_score s = 0 <-> ~ 0 < Backlinks.bs_raw_score s) /\
      (0 < Backlinks.bs_raw_score s ->
       Backlinks.bs_normalized_score s = Rmin 1 (Py.log1p (Backlinks.bs_raw_score s) / q)))
      scores /\
    (forall a b, a ∈ scores -> b ∈ scores ->
       Backlinks.bs_raw_score b <= Backlinks.bs_raw_score a ->
       Backlinks.bs_normalized_score b <= Backlinks.bs_normalized_score a).
Proof.
  unfold Backlinks.compute_backlink_scores. cbn [snd]. cbv zeta.
  match goal with |- context [map (Backlinks.score_server _ _ _ _ _) ?l] =>
    generalize (map (Backlinks.score_server days_since search_own_repo lookup_metadata
                       config_references dependency_signals) l)
  end.
  intros results.
  set (q := Backlinks.q99_log_raw results).
  set (scores := map (Backlinks.store_score q) results).
  set (logs := map Py.log1p (filter (fun r => 0 < r) (map Backlinks.bs_raw_score scores))).
  assert (1e-6 <= q) as Hfloor by apply q99_log_raw_floor.
  assert (0 < q) as Hq by lra.
  assert (logs = map (fun res => Py.log1p (Backlinks.res_raw_score res))
                   (filter (fun res => 0 < Backlinks.res_raw_score res) results)) as Hlogs.
  { unfold logs, scores. rewrite stored_raw_scores, filter_positive_map.
    by rewrite <- list_fmap_compose. }
  exists q. split; [done|]. split; [|split].
  - intros Hne. exists (Py.sorted logs).
    assert (0 < List.length logs)%nat as Hlen.
    { destruct logs; [done | simpl; lia]. }
    split; [apply sorted_perm|]. split; [apply sorted_Sorted|].
    split; [rewrite sorted_length; by apply percentile_index_lt|].
    unfold q, Backlinks.q99_log_raw. rewrite <- Hlogs.
    destruct logs as [|x l]; [done|].
    by rewrite sorted_length.
  - unfold scores. apply Forall_fmap, Forall_forall. intros res _. simpl.
    split; [by apply normalized_of_range|]. split; [by apply normalized_of_zero|].
    intros Hpos. unfold Backlinks.normalized_of. rewrite one_point_zero.
    by destruct (Rlt_dec 0 _).
  - intros a b Ha Hb Hle. unfold scores in Ha, Hb.
    apply list_elem_of_fmap in Ha as [ra [-> _]].
    apply list_elem_of_fmap in Hb as [rb [-> _]]. simpl in *.
    by apply normalized_of_mono.
Qed.

End NormalisationFacts.

(* ===================================================================== *)
(** * Marketplace ranking                                                 *)
(* ===================================================================== *)

Section MarketFacts.

Local Open Scope R_scope.

Variable days_since : string -> option Z.

Lemma get_q99_floor vals : 1e-6 <= Market.get_q99 vals.
Proof.
  unfold Market.get_q99. destruct vals; [lra | apply Rmax_r].
Qed.

Lemma trusted_orgs_lower : Forall (fun o => Py.lower o = o) Market.TRUSTED_ORGS.
Proof. repeat constructor. Qed.

Lemma rank_entry_total qu qr qc d :
  Market.mr_total_score (Market.rank_entry qu qr qc d) =
  Market.composite_spec
    (Market.mr_usage_score (Market.rank_entry qu qr qc d))
    (Market.mr_reputation_score (Market.rank_entry qu qr qc d))
    (Market.mr_activity_score (Market.rank_entry qu qr qc d))
    (Market.mr_reach_score (Market.rank_entry qu qr qc d))
    (Market.raw_is_zero_auth d) (Market.raw_is_verified d).
Proof.
  unfold Market.rank_entry, Market.composite_spec. cbn.
  rewrite !one_point_zero.
  destruct (Market.raw_is_zero_auth d), (Market.raw_is_verified d);
    f_equal; [lra | f_equal; lra ..].
Qed.

Lemma Forall2_map_same {A B : Type} (P : A -> B -> Prop) (f : A -> B) (l : list A) :
  (forall x, P x (f x)) -> Forall2 P l (map f l).
Proof. intros H. induction l; simpl; constructor; auto. Qed.

(** The row a join on a unique key attaches. *)
Lemma find_row_unique {A K : Type} `{EqDecision K} (key : A -> K) (k : K) (l : list A) x :
  NoDup (map key l) -> x ∈ l -> key x = k ->
  Sql.find_row (fun y => key y = k) l = Some x.
Proof.
  intros Hnd Hx Hk. unfold Sql.find_row.
  destruct (list_find (fun y => key y = k) l) as [[i y]|] eqn:Hfind.
  - apply list_find_Some in Hfind as (Hi & Hy & _).
    apply list_elem_of_lookup_1 in Hx as [j Hj]. cbn. f_equal.
    assert (i = j) as ->.
    { apply (NoDup_lookup (map key l) i j k); [done| |].
      - by rewrite list_lookup_fmap, Hi; cbn; rewrite Hy.
      - by rewrite list_lookup_fmap, Hj; cbn; rewrite Hk. }
    congruence.
  - apply list_find_None in Hfind. rewrite Forall_forall in Hfind.
    by destruct (Hfind x Hx).
Qed.

Lemma find_row_absent {A K : Type} `{EqDecision K} (key : A -> K) (k : K) (l : list A) :
  (forall x, x ∈ l -> key x <> k) ->
  Sql.find_row (fun y => key y = k) l = None.
Proof.
  intros Hall. unfold Sql.find_row.
  destruct (list_find (fun y => key y = k) l) as [[i y]|] eqn:Hfind; [|done].
  apply list_find_Some in Hfind as (Hi & Hy & _).
  destruct (Hall y); [|done]. by eapply list_elem_of_lookup_2.
Qed.

Lemma omap_id_map {A B : Type} (f : A -> option B) (l : list A) :
  omap (fun x : option B => x) (map f l) = omap f l.
Proof.
  induction l as [|x l IH]; [done|].
  cbn. destruct (f x); cbn; by rewrite IH.
Qed.

(** [COALESCE(SUM(col), 0)] is the sum of the values that are not [NULL]. *)
Lemma coalesce_sum_agg {A : Type} (f : A -> option Z) (l : list A) :
  Sql.coalesce (Market.sum_agg (map f l)) 0%Z = foldr Z.add 0%Z (omap f l).
Proof.
  unfold Market.sum_agg. rewrite omap_id_map. by destruct (omap f l).
Qed.

Lemma get_q99_percentile vals :
  (vals = [] -> Market.get_q99 vals = 1) /\
  (vals <> [] ->
   exists ascending,
     ascending ≡ₚ vals /\ Sorted Rle ascending /\
     Market.get_q99 vals = Rmax (nth (List.length vals * 99 / 100) ascending 0) 1e-6).
Proof.
  split.
  - intros ->. apply one_point_zero.
  - intros Hne. exists (Py.sorted vals).
    split; [apply sorted_perm|]. split; [apply sorted_Sorted|].
    unfold Market.get_q99. destruct vals as [|v vals]; [done|].
    cbv zeta. by rewrite sorted_length.
Qed.

(** C3. The ranker reads, for every server, the signals of its own rows —
    the backlink raw score, the stars, forks, push date and owner of its
    GitHub row, the summed weekly downloads of its packages, and the number
    of its secret environment variables — and stores
    [total_score = clamp(0.45*U + 0.30*R + 0.15*A + 0.10*C + bonuses)] over
    the four stored pillars, with [+0.05] when that number is zero and
    [+0.10] when the lower-cased repository owner is in [TRUSTED_ORGS] (in
    particular when the owner itself is), the sum being clamped to
    [[0, 1]]; [U], [R] and [C] are the logarithmic signals ([log1p] of the
    backlink score, [log10] of one plus the stars, forks and downloads)
    divided by their 99th percentile over all servers, which is clamped to
    at least [1e-6], and capped at 1. *)
Theorem total_score_composite (db : Market.tables) :
  NoDup (map Market.bsr_server_name (Market.backlink_scores db)) ->
  NoDup (map Market.gs_server_name (Market.github_signals db)) ->
  let percentile99 (vals : list R) (q : R) :=
    (vals = [] -> q = 1) /\
    (vals <> [] ->
     exists ascending,
       ascending ≡ₚ vals /\ Sorted Rle ascending /\
       q = Rmax (nth (List.length vals * 99 / 100) ascending 0) 1e-6) in
  let trusted_orgs :=
    [ "modelcontextprotocol"; "anthropic"; "google"; "openai"; "meta-llama";
      "microsoft"; "facebook"; "docker"; "hashicorp"; "aws"; "cloudflare";
      "vercel"; "supabase"; "mongodb"; "pinecone"; "elastic" ] in
  let log10 (x : R) := ln x / ln 10 in
  exists (rows : list Market.signal_row) (q_u q_r q_c : R),
    Forall2 (fun s r =>
      let name := Market.srv_name s in
      Market.sig_name r = name /\
      (forall b, b ∈ Market.backlink_scores db -> Market.bsr_server_name b = name ->
         Market.sig_usage_raw r = default 0 (Market.bsr_raw_score b)) /\
      ((forall b, b ∈ Market.backlink_scores db -> Market.bsr_server_name b <> name) ->
         Market.sig_usage_raw r = 0) /\
      (forall g, g ∈ Market.github_signals db -> Market.gs_server_name g = name ->
         Market.sig_stars r = default 0%Z (Market.gs_stars g) /\
         Market.sig_forks r = default 0%Z (Market.gs_forks g) /\
         Market.sig_last_push r = Market.gs_last_push g /\
         Market.sig_repo_owner r = Market.gs_repo_owner g) /\
      ((forall g, g ∈ Market.github_signals db -> Market.gs_server_name g <> name) ->
         Market.sig_stars r = 0%Z /\ Market.sig_forks r = 0%Z /\
         Market.sig_last_push r = None /\ Market.sig_repo_owner r = None) /\
      Market.sig_downloads r =
        foldr Z.add 0%Z
          (omap Market.pd_downloads_last_week
             (filter (fun p => Market.pd_server_name p = name) (Market.package_downloads db))) /\
      Market.sig_auth_count r =
        Z.of_nat (List.length
          (filter (fun e => Market.ev_server_name e = name /\ Market.ev_is_secret e = true)
                  (Market.environment_variables db))))
      (Market.servers db) rows /\
    percentile99 (map (fun r => ln (1 + Market.sig_usage_raw r)) rows) q_u /\
    percentile99
      (map (fun r => log10 (IZR (1 + Market.sig_stars r))
                     + log10 (IZR (1 + Market.sig_forks r))) rows) q_r /\
    percentile99 (map (fun r => log10 (IZR (1 + Market.sig_downloads r))) rows) q_c /\
    1e-6 <= q_u /\ 1e-6 <= q_r /\ 1e-6 <= q_c /\
    Forall2 (fun r mr =>
      Market.mr_server_name mr = Market.sig_name r /\
      Market.mr_usage_score mr = Rmin 1 (ln (1 + Market.sig_usage_raw r) / q_u) /\
      Market.mr_reputation_score mr =
        Rmin 1 ((log10 (IZR (1 + Market.sig_stars r))
                 + log10 (IZR (1 + Market.sig_forks r))) / q_r) /\
      Market.mr_activity_score mr =
        match Market.sig_last_push r with
        | Some (String c t) =>
            match days_since (String c t) with
            | Some days => exp (- 0.5 * (IZR days / 365))
            | None => 0.5
            end
        | _ => 0.5
        end /\
      Market.mr_reach_score mr = Rmin 1 (log10 (IZR (1 + Market.sig_downloads r)) / q_c) /\
      Market.mr_is_zero_auth mr = bool_decide (Market.sig_auth_count r = 0%Z) /\
      Market.mr_is_verified mr =
        bool_decide (Py.lower (default EmptyString (Market.sig_repo_owner r))
                       ∈ trusted_orgs) /\
      (forall owner, Market.sig_repo_owner r = Some owner ->
         owner ∈ trusted_orgs -> Market.mr_is_verified mr = true) /\
      Market.mr_total_score mr =
        Rmax 0 (Rmin 1
          (0.45 * Market.mr_usage_score mr + 0.30 * Market.mr_reputation_score mr
           + 0.15 * Market.mr_activity_score mr + 0.10 * Market.mr_reach_score mr
           + (if Market.mr_is_zero_auth mr then 0.05 else 0)
           + (if Market.mr_is_verified mr then 0.10 else 0))) /\
      0 <= Market.mr_total_score mr <= 1)
      rows (Market.compute_market_rankings days_since db).
Proof.
  intros Hbs Hgs percentile99 trusted_orgs log10.
  change trusted_orgs with Market.TRUSTED_ORGS.
  change log10 with Py.log10. clear trusted_orgs log10.
  unfold Market.compute_market_rankings, Market.rank_rows.
  set (rows := Market.select_signals db).
  set (raw_data := map (Market.raw_entry_of days_since) rows).
  exists rows, (Market.get_q99 (map Market.u_raw raw_data)),
         (Market.get_q99 (map Market.r_raw raw_data)),
         (Market.get_q99 (map Market.c_raw raw_data)).
  split.
  { unfold rows, Market.select_signals. apply Forall2_map_same. intros s.
    cbn [Market.sig_name Market.sig_usage_raw Market.sig_stars Market.sig_forks
         Market.sig_last_push Market.sig_repo_owner Market.sig_downloads
         Market.sig_auth_count].
    split; [done|]. split; [|split; [|split; [|split; [|split]]]].
    - intros b Hb Hname.
      by rewrite (find_row_unique Market.bsr_server_name _ _ b Hbs Hb Hname).
    - intros Hnone. by rewrite (find_row_absent Market.bsr_server_name _ _ Hnone).
    - intros g Hg Hname.
      by rewrite (find_row_unique Market.gs_server_name _ _ g Hgs Hg Hname).
    - intros Hnone. by rewrite (find_row_absent Market.gs_server_name _ _ Hnone).
    - apply coalesce_sum_agg.
    - done. }
  assert (map Market.u_raw raw_data
          = map (fun r => ln (1 + Market.sig_usage_raw r)) rows) as Hu.
  { unfold raw_data. by rewrite map_map. }
  assert (map Market.r_raw raw_data
          = map (fun r => Py.log10 (IZR (1 + Market.sig_stars r))
                          + Py.log10 (IZR (1 + Market.sig_forks r))) rows) as Hr.
  { unfold raw_data. by rewrite map_map. }
  assert (map Market.c_raw raw_data
          = map (fun r => Py.log10 (IZR (1 + Market.sig_downloads r))) rows) as Hc.
  { unfold raw_data. by rewrite map_map. }
  split; [rewrite <- Hu; apply get_q99_percentile|].
  split; [rewrite <- Hr; apply get_q99_percentile|].
  split; [rewrite <- Hc; apply get_q99_percentile|].
  split; [apply get_q99_floor|]. split; [apply get_q99_floor|].
  split; [apply get_q99_floor|].
  generalize (Market.get_q99 (map Market.u_raw raw_data))
             (Market.get_q99 (map Market.r_raw raw_data))
             (Market.get_q99 (map Market.c_raw raw_data)).
  intros q_u q_r q_c.
  unfold raw_data. rewrite map_map.
  apply Forall2_map_same. intros r.
  split; [done|].
  split; [cbn; by rewrite one_point_zero|].
  split; [cbn; by rewrite one_point_zero|].
  split.
  { cbn. unfold Market.activity_of.
    destruct (Market.sig_last_push r) as [[|c t]|]; cbn; [done| |done].
    destruct (days_since (String c t)); [|done].
    f_equal. lra. }
  split; [cbn; by rewrite one_point_zero|].
  split; [done|]. split; [done|]. split.
  { intros owner Ho Hin. cbn. rewrite Ho. cbn. apply bool_decide_eq_true.
    pose proof trusted_orgs_lower as Hl. rewrite Forall_forall in Hl.
    by rewrite (Hl owner Hin). }
  split.
  { rewrite rank_entry_total. unfold Market.composite_spec. done. }
  cbn. rewrite !one_point_zero, zero_point_zero.
  split; [apply Rmax_l|].
  apply Rmax_lub; [lra | apply Rmin_l].
Qed.

End MarketFacts.

(** Two servers: [a] has a secret environment variable and a repository of
    a trusted organisation, [b] has neither. *)
Lemma total_score_composite_witness :
  let db := {| Market.servers :=
                 [ {| Market.srv_name := "a"; Market.srv_repository_url := None |};
                   {| Market.srv_name := "b"; Market.srv_repository_url := None |} ];
               Market.backlink_scores :=
                 [ {| Market.bsr_server_name := "b"; Market.bsr_raw_score := Some 3%R |} ];
               Market.github_signals :=
                 [ {| Market.gs_server_name := "a"; Market.gs_repo_owner := Some "Microsoft";
                      Market.gs_stars := Some 100%Z; Market.gs_forks := Some 10%Z;
                      Market.gs_last_push := None |};
                   {| Market.gs_server_name := "b"; Market.gs_repo_owner := Some "acme";
                      Market.gs_stars := Some 10%Z; Market.gs_forks := None;
                      Market.gs_last_push := None |} ];
               Market.package_downloads := [];
               Market.environment_variables :=
                 [ {| Market.ev_server_name := "a"; Market.ev_is_secret := true |};
                   {| Market.ev_server_name := "b"; Market.ev_is_secret := false |} ] |} in
  exists mr_a mr_b,
    Market.compute_market_rankings (fun _ => None) db = [mr_a; mr_b] /\
    Market.mr_server_name mr_a = "a" /\ Market.mr_server_name mr_b = "b" /\
    Market.mr_is_zero_auth mr_a = false /\ Market.mr_is_verified mr_a = true /\
    Market.mr_is_zero_auth mr_b = true /\ Market.mr_is_verified mr_b = false /\
    (Market.mr_total_score mr_a =
       Rmax 0 (Rmin 1
         (0.45 * Market.mr_usage_score mr_a + 0.30 * Market.mr_reputation_score mr_a
          + 0.15 * Market.mr_activity_score mr_a + 0.10 * Market.mr_reach_score mr_a
          + 0 + 0.10)))%R /\
    (Market.mr_total_score mr_b =
       Rmax 0 (Rmin 1
         (0.45 * Market.mr_usage_score mr_b + 0.30 * Market.mr_reputation_score mr_b
          + 0.15 * Market.mr_activity_score mr_b + 0.10 * Market.mr_reach_score mr_b
          + 0.05 + 0)))%R.
Proof.
  intros db.
  destruct (total_score_composite (fun _ => None) db) as
    (rows & q_u & q_r & q_c & Hrows & _ & _ & _ & _ & _ & _ & Hranks).
  { by apply (bool_decide_unpack _). }
  { by apply (bool_decide_unpack _). }
  cbn [Market.servers db] in Hrows.
  apply Forall2_cons_inv_l in Hrows as (ra & rows' & Ha & Hrows & ->).
  apply Forall2_cons_inv_l in Hrows as (rb & rows'' & Hb & Hrows & ->).
  apply Forall2_nil_inv_l in Hrows as ->.
  apply Forall2_cons_inv_l in Hranks as (mr_a & ranks & Hmr_a & Hranks & Heq).
  apply Forall2_cons_inv_l in Hranks as (mr_b & ranks' & Hmr_b & Hranks & ->).
  apply Forall2_nil_inv_l in Hranks as ->.
  exists mr_a, mr_b. split; [exact Heq|].
  destruct Ha as (Hname_a & _ & _ & Hgs_a & _ & _ & Hauth_a).
  destruct Hb as (Hname_b & _ & _ & Hgs_b & _ & _ & Hauth_b).
  destruct (Hgs_a _ (list_elem_of_here _ _) eq_refl) as (_ & _ & _ & Howner_a).
  destruct (Hgs_b _ (list_elem_of_further _ _ _ (list_elem_of_here _ _)) eq_refl)
    as (_ & _ & _ & Howner_b).
  destruct Hmr_a as (Hn_a & _ & _ & _ & _ & Hzero_a & Hver_a & _ & Htotal_a & _).
  destruct Hmr_b as (Hn_b & _ & _ & _ & _ & Hzero_b & Hver_b & _ & Htotal_b & _).
  rewrite Hauth_a in Hzero_a. rewrite Hauth_b in Hzero_b.
  rewrite Howner_a in Hver_a. rewrite Howner_b in Hver_b.
  change (Market.mr_is_zero_auth mr_a = false) in Hzero_a.
  change (Market.mr_is_zero_auth mr_b = true) in Hzero_b.
  change (Market.mr_is_verified mr_a = true) in Hver_a.
  change (Market.mr_is_verified mr_b = false) in Hver_b.
  rewrite Hzero_a, Hver_a in Htotal_a. rewrite Hzero_b, Hver_b in Htotal_b.
  rewrite Hn_a, Hn_b, Hname_a, Hname_b.
  by split_and!.
Defined.

Section ZeroSignalFacts.

Local Open Scope R_scope.

Lemma get_q99_singleton x : Market.get_q99 [x] = Rmax x 1e-6.
Proof. reflexivity. Qed.

Lemma norm_of_zero q : 0 < q -> Rmin 1.0 (0 / q) = 0.
Proof.
  intros Hq. replace (0 / q) with 0 by (unfold Rdiv; lra).
  unfold Rmin. destruct (Rle_dec 1.0 0); lra.
Qed.

Lemma norm_of_top x : 1e-6 <= x -> Rmin 1.0 (x / Rmax x 1e-6) = 1.
Proof.
  intros Hx. rewrite Rmax_left by done.
  replace (x / x) with 1 by (field; lra).
  unfold Rmin. destruct (Rle_dec 1.0 1); lra.
Qed.

Lemma log10_ge_1 x : 10 <= x -> 1 <= Py.log10 x.
Proof.
  intros Hx. unfold Py.log10.
  pose proof ln_10_pos as H10.
  assert (ln 10 <= ln x) as Hln.
  { destruct Hx as [Hx | <-]; [|lra]. left. apply ln_increasing; lra. }
  apply (Rmult_le_reg_r (ln 10)); [done|].
  replace (ln x / ln 10 * ln 10) with (ln x) by (field; lra). lra.
Qed.

Lemma rank_lookup days_since db i r mr :
  Market.select_signals db !! i = Some r ->
  Market.compute_market_rankings days_since db !! i = Some mr ->
  exists q_u q_r q_c,
    0 < q_u /\ 0 < q_r /\ 0 < q_c /\
    mr = Market.rank_entry q_u q_r q_c (Market.raw_entry_of days_since r).
Proof.
  unfold Market.compute_market_rankings, Market.rank_rows.
  intros Hr Hmr.
  rewrite !list_lookup_fmap, Hr in Hmr. cbn in Hmr.
  eexists _, _, _. split_and!; [| | |by inversion Hmr].
  all: eapply Rlt_le_trans; [|apply get_q99_floor]; lra.
Qed.

(** The ranking of the one-server registry: full reputation and activity
    pillars, and a total of [0.5]. *)
Lemma acme_total_score :
  Market.compute_market_rankings (fun _ => Some 0%Z) Market.acme_db !! 0%nat
    = Some Market.acme_ranking /\
  Market.mr_total_score Market.acme_ranking = 0.5.
Proof.
  split; [reflexivity|]. unfold Market.acme_ranking. cbv zeta.
  rewrite rank_entry_total. cbn [Market.rank_entry Market.mr_usage_score
    Market.mr_reputation_score Market.mr_activity_score Market.mr_reach_score].
  rewrite !get_q99_singleton.
  change (Market.u_raw _) with (Py.log1p 0).
  change (Market.c_raw _) with (Py.log10 (IZR 1)).
  change (Market.r_raw _) with (Py.log10 (IZR 101) + Py.log10 (IZR 11)).
  change (Market.activity _) with (exp (- 0.5 * (IZR 0 / 365.0))).
  change (Market.raw_is_zero_auth _) with true.
  change (Market.raw_is_verified _) with false.
  rewrite log1p_0, log10_1.
  rewrite !norm_of_zero by (apply Rmax_case_strong; lra).
  rewrite norm_of_top.
  2:{ pose proof (log10_ge_1 101) as H1. pose proof (log10_nonneg 11) as H2. lra. }
  replace (- 0.5 * (0 / 365.0)) with 0 by lra. rewrite exp_0.
  unfold Market.composite_spec.
  replace (0.45 * 0 + 0.30 * 1 + 0.15 * 1 + 0.10 * 0 + 0.05 + 0) with 0.5 by lra.
  rewrite Rmin_right by lra. rewrite Rmax_right by lra. done.
Qed.

(** C4, as stated, fails: the starred, freshly pushed server without
    backlinks and downloads scores [0.5], outside [[0, 0.15]]. *)
Lemma zero_signal_bound_fails : ~ Market.zero_signal_bound (fun _ => Some 0%Z).
Proof.
  intros Hclaim.
  destruct acme_total_score as [Hmr Htotal].
  specialize (Hclaim Market.acme_db 0%nat Market.acme_row _ eq_refl Hmr eq_refl eq_refl).
  rewrite Htotal in Hclaim. lra.
Qed.

(** C4, amended. For a server without backlink references and without
    downloads the usage and reach pillars are [0], and [total_score] is the
    clamped [0.30*R + 0.15*A] plus the bonuses; it lies in [[0, 0.60]] when
    the activity pillar is at most [1] (no push dated in the future), and in
    [[0, 0.10 + 0.05]] when the server has no GitHub signal either (no
    stars, forks, push date or owner). *)
Theorem zero_signal_score days_since db i r mr :
  Market.select_signals db !! i = Some r ->
  Market.compute_market_rankings days_since db !! i = Some mr ->
  Market.sig_usage_raw r = 0 -> Market.sig_downloads r = 0%Z ->
  Market.mr_activity_score mr <= 1 ->
  Market.mr_usage_score mr = 0 /\
  Market.mr_reach_score mr = 0 /\
  Market.mr_total_score mr =
    Market.composite_spec 0 (Market.mr_reputation_score mr) (Market.mr_activity_score mr) 0
      (Market.mr_is_zero_auth mr) (Market.mr_is_verified mr) /\
  0 <= Market.mr_total_score mr <= 0.30 + 0.15 + 0.10 + 0.05 /\
  (Market.sig_stars r = 0%Z -> Market.sig_forks r = 0%Z ->
   Market.sig_last_push r = None -> Market.sig_repo_owner r = None ->
   Market.mr_total_score mr <= 0.10 + 0.05).
Proof.
  intros Hr Hmr Husage Hdown Hact.
  destruct (rank_lookup _ _ _ _ _ Hr Hmr) as (q_u & q_r & q_c & Hu & Hrq & Hc & ->).
  assert (Market.mr_usage_score
            (Market.rank_entry q_u q_r q_c (Market.raw_entry_of days_since r)) = 0) as HU.
  { cbn. rewrite Husage, log1p_0. by apply norm_of_zero. }
  assert (Market.mr_reach_score
            (Market.rank_entry q_u q_r q_c (Market.raw_entry_of days_since r)) = 0) as HC.
  { cbn. rewrite Hdown. change (IZR (1 + 0)) with 1. rewrite log10_1. by apply norm_of_zero. }
  split; [done|]. split; [done|].
  rewrite rank_entry_total, HU, HC. split; [done|].
  unfold Market.composite_spec.
  assert (Market.mr_reputation_score
            (Market.rank_entry q_u q_r q_c (Market.raw_entry_of days_since r)) <= 1) as HR.
  { cbn. rewrite one_point_zero. apply Rmin_l. }
  split; [split|].
  - apply Rmax_l.
  - apply Rmax_lub; [lra|].
    eapply Rle_trans; [apply Rmin_r|].
    destruct (Market.raw_is_zero_auth _), (Market.raw_is_verified _); lra.
  - intros Hstars Hforks Hpush Howner.
    assert (Market.mr_reputation_score
              (Market.rank_entry q_u q_r q_c (Market.raw_entry_of days_since r)) = 0) as HR0.
    { cbn. rewrite Hstars, Hforks. change (IZR (1 + 0)) with 1. rewrite log10_1.
      replace (0 + 0) with 0 by lra. by apply norm_of_zero. }
    assert (Market.mr_activity_score
              (Market.rank_entry q_u q_r q_c (Market.raw_entry_of days_since r)) = 0.5) as HA.
    { cbn. unfold Market.activity_of. by rewrite Hpush. }
    assert (Market.raw_is_verified (Market.raw_entry_of days_since r) = false) as HV.
    { cbn. by rewrite Howner. }
    rewrite HR0, HA, HV.
    apply Rmax_lub; [lra|].
    eapply Rle_trans; [apply Rmin_r|].
    destruct (Market.raw_is_zero_auth _); lra.
Qed.

End ZeroSignalFacts.

(** The amended bound on the one-server registry. *)
Lemma zero_signal_score_witness :
  Market.compute_market_rankings (fun _ => Some 0%Z) Market.acme_db !! 0%nat
    = Some Market.acme_ranking /\
  (0 <= Market.mr_total_score Market.acme_ranking <= 0.30 + 0.15 + 0.10 + 0.05)%R.
Proof.
  split; [reflexivity|].
  eapply (zero_signal_score (fun _ => Some 0%Z) Market.acme_db 0%nat Market.acme_row).
  - reflexivity.
  - reflexivity.
  - reflexivity.
  - reflexivity.
  - unfold Market.acme_ranking. cbn [Market.mr_activity_score Market.rank_entry].
    change (Market.activity _) with (exp (- 0.5 * (IZR 0 / 365.0)))%R.
    replace (- 0.5 * (0 / 365.0))%R with 0%R by lra. rewrite exp_0. lra.
Defined.

(* ===================================================================== *)
(** * Hybrid search                                                       *)
(* ===================================================================== *)

Section RelevanceFacts.

Local Open Scope R_scope.

Variable embedding : Type.
Variable encode : string -> embedding.
Variable vec_distance_cosine : embedding -> embedding -> R.
Variable fts_match : string -> option (list (Z * R)).
Variable tool_embeddings : list (Z * embedding).

Lemma safe_log1p_positive m : 0 < m -> 0 < Sql.safe_log1p (Some m).
Proof.
  intros Hm. unfold Sql.safe_log1p. rewrite Rmax_right by lra. by apply log1p_pos.
Qed.

Lemma safe_log1p_nonpositive m : m <= 0 -> Sql.safe_log1p (Some m) = 0.
Proof.
  intros Hm. unfold Sql.safe_log1p. rewrite Rmax_left by lra. apply log1p_0.
Qed.

(** The SQL expression computes the relevance of the specification. *)
Lemma relevance_of_spec s_score k_raw k_max :
  Relevance.relevance_of s_score k_raw k_max = Relevance.relevance_spec s_score k_raw k_max.
Proof.
  unfold Relevance.relevance_of, Relevance.relevance_spec.
  f_equal; [destruct s_score; cbn; lra|]. f_equal.
  destruct k_max as [m|].
  - unfold Sql.nullif0. destruct (Req_dec_T m 0) as [-> | Hm0].
    + cbn. destruct (Req_dec_T 0 0); [|done].
      destruct k_raw; [|cbn; lra].
      rewrite decide_True by lra. cbn. lra.
    + destruct (Rle_dec m 0) as [Hle | Hgt].
      * unfold Sql.div. rewrite (safe_log1p_nonpositive m Hle).
        destruct (Req_dec_T 0 0); [|done].
        destruct k_raw; [|cbn; lra].
        rewrite decide_True by done. cbn. lra.
      * assert (0 < m) as Hpos by lra.
        pose proof (safe_log1p_positive m Hpos) as Hlog.
        unfold Sql.div. destruct (Req_dec_T (Sql.safe_log1p (Some m)) 0); [lra|].
        destruct k_raw as [kr|]; cbn.
        -- by rewrite decide_False by done.
        -- unfold Rdiv. lra.
  - cbn. destruct (Req_dec_T 0 0); [|done]. destruct k_raw; cbn; lra.
Qed.

(** The fusion scenario: a strong vector hit without keyword score gets
    [0.56], a weaker vector hit with the top keyword score gets [0.58]. *)
Lemma relevance_fusion k_max :
  0 < k_max ->
  Relevance.relevance_of (Some 0.8) (Some 0) (Some k_max) = 0.56 /\
  Relevance.relevance_of (Some 0.8) None (Some k_max) = 0.56 /\
  Relevance.relevance_of (Some 0.4) (Some k_max) (Some k_max) = 0.58.
Proof.
  intros Hk. rewrite !relevance_of_spec. unfold Relevance.relevance_spec.
  rewrite !decide_False by lra.
  rewrite (Rmax_left 0 0) by lra. rewrite log1p_0.
  assert (0 < Py.log1p (Rmax 0 k_max)) as Hlog.
  { rewrite Rmax_right by lra. by apply log1p_pos. }
  replace (0 / Py.log1p (Rmax 0 k_max)) with 0 by (unfold Rdiv; lra).
  replace (Py.log1p (Rmax 0 k_max) / Py.log1p (Rmax 0 k_max)) with 1 by (field; lra).
  lra.
Qed.

Lemma joined_row_in db v k c :
  c ∈ Relevance.joined_candidates db v k ->
  exists ts,
    ts ∈ Db.tools_search db /\
    (is_Some (Relevance.hit v (Db.doc_tool_id ts)) \/
     is_Some (Relevance.hit k (Db.doc_tool_id ts))) /\
    c = Relevance.joined_row db v k ts.
Proof.
  unfold Relevance.joined_candidates. intros Hin.
  apply list_elem_of_fmap in Hin as (ts & -> & Hts).
  apply list_elem_of_filter in Hts as [Hhit Hts]. eauto.
Qed.

Lemma sql_limit_subset {A : Type} (n : Z) (l : list A) x :
  x ∈ Relevance.sql_limit n l -> x ∈ l.
Proof.
  unfold Relevance.sql_limit. destruct (n <? 0)%Z; [done|].
  intros Hin. by apply (subseteq_take (Z.to_nat n) l).
Qed.

Lemma sql_limit_sorted {A : Type} (R' : A -> A -> Prop) (n : Z) (l : list A) :
  Sorted R' l -> Sorted R' (Relevance.sql_limit n l).
Proof.
  unfold Relevance.sql_limit. destruct (n <? 0)%Z; [done|]. apply sorted_take.
Qed.

Lemma sql_limit_all {A : Type} (n : Z) (l : list A) :
  (n < 0 \/ Z.of_nat (List.length l) <= n)%Z -> Relevance.sql_limit n l = l.
Proof.
  unfold Relevance.sql_limit. intros Hn.
  destruct (n <? 0)%Z eqn:Hneg; [done|].
  apply take_ge. apply Z.ltb_ge in Hneg. lia.
Qed.

(** A hit list attaches a score to the tools it lists, and to no other. *)
Lemma hit_Some hits tid x :
  NoDup (map fst hits) -> (tid, x) ∈ hits -> Relevance.hit hits tid = Some x.
Proof.
  intros Hnd Hin. unfold Relevance.hit.
  by rewrite (find_row_unique fst tid hits (tid, x) Hnd Hin eq_refl).
Qed.

Lemma hit_None hits tid :
  tid ∉ map fst hits -> Relevance.hit hits tid = None.
Proof.
  intros Hnot. unfold Relevance.hit.
  rewrite (find_row_absent fst tid hits); [done|].
  intros h Hh Hfst. apply Hnot. apply list_elem_of_fmap. by exists h.
Qed.

Lemma hit_is_Some hits tid :
  is_Some (Relevance.hit hits tid) <-> tid ∈ map fst hits.
Proof.
  split.
  - intros [x Hx]. unfold Relevance.hit, Sql.find_row in Hx.
    destruct (list_find _ hits) as [[i h]|] eqn:Hfind; [|done].
    apply list_find_Some in Hfind as (Hi & Hh & _).
    apply list_elem_of_fmap. exists h. split; [done|].
    by eapply list_elem_of_lookup_2.
  - intros Hin. destruct (Relevance.hit hits tid) eqn:Hhit; [done|].
    unfold Relevance.hit in Hhit. apply fmap_None in Hhit.
    unfold Sql.find_row in Hhit. apply fmap_None in Hhit.
    apply list_find_None in Hhit. rewrite Forall_forall in Hhit.
    apply list_elem_of_fmap in Hin as (h & -> & Hh). by destruct (Hhit h Hh).
Qed.

(** In a list sorted by a transitive order, the first [n] entries come
    before all the others. *)
Lemma sorted_take_drop {A : Type} (R' : A -> A -> Prop) (n : nat) (l : list A) :
  (forall a b c, R' a b -> R' b c -> R' a c) ->
  Sorted R' l -> Forall (fun a => Forall (fun b => R' a b) (drop n l)) (take n l).
Proof.
  intros Htrans Hs. apply Sorted_StronglySorted in Hs; [|exact Htrans].
  revert n. induction Hs as [|x l Hs IH Hx]; intros n; destruct n; cbn; try constructor.
  - rewrite Forall_forall in Hx. apply Forall_forall. intros b Hb.
    apply Hx. by apply (subseteq_drop n l).
  - apply IH.
Qed.

(** The 200 best entries of a scored list. *)
Lemma top_hits (scored : list (Z * R)) :
  let hits := take 200 (Py.sort_desc snd scored) in
  exists rest,
    scored ≡ₚ hits ++ rest /\
    List.length hits = Nat.min 200 (List.length scored) /\
    Sorted (fun a b : Z * R => snd b <= snd a) hits /\
    Forall (fun a => Forall (fun b : Z * R => snd b <= snd a) rest) hits.
Proof.
  intros hits. exists (drop 200 (Py.sort_desc snd scored)). unfold hits.
  split; [by rewrite take_drop, sort_desc_perm|].
  split; [by rewrite length_take, (Permutation_length (sort_desc_perm snd scored))|].
  split; [apply sorted_take, (sort_desc_sorted snd)|].
  apply (sorted_take_drop (fun a b : Z * R => snd b <= snd a)).
  - intros a b c Hab Hbc. cbn in *. lra.
  - apply (sort_desc_sorted snd).
Qed.

Lemma foldl_Rmax_spec (x : R) (l : list R) :
  foldl Rmax x l ∈ x :: l /\ Forall (fun y => y <= foldl Rmax x l) (x :: l).
Proof.
  revert x. induction l as [|y l IH]; intros x; cbn.
  - split; [apply list_elem_of_here|]. constructor; [lra|constructor].
  - destruct (IH (Rmax x y)) as [Hin Hall].
    apply Forall_cons in Hall as [Hmax Hall]. split.
    + apply elem_of_cons in Hin as [Heq | Hin].
      * rewrite Heq. unfold Rmax. destruct (Rle_dec x y).
        -- apply list_elem_of_further, list_elem_of_here.
        -- apply list_elem_of_here.
      * by do 2 apply list_elem_of_further.
    + pose proof (Rmax_l x y). pose proof (Rmax_r x y).
      constructor; [lra|]. constructor; [lra|done].
Qed.

(** [MAX(k_raw)]: the greatest keyword score, [NULL] without keyword hits. *)
Lemma k_stats_spec (k : list (Z * R)) :
  match Relevance.k_stats k with
  | Some m => m ∈ map snd k /\ Forall (fun x => x <= m) (map snd k)
  | None => k = []
  end.
Proof.
  unfold Relevance.k_stats, Sql.max_agg.
  destruct k as [|h k]; [done|]. cbn [map]. apply foldl_Rmax_spec.
Qed.

(** The two [WHERE] conditions select among the joined rows of all
    documents. *)
Lemma joined_above_floor db (v k : list (Z * R)) :
  filter (fun c => 0.3 < Relevance.cand_relevance c) (Relevance.joined_candidates db v k)
  = filter (fun c =>
      (Relevance.cand_tool_id c ∈ map fst v \/ Relevance.cand_tool_id c ∈ map fst k) /\
      0.3 < Relevance.cand_relevance c)
      (map (Relevance.joined_row db v k) (Db.tools_search db)).
Proof.
  unfold Relevance.joined_candidates.
  induction (Db.tools_search db) as [|ts docs IH]; [done|].
  cbn [map]. rewrite !filter_cons.
  destruct (decide (is_Some (Relevance.hit v (Db.doc_tool_id ts)) \/
                    is_Some (Relevance.hit k (Db.doc_tool_id ts)))) as [Hhit | Hhit].
  - cbn [map]. rewrite filter_cons, IH.
    destruct (decide (0.3 < _)) as [Hrel | Hrel].
    + rewrite decide_True; [done|]. split; [|done].
      cbn [Relevance.cand_tool_id Relevance.joined_row].
      by rewrite <- !hit_is_Some.
    + rewrite decide_False; [done|]. by intros [_ ?].
  - rewrite IH, decide_False; [done|]. intros [Hin _]. apply Hhit.
    cbn [Relevance.cand_tool_id Relevance.joined_row] in Hin.
    by rewrite !hit_is_Some.
Qed.

(** C1. The hybrid search takes the 200 tools with the best vector score
    [1 - distance] and the 200 keyword matches with the best score
    [k_raw = -bm25], with [k_max] the greatest [k_raw]; joins every search
    document with its vector score and its keyword score, if it has them;
    computes [relevance = 0.7*s_score + 0.3*(log1p(k_raw)/log1p(k_max))],
    a missing side counting 0 and the keyword term being 0 when [k_max] is
    not positive, with the store's [log1p(x) = ln(1 + max(0, x))]; takes
    [quality] from the [total_score] of the server's ranking row, 0 without
    such a row or score; and returns the documents of the union whose
    relevance is above the floor 0.3, ordered by
    [score = 0.8*relevance + 0.2*quality] in descending order and cut at the
    limit. *)
Theorem hybrid_search_scores db query limit matches results :
  NoDup (map fst tool_embeddings) ->
  NoDup (map fst matches) ->
  NoDup (map Db.mr_server_name (Db.market_rankings db)) ->
  fts_match (Relevance.sanitize query) = Some matches ->
  Relevance.hybrid_search embedding encode vec_distance_cosine fts_match tool_embeddings
    db query limit = Some results ->
  let top200 (scored hits : list (Z * R)) :=
    exists rest,
      scored ≡ₚ hits ++ rest /\
      List.length hits = Nat.min 200 (List.length scored) /\
      Sorted (fun a b => snd b <= snd a) hits /\
      Forall (fun a => Forall (fun b => snd b <= snd a) rest) hits in
  let score_in (hits : list (Z * R)) (tool_id : Z) (score : option R) :=
    (forall x, (tool_id, x) ∈ hits -> score = Some x) /\
    (tool_id ∉ map fst hits -> score = None) in
  exists (v k : list (Z * R)) (k_max : option R) (joined all : list Relevance.candidate),
    top200
      (map (fun te => (fst te, 1.0 - vec_distance_cosine (snd te) (encode query)))
           tool_embeddings) v /\
    top200 (map (fun m => (fst m, - snd m)) matches) k /\
    match k_max with
    | Some m => m ∈ map snd k /\ Forall (fun x => x <= m) (map snd k)
    | None => k = []
    end /\
    Forall2 (fun ts c =>
      Relevance.cand_tool_id c = Db.doc_tool_id ts /\
      Relevance.cand_tool_name c = Db.doc_tool_name ts /\
      Relevance.cand_server_name c = Db.doc_server_name ts /\
      Relevance.cand_description c = Db.doc_desc_text ts /\
      (exists s_score k_raw,
         score_in v (Db.doc_tool_id ts) s_score /\
         score_in k (Db.doc_tool_id ts) k_raw /\
         Relevance.cand_relevance c =
           0.7 * default 0 s_score +
           0.3 * match k_raw, k_max with
                 | Some kr, Some km =>
                     if decide (km <= 0) then 0
                     else ln (1 + Rmax 0 kr) / ln (1 + Rmax 0 km)
                 | _, _ => 0
                 end) /\
      (forall m, m ∈ Db.market_rankings db ->
         Db.mr_server_name m = Db.doc_server_name ts ->
         Relevance.cand_quality c = default 0 (Db.mr_total_score m)) /\
      ((forall m, m ∈ Db.market_rankings db ->
          Db.mr_server_name m <> Db.doc_server_name ts) ->
       Relevance.cand_quality c = 0) /\
      Relevance.cand_final_score c =
        0.8 * Relevance.cand_relevance c + 0.2 * Relevance.cand_quality c)
      (Db.tools_search db) joined /\
    all ≡ₚ filter (fun c =>
             (Relevance.cand_tool_id c ∈ map fst v \/
              Relevance.cand_tool_id c ∈ map fst k) /\
             0.3 < Relevance.cand_relevance c) joined /\
    Sorted (fun a b => Relevance.cand_final_score b <= Relevance.cand_final_score a) all /\
    results = if (limit <? 0)%Z then all else take (Z.to_nat limit) all.
Proof.
  intros Hte Hmatches Hranks Hfts Hsearch top200 score_in.
  unfold Relevance.hybrid_search in Hsearch. rewrite Hfts in Hsearch.
  injection Hsearch as <-.
  set (v := Relevance.vector_hits embedding encode vec_distance_cosine tool_embeddings query).
  set (k := Relevance.fts_hits matches).
  assert (top200
            (map (fun te => (fst te, 1.0 - vec_distance_cosine (snd te) (encode query)))
                 tool_embeddings) v) as Hv by apply top_hits.
  assert (top200 (map (fun m => (fst m, - snd m)) matches) k) as Hk by apply top_hits.
  assert (NoDup (map fst v)) as Hv_nd.
  { destruct Hv as (rest & Hperm & _).
    apply (NoDup_app (map fst v) (map fst rest)).
    rewrite <- List.map_app, <- Hperm, map_map. exact Hte. }
  assert (NoDup (map fst k)) as Hk_nd.
  { destruct Hk as (rest & Hperm & _).
    apply (NoDup_app (map fst k) (map fst rest)).
    rewrite <- List.map_app, <- Hperm, map_map. exact Hmatches. }
  assert (forall hits tid, NoDup (map fst hits) ->
            score_in hits tid (Relevance.hit hits tid)) as Hscore.
  { intros hits tid Hnd. split.
    - intros x Hx. by apply hit_Some.
    - apply hit_None. }
  exists v, k, (Relevance.k_stats k),
    (map (Relevance.joined_row db v k) (Db.tools_search db)),
    (Py.sort_desc Relevance.cand_final_score
       (filter (fun c => 0.3 < Relevance.cand_relevance c)
               (Relevance.joined_candidates db v k))).
  split; [done|]. split; [done|]. split; [apply k_stats_spec|].
  split; [|split; [|split]].
  - apply Forall2_map_same. intros ts.
    split; [done|]. split; [done|]. split; [done|]. split; [done|].
    split; [|split; [|split]].
    + exists (Relevance.hit v (Db.doc_tool_id ts)), (Relevance.hit k (Db.doc_tool_id ts)).
      split; [by apply Hscore|]. split; [by apply Hscore|].
      cbn [Relevance.cand_relevance Relevance.joined_row].
      rewrite relevance_of_spec. unfold Relevance.relevance_spec.
      by destruct (Relevance.hit v (Db.doc_tool_id ts)).
    + intros m Hm Hname. cbn [Relevance.cand_quality Relevance.joined_row].
      unfold Relevance.quality_of.
      rewrite (find_row_unique Db.mr_server_name _ _ m Hranks Hm Hname). cbn.
      by destruct (Db.mr_total_score m).
    + intros Hnone. cbn [Relevance.cand_quality Relevance.joined_row].
      unfold Relevance.quality_of.
      by rewrite (find_row_absent Db.mr_server_name _ _ Hnone).
    + done.
  - by rewrite sort_desc_perm, joined_above_floor.
  - apply (sort_desc_sorted Relevance.cand_final_score).
  - done.
Qed.

End RelevanceFacts.

(** When at most 200 entries are scored, all of them are hits. *)
Lemma hits_of_short_list (scored hits rest : list (Z * R)) :
  scored ≡ₚ hits ++ rest ->
  List.length hits = Nat.min 200 (List.length scored) ->
  (List.length scored <= 200)%nat ->
  hits ≡ₚ scored.
Proof.
  intros Hperm Hlen Hshort.
  pose proof (Permutation_length Hperm) as Hl. rewrite length_app in Hl.
  destruct rest as [|r rest]; [by rewrite app_nil_r in Hperm|].
  cbn in Hl. lia.
Qed.

(** The fusion scenario.  The strong vector hit without keyword score gets
    the relevance 0.56, the weaker vector hit with the top keyword score
    0.58; the ranking of its server puts the first before the second; the
    weak vector hit stays below the floor and the tool outside both hit
    lists is not a candidate. *)
Lemma hybrid_search_scores_witness :
  exists c1 c2,
    Relevance.hybrid_search R (fun _ => 0%R) (fun e _ => e)
      (fun _ => Some Relevance.fusion_matches) Relevance.fusion_embeddings
      Relevance.fusion_db "find" 10 = Some [c1; c2] /\
    Relevance.cand_tool_id c1 = 1%Z /\ Relevance.cand_relevance c1 = 0.56%R /\
    Relevance.cand_quality c1 = 0.5%R /\ Relevance.cand_final_score c1 = 0.548%R /\
    Relevance.cand_tool_id c2 = 2%Z /\ Relevance.cand_relevance c2 = 0.58%R /\
    Relevance.cand_quality c2 = 0%R /\ Relevance.cand_final_score c2 = 0.464%R.
Proof.
  assert (exists results,
    Relevance.hybrid_search R (fun _ => 0%R) (fun e _ => e)
      (fun _ => Some Relevance.fusion_matches) Relevance.fusion_embeddings
      Relevance.fusion_db "find" 10 = Some results) as [results Hresults].
  { eexists. reflexivity. }
  rewrite Hresults.
  destruct (hybrid_search_scores R (fun _ => 0%R) (fun e _ => e)
              (fun _ => Some Relevance.fusion_matches) Relevance.fusion_embeddings
              Relevance.fusion_db "find" 10 Relevance.fusion_matches results)
    as (v & k & k_max & joined & all & Hv & Hk & Hk_max & Hjoined & Hall & Hsorted & Hcut);
    [by apply (bool_decide_unpack _)..|reflexivity|exact Hresults|].
  clear Hresults. cbv zeta in *.
  (* the two hit lists and the greatest keyword score *)
  destruct Hv as (rest_v & Hv & Hv_len & _ & _).
  apply hits_of_short_list in Hv; [|done|cbn; lia].
  destruct Hk as (rest_k & Hk & Hk_len & _ & _).
  apply hits_of_short_list in Hk; [|done|cbn; lia].
  unfold Relevance.fusion_embeddings in Hv. unfold Relevance.fusion_matches in Hk.
  cbn [map fst snd] in Hv, Hk.
  apply Permutation_singleton_r in Hk as ->.
  destruct k_max as [k_top|]; [|done].
  destruct Hk_max as [Hk_top _]. cbn [map snd] in Hk_top.
  apply list_elem_of_singleton in Hk_top as ->.
  assert (map fst v ≡ₚ [1; 2; 3]%Z) as Hv_ids by (by rewrite Hv).
  (* the joined rows of the four documents *)
  unfold Relevance.fusion_db in Hjoined, Hall. cbn [Db.tools_search Db.market_rankings] in Hjoined.
  apply Forall2_cons_inv_l in Hjoined as (c1 & joined1 & H1 & Hjoined & ->).
  apply Forall2_cons_inv_l in Hjoined as (c2 & joined2 & H2 & Hjoined & ->).
  apply Forall2_cons_inv_l in Hjoined as (c3 & joined3 & H3 & Hjoined & ->).
  apply Forall2_cons_inv_l in Hjoined as (c4 & joined4 & H4 & Hjoined & ->).
  apply Forall2_nil_inv_l in Hjoined as ->.
  cbn [Db.doc_tool_id Db.doc_server_name] in H1, H2, H3, H4.
  destruct H1 as (Hid1 & _ & _ & _ & (s1 & kr1 & [Hs1 _] & [_ Hkr1] & Hrel1)
                  & Hq1 & _ & Hfinal1).
  destruct H2 as (Hid2 & _ & _ & _ & (s2 & kr2 & [Hs2 _] & [Hkr2 _] & Hrel2)
                  & _ & Hq2 & Hfinal2).
  destruct H3 as (Hid3 & _ & _ & _ & (s3 & kr3 & [Hs3 _] & [_ Hkr3] & Hrel3) & _).
  destruct H4 as (Hid4 & _).
  rewrite (Hs1 (1.0 - 0.2)%R), Hkr1 in Hrel1; cycle 1.
  { cbn. intros Hin%list_elem_of_singleton. discriminate. }
  { rewrite Hv. apply list_elem_of_here. }
  rewrite (Hs2 (1.0 - 0.6)%R), (Hkr2 (- - 3)%R) in Hrel2; cycle 1.
  { apply list_elem_of_here. }
  { rewrite Hv. apply list_elem_of_further, list_elem_of_here. }
  rewrite (Hs3 (1.0 - 0.8)%R), Hkr3 in Hrel3; cycle 1.
  { cbn. intros Hin%list_elem_of_singleton. discriminate. }
  { rewrite Hv. do 2 apply list_elem_of_further. apply list_elem_of_here. }
  cbn [default from_option] in Hrel1, Hrel2, Hrel3.
  unfold Datatypes.id in Hrel1, Hrel2, Hrel3.
  rewrite decide_False in Hrel2 by lra.
  rewrite (Rmax_right 0 (- - 3)) in Hrel2 by lra.
  assert (0 < ln (1 + - - 3))%R as Hlog by (apply (log1p_pos (- - 3)); lra).
  replace (ln (1 + - - 3) / ln (1 + - - 3))%R with 1%R in Hrel2 by (field; lra).
  assert (Relevance.cand_relevance c1 = 0.56%R) as Hr1 by (rewrite Hrel1; lra).
  assert (Relevance.cand_relevance c2 = 0.58%R) as Hr2 by (rewrite Hrel2; lra).
  assert (Relevance.cand_relevance c3 = 0.14%R) as Hr3 by (rewrite Hrel3; lra).
  specialize (Hq1 _ (list_elem_of_here _ _) eq_refl).
  cbn [Db.mr_total_score default from_option] in Hq1. unfold Datatypes.id in Hq1.
  assert (Relevance.cand_quality c2 = 0%R) as Hquality2.
  { apply Hq2. intros m Hm%list_elem_of_singleton. by subst m. }
  rewrite Hr1, Hq1 in Hfinal1. rewrite Hr2, Hquality2 in Hfinal2.
  (* the candidates above the floor, in order *)
  assert (filter
            (fun c =>
               (Relevance.cand_tool_id c ∈ map fst v \/
                Relevance.cand_tool_id c ∈ map fst [(2%Z, (- - 3)%R)]) /\
               (0.3 < Relevance.cand_relevance c)%R)
            [c1; c2; c3; c4] = [c1; c2]) as Hfilter.
  { rewrite filter_cons, decide_True; cycle 1.
    { split; [left; rewrite Hid1, Hv_ids; apply list_elem_of_here | rewrite Hr1; lra]. }
    rewrite filter_cons, decide_True; cycle 1.
    { split; [right; rewrite Hid2; apply list_elem_of_here | rewrite Hr2; lra]. }
    rewrite filter_cons, decide_False; cycle 1.
    { intros [_ Hfloor]. rewrite Hr3 in Hfloor. lra. }
    rewrite filter_cons, decide_False; [done|].
    intros [[Hin | Hin] _]; rewrite Hid4 in Hin.
    - rewrite Hv_ids in Hin.
      repeat (apply elem_of_cons in Hin as [Hin | Hin]; [discriminate|]).
      by apply elem_of_nil in Hin.
    - apply list_elem_of_singleton in Hin. discriminate. }
  rewrite Hfilter in Hall. symmetry in Hall.
  apply Permutation_length_2_inv in Hall as [-> | ->].
  - exists c1, c2. change (results = [c1; c2]) in Hcut. rewrite Hcut.
    split; [done|]. split; [done|]. split; [done|]. split; [done|].
    split; [rewrite Hfinal1; lra|]. split; [done|]. split; [done|]. split; [done|].
    rewrite Hfinal2. lra.
  - apply Sorted_inv in Hsorted as [_ Hhead]. apply HdRel_inv in Hhead.
    rewrite Hfinal1, Hfinal2 in Hhead. lra.
Defined.

(* ===================================================================== *)
(** * Retrieval: the relevance floor and paging                           *)
(* ===================================================================== *)

Section RetrieverFacts.

Local Open Scope R_scope.

Variable json_loads : string -> option json.
Variable embedding : Type.
Variable encode : string -> embedding.
Variable vec_distance_cosine : embedding -> embedding -> R.
Variable fts_match : string -> option (list (Z * R)).
Variable tool_embeddings : list (Z * embedding).

Let search := Relevance.hybrid_search embedding encode vec_distance_cosine fts_match tool_embeddings.

Let retrieve :=
  Retriever.retrieve json_loads embedding encode vec_distance_cosine fts_match tool_embeddings.

Lemma filter_floor_nil (l : list Relevance.candidate) :
  Forall (fun c => Relevance.cand_relevance c <= 0.3) l ->
  filter (fun c => 0.3 < Relevance.cand_relevance c) l = [].
Proof.
  induction 1 as [|c l Hc _ IH]; [done|].
  rewrite filter_cons, decide_False by lra. done.
Qed.

Lemma search_total db query limit matches :
  fts_match (Relevance.sanitize query) = Some matches ->
  search db query limit =
    Some (Relevance.sql_limit limit
            (Py.sort_desc Relevance.cand_final_score
               (filter (fun c => 0.3 < Relevance.cand_relevance c)
                  (Relevance.joined_candidates db
                     (Relevance.vector_hits embedding encode vec_distance_cosine
                        tool_embeddings query)
                     (Relevance.fts_hits matches))))).
Proof.
  intros Hfts. unfold search, Relevance.hybrid_search. by rewrite Hfts.
Qed.

Lemma slice_nil {A : Type} (start stop : Z) : Py.slice (@nil A) start stop = [].
Proof. unfold Py.slice. by rewrite drop_nil, take_nil. Qed.

Lemma cand_map_of_lookup paged tid cand :
  Retriever.cand_map_of paged !! tid = Some cand ->
  cand ∈ paged /\ Relevance.cand_tool_id cand = tid.
Proof.
  unfold Retriever.cand_map_of.
  assert (forall l (m : gmap Z Relevance.candidate),
            (forall i c, m !! i = Some c -> c ∈ paged /\ Relevance.cand_tool_id c = i) ->
            (forall c, c ∈ l -> c ∈ paged) ->
            forall i c,
              foldl (fun m c => <[Relevance.cand_tool_id c := c]> m) m l !! i = Some c ->
              c ∈ paged /\ Relevance.cand_tool_id c = i) as Hgen.
  { induction l as [|x l IH]; intros m Hm Hl i c; simpl; [apply Hm|].
    apply IH.
    - intros j d. destruct (decide (Relevance.cand_tool_id x = j)) as [<- | Hne].
      + rewrite lookup_insert_eq. intros [= <-]. split; [|done].
        apply Hl, list_elem_of_here.
      + rewrite lookup_insert_ne by done. apply Hm.
    - intros d Hd. apply Hl. by apply list_elem_of_further. }
  apply Hgen; [|done]. intros i c. by rewrite lookup_empty.
Qed.

(** The shape of every answer of [retrieve]: the count is the length of the
    searched list, and every result is hydrated from a candidate of the page
    cut out of that list. *)
Lemma retrieve_of_candidates db query page limit candidates :
  search db query 100 = Some candidates ->
  exists resp,
    retrieve db query page limit = Some resp /\
    Retriever.resp_total_candidates resp = Z.of_nat (List.length candidates) /\
    (candidates = [] -> Retriever.resp_results resp = []) /\
    Forall (fun r =>
      exists c,
        c ∈ Py.slice candidates ((page - 1) * limit) ((page - 1) * limit + limit) /\
        Retriever.ti_tool_id (Retriever.sr_tool r) = Relevance.cand_tool_id c /\
        Retriever.sr_score r = Relevance.cand_final_score c)
      (Retriever.resp_results resp).
Proof.
  intros Hsearch. unfold retrieve, Retriever.retrieve, Retriever.hybrid_search.
  fold search. rewrite Hsearch.
  destruct (Py.slice candidates _ _) as [|c0 paged] eqn:Hpage.
  - eexists. split; [done|]. cbn. split; [done|]. split; [done | constructor].
  - eexists. split; [done|]. cbn [Retriever.resp_total_candidates Retriever.resp_results].
    split; [done|]. split.
    { intros ->. by rewrite slice_nil in Hpage. }
    apply Forall_forall. intros r Hr.
    rewrite sort_desc_perm in Hr.
    apply list_elem_of_omap in Hr as (db_r & _ & Hr).
    destruct (Retriever.cand_map_of (c0 :: paged) !! Db.vt_tool_id db_r) as [cand|] eqn:Hcand;
      [|done].
    cbn in Hr. injection Hr as <-.
    apply cand_map_of_lookup in Hcand as [Hin Hid].
    exists cand. by rewrite Hid.
Qed.

Lemma sql_limit_length {A : Type} (n : nat) (l : list A) :
  List.length (Relevance.sql_limit (Z.of_nat n) l) = Nat.min n (List.length l).
Proof.
  unfold Relevance.sql_limit.
  destruct (Z.of_nat n <? 0)%Z eqn:Hneg; [apply Z.ltb_lt in Hneg; lia|].
  by rewrite length_take, Nat2Z.id.
Qed.

(** C2, amended. When the search statement runs, [retrieve] answers with
    [total_candidates] equal to the number of joined candidates that clear
    the relevance floor, capped at the candidate limit 100, and every result
    comes from the page cut out of that filtered, ordered list; when no
    candidate clears the floor the results are empty and [total_candidates]
    is 0. *)
Theorem retrieve_counts_filtered db query page limit matches :
  fts_match (Relevance.sanitize query) = Some matches ->
  let joined :=
    Relevance.joined_candidates db
      (Relevance.vector_hits embedding encode vec_distance_cosine tool_embeddings query)
      (Relevance.fts_hits matches) in
  exists resp candidates,
    search db query 100 = Some candidates /\
    retrieve db query page limit = Some resp /\
    Retriever.resp_total_candidates resp = Z.of_nat (List.length candidates) /\
    List.length candidates =
      Nat.min 100 (List.length (filter (fun c => 0.3 < Relevance.cand_relevance c) joined)) /\
    Forall (fun r =>
      exists c,
        c ∈ Py.slice candidates ((page - 1) * limit) ((page - 1) * limit + limit) /\
        Retriever.ti_tool_id (Retriever.sr_tool r) = Relevance.cand_tool_id c /\
        Retriever.sr_score r = Relevance.cand_final_score c)
      (Retriever.resp_results resp) /\
    (Forall (fun c => Relevance.cand_relevance c <= 0.3) joined ->
     Retriever.resp_results resp = [] /\ Retriever.resp_total_candidates resp = 0%Z).
Proof.
  intros Hfts joined.
  pose proof (search_total db query 100 matches Hfts) as Hsearch. fold joined in Hsearch.
  destruct (retrieve_of_candidates db query page limit _ Hsearch)
    as (resp & Hresp & Htotal & Hempty & Hpage).
  eexists resp, _. split; [exact Hsearch|]. split; [done|]. split; [done|].
  split.
  { change 100%Z with (Z.of_nat 100). rewrite sql_limit_length.
    by rewrite (Permutation_length (sort_desc_perm _ _)). }
  split; [done|].
  intros Hfloor. rewrite Htotal. rewrite (filter_floor_nil _ Hfloor) in *.
  split; [by apply Hempty | done].
Qed.

End RetrieverFacts.

(** The amended count on the one-tool store. *)
Lemma retrieve_counts_filtered_witness :
  exists resp,
    Retriever.retrieve (fun _ => None) unit (fun _ => tt) (fun _ _ => 0.8%R)
      (fun _ => Some []) [(1%Z, tt)] Retriever.one_tool_db "q" 1 10 = Some resp.
Proof.
  destruct (retrieve_counts_filtered (fun _ => None) unit (fun _ => tt) (fun _ _ => 0.8%R)
              (fun _ => Some []) [(1%Z, tt)] Retriever.one_tool_db "q" 1 10 [] eq_refl)
    as (resp & candidates & _ & Hresp & _).
  by exists resp.
Defined.

Section FloorScenario.

Local Open Scope R_scope.

Lemma one_tool_joined :
  Relevance.joined_candidates Retriever.one_tool_db
    (Relevance.vector_hits unit (fun _ => tt) (fun _ _ => 0.8) [(1%Z, tt)] "q")
    (Relevance.fts_hits []) =
  [ Relevance.joined_row Retriever.one_tool_db [(1%Z, 1.0 - 0.8)] []
      {| Db.doc_tool_id := 1; Db.doc_tool_name := "t"; Db.doc_server_name := "s";
         Db.doc_desc_text := "" |} ].
Proof. reflexivity. Qed.

Lemma one_tool_below_floor :
  Forall (fun c => Relevance.cand_relevance c <= 0.3)
    (Relevance.joined_candidates Retriever.one_tool_db
       (Relevance.vector_hits unit (fun _ => tt) (fun _ _ => 0.8) [(1%Z, tt)] "q")
       (Relevance.fts_hits [])).
Proof.
  rewrite one_tool_joined. constructor; [|constructor].
  cbn [Relevance.joined_row Relevance.cand_relevance].
  rewrite relevance_of_spec.
  change (Relevance.hit [(1%Z, 1.0 - 0.8)] _) with (Some (1.0 - 0.8)).
  change (Relevance.hit [] _) with (@None R).
  unfold Relevance.relevance_spec. lra.
Qed.

(** C2, as stated, fails: one embedded tool with [s_score = 0.2] and no
    keyword match is a union of one candidate, and [retrieve] reports
    [total_candidates = 0]. *)
Lemma floor_keeps_total_fails :
  ~ Retriever.floor_keeps_total (fun _ => None) unit (fun _ => tt) (fun _ _ => 0.8)
      (fun _ => Some []) [(1%Z, tt)].
Proof.
  intros Hclaim.
  destruct (retrieve_of_candidates (fun _ => None) unit (fun _ => tt) (fun _ _ => 0.8)
              (fun _ => Some []) [(1%Z, tt)] Retriever.one_tool_db "q" 1 10 [])
    as (resp & Hresp & Htotal & _).
  { rewrite (search_total unit (fun _ => tt) (fun _ _ => 0.8) (fun _ => Some []) [(1%Z, tt)]
               Retriever.one_tool_db "q" 100 [] eq_refl).
    by rewrite (filter_floor_nil _ one_tool_below_floor). }
  destruct (Hclaim Retriever.one_tool_db "q" 1%Z 10%Z [] resp eq_refl
              one_tool_below_floor Hresp) as [_ Hcount].
  rewrite Htotal in Hcount. done.
Qed.

End FloorScenario.

(* ===================================================================== *)
(** * Enrichment status                                                   *)
(* ===================================================================== *)

Section EnrichFacts.

Variable now : string.

(** The reason string the package workers pass is classified by none of the
    substring tests. *)
Lemma categorize_package_not_found :
  Enrich.categorize_enrichment_failure None (Some "package_not_found")
  = ("transient_failure", "unknown").
Proof. reflexivity. Qed.

Lemma categorize_image_not_found :
  Enrich.categorize_enrichment_failure None (Some "image_not_found")
  = ("transient_failure", "unknown").
Proof. reflexivity. Qed.

(** The message the classifier does recognise is caught by the earlier
    ["not found"] test. *)
Lemma categorize_package_not_found_message :
  Enrich.categorize_enrichment_failure None (Some "Package not found")
  = ("permanent_failure", "not_found").
Proof. reflexivity. Qed.

Lemma categorize_status_404 :
  Enrich.categorize_enrichment_failure (Some 404%Z) None
  = ("permanent_failure", "not_found_404").
Proof. reflexivity. Qed.

Lemma categorize_status_503 :
  Enrich.categorize_enrichment_failure (Some 503%Z) None
  = ("transient_failure", "server_error_503").
Proof. reflexivity. Qed.

(** A successful update writes the [success] row. *)
Lemma update_success_row conn server_name enrichment_type reason :
  Enrich.update_enrichment_status conn now server_name enrichment_type true reason
    !! (server_name, enrichment_type)
  = Some {| Enrich.status := "success"; Enrich.failure_reason := None;
            Enrich.last_attempted_at := now; Enrich.retry_count := 0 |}.
Proof. unfold Enrich.update_enrichment_status. by rewrite lookup_insert_eq. Qed.

(** The GitHub worker leaves [enrichment_status] as it found it. *)
Lemma enrich_github_step_status parse fetch db server :
  Enrich.enrichment_status (Enrich.enrich_github_step parse fetch db server)
  = Enrich.enrichment_status db.
Proof.
  unfold Enrich.enrich_github_step.
  destruct (parse _) as [[owner repo]|]; [|done].
  by destruct (fetch owner repo).
Qed.

Lemma enrich_github_status parse fetch db servers skip_failures :
  Enrich.enrichment_status (Enrich.enrich_github parse fetch db servers skip_failures)
  = Enrich.enrichment_status db.
Proof.
  unfold Enrich.enrich_github.
  generalize (Enrich.skip_permanent Enrich.sc_name (Enrich.enrichment_status db) "github"
                skip_failures servers).
  intros l. revert db. induction l as [|s l IH]; intros db; simpl; [done|].
  by rewrite IH, enrich_github_step_status.
Qed.

(** The dependents worker writes no status row on success. *)
Lemma enrich_dependents_step_success db pkg :
  Enrich.enrichment_status
    (Enrich.enrich_dependents_step now (fun _ _ => true) db pkg)
  = Enrich.enrichment_status db.
Proof. reflexivity. Qed.

(** C7 at its failing input. The dependents worker, on a package that
    libraries.io does not know, records [transient_failure] with the reason
    [unknown], not [permanent_failure] with [package_not_found]. *)
Theorem dependents_missing_package_transient db pkg :
  exists row,
    Enrich.enrichment_status (Enrich.enrich_dependents_step now (fun _ _ => false) db pkg)
      !! (Enrich.pc_server_name pkg, "dependents") = Some row /\
    Enrich.status row = "transient_failure" /\
    Enrich.failure_reason row = Some "unknown".
Proof.
  unfold Enrich.enrich_dependents_step. cbn [Enrich.enrichment_status].
  unfold Enrich.update_enrichment_status. rewrite categorize_package_not_found.
  rewrite lookup_insert_eq. eauto.
Qed.

End EnrichFacts.

(* ===================================================================== *)
(** * The invocation gateway                                              *)
(* ===================================================================== *)

Section GatewayFacts.

Local Open Scope R_scope.

Variable connect : Gateway.launch -> Gateway.session.

Lemma find_row_None {A : Type} (P : A -> Prop) `{!forall x, Decision (P x)} (l : list A) :
  Sql.find_row P l = None <-> Forall (fun x => ~ P x) l.
Proof.
  unfold Sql.find_row. rewrite fmap_None. apply list_find_None.
Qed.

(** No connection info resolves exactly when the server has no remote row,
    no stdio package row and no local-source row. *)
Lemma connection_info_absent db environ server_name :
  Gateway.get_server_connection_info db environ server_name = None <->
  Forall (fun r => Gateway.rem_server_name r <> server_name) (Gateway.server_remotes db) /\
  Forall (fun p => ~ (Gateway.pkg_server_name p = server_name /\
                      Gateway.pkg_transport_type p = Some "stdio"))
         (Gateway.server_packages db) /\
  Forall (fun l => Gateway.loc_server_name l <> server_name) (Gateway.server_local_sources db).
Proof.
  unfold Gateway.get_server_connection_info.
  destruct (Sql.find_row _ (Gateway.server_remotes db)) eqn:Hrem.
  { split; [done|]. intros (H & _ & _).
    apply (find_row_None (fun r => Gateway.rem_server_name r = server_name)) in H.
    congruence. }
  destruct (Sql.find_row _ (Gateway.server_packages db)) eqn:Hpkg.
  { split; [done|]. intros (_ & H & _).
    apply (find_row_None (fun p => Gateway.pkg_server_name p = server_name /\
                                   Gateway.pkg_transport_type p = Some "stdio")) in H.
    congruence. }
  destruct (Sql.find_row _ (Gateway.server_local_sources db)) eqn:Hloc.
  { split; [done|]. intros (_ & _ & H).
    apply (find_row_None (fun l => Gateway.loc_server_name l = server_name)) in H.
    congruence. }
  split; [|done]. intros _.
  split; [by apply (find_row_None (fun r => Gateway.rem_server_name r = server_name))|].
  split; [|by apply (find_row_None (fun l => Gateway.loc_server_name l = server_name))].
  by apply (find_row_None (fun p => Gateway.pkg_server_name p = server_name /\
                                    Gateway.pkg_transport_type p = Some "stdio")).
Qed.

Lemma wait_for_timeout {A : Type} (op : Gateway.awaited A) (timeout : R) :
  timeout < Gateway.elapsed op -> Gateway.wait_for op timeout = inl Gateway.TimeoutError.
Proof. intros Hlt. unfold Gateway.wait_for. by destruct (Rlt_dec _ _). Qed.

Lemma wait_for_in_time {A : Type} (op : Gateway.awaited A) (timeout : R) :
  Gateway.elapsed op <= timeout -> Gateway.wait_for op timeout = Gateway.outcome op.
Proof. intros Hle. unfold Gateway.wait_for. destruct (Rlt_dec _ _); [lra | done]. Qed.

Lemma str_task_group e :
  Gateway.str (Gateway.ExceptionGroup "unhandled errors in a TaskGroup" [e])
  = "unhandled errors in a TaskGroup (1 sub-exception)".
Proof. reflexivity. Qed.

(** The answers of the handler for a server with connection info: an
    exception raised while the transport is entered reaches the handlers as
    it is; an exception of the awaited calls reaches them inside two task
    groups, so the second handler answers it, with the group's text. *)
Lemma call_tool_responses db environ request info :
  Gateway.get_server_connection_info db environ (Gateway.req_server_name request)
    = Some info ->
  Gateway.call_tool connect db environ request =
  let s := connect (Gateway.launch_of info) in
  match Gateway.enter s with
  | Some Gateway.TimeoutError => Gateway.HTTPException 504 "Tool execution timed out."
  | Some e => Gateway.HTTPException 500 (Gateway.str e)
  | None =>
      match Gateway.awaited_calls s (Gateway.req_tool_name request)
              (Gateway.req_arguments request) 60 with
      | inr result => Gateway.Ok200 result
      | inl _ =>
          Gateway.HTTPException 500 "unhandled errors in a TaskGroup (1 sub-exception)"
      end
  end.
Proof.
  intros Hinfo. unfold Gateway.call_tool. rewrite Hinfo. cbv zeta.
  unfold Gateway.run_session.
  destruct (Gateway.enter (connect (Gateway.launch_of info))) as [[| |]|]; [done..|].
  by destruct (Gateway.awaited_calls _ _ _ _).
Qed.

Lemma awaited_calls_timeout s tool_name arguments :
  60 < Gateway.elapsed (Gateway.initialize s) \/
  (Gateway.elapsed (Gateway.initialize s) <= 60 /\
   Gateway.outcome (Gateway.initialize s) = inr tt /\
   60 < Gateway.elapsed (Gateway.session_call_tool s tool_name arguments)) ->
  Gateway.awaited_calls s tool_name arguments 60 = inl Gateway.TimeoutError.
Proof.
  unfold Gateway.awaited_calls. intros [Hinit | (Hfast & Hok & Hcall)].
  - by rewrite wait_for_timeout.
  - rewrite wait_for_in_time, Hok by done. by rewrite wait_for_timeout.
Qed.

(** C8 at its failing input. For a server with connection info whose
    session is entered, a call in which [initialize] or [call_tool] overruns
    the 60 seconds is answered 500 with the text of the task group's
    exception group, not 504: [asyncio.wait_for] raises its
    [TimeoutError] inside the two [async with] blocks, whose task groups
    hand it on wrapped, so that [except asyncio.TimeoutError] does not see
    it. *)
Theorem call_tool_timeout_answers_500 db environ request info :
  Gateway.get_server_connection_info db environ (Gateway.req_server_name request)
    = Some info ->
  let s := connect (Gateway.launch_of info) in
  let call :=
    Gateway.session_call_tool s (Gateway.req_tool_name request)
      (Gateway.req_arguments request) in
  Gateway.enter s = None ->
  60 < Gateway.elapsed (Gateway.initialize s) \/
  (Gateway.elapsed (Gateway.initialize s) <= 60 /\
   Gateway.outcome (Gateway.initialize s) = inr tt /\
   60 < Gateway.elapsed call) ->
  Gateway.call_tool connect db environ request =
    Gateway.HTTPException 500 "unhandled errors in a TaskGroup (1 sub-exception)" /\
  Gateway.status_of (Gateway.call_tool connect db environ request) <> 504%Z.
Proof.
  intros Hinfo s call Henter Hslow.
  rewrite (call_tool_responses _ _ _ _ Hinfo). cbv zeta. fold s.
  rewrite Henter, (awaited_calls_timeout s _ _ Hslow). done.
Qed.

End GatewayFacts.

(** The call of [run] on the registry with one stdio package, whose session
    takes 61 seconds to initialise. *)
Lemma call_tool_timeout_answers_500_witness :
  Gateway.call_tool (fun _ => Gateway.slow_session) Gateway.slow_db ∅ Gateway.slow_request =
    Gateway.HTTPException 500 "unhandled errors in a TaskGroup (1 sub-exception)" /\
  Gateway.status_of
    (Gateway.call_tool (fun _ => Gateway.slow_session) Gateway.slow_db ∅ Gateway.slow_request)
  <> 504%Z.
Proof.
  apply (call_tool_timeout_answers_500 (fun _ => Gateway.slow_session) Gateway.slow_db ∅
           Gateway.slow_request
           (Gateway.Stdio (Some "npm") (Some "@acme/slow") None)).
  - reflexivity.
  - reflexivity.
  - left. cbn. lra.
Defined.

(* ===================================================================== *)
(** * Placeholder resolution                                              *)
(* ===================================================================== *)

Section PlaceholderFacts.

Lemma append_cons (c : ascii) (a b : string) : String c a ++ b = String c (a ++ b).
Proof. reflexivity. Qed.

Lemma append_empty_l (b : string) : "" ++ b = b.
Proof. reflexivity. Qed.

Lemma string_append_assoc (a b c : string) : (a ++ b) ++ c = a ++ (b ++ c).
Proof.
  induction a as [|x a IH]; [done|].
  by rewrite !append_cons, IH.
Qed.

Lemma append_length (a b : string) :
  String.length (a ++ b) = String.length a + String.length b.
Proof.
  induction a as [|x a IH]; [done|].
  rewrite append_cons. simpl. by rewrite IH.
Qed.

Lemma span_body_app s body rest :
  Placeholders.span_body s = (body, rest) -> s = body ++ rest.
Proof.
  revert body rest. induction s as [|c t IH]; intros body rest; simpl.
  - by intros [= <- <-].
  - destruct (Ascii.eqb c "}"); [by intros [= <- <-]|].
    destruct (Placeholders.span_body t) as [b r].
    intros [= <- <-]. by rewrite append_cons, (IH b r).
Qed.

Lemma span_body_rest s body c rest :
  Placeholders.span_body s = (body, String c rest) -> c = "}"%char.
Proof.
  revert body. induction s as [|x t IH]; intros body; simpl; [done|].
  destruct (Ascii.eqb x "}") eqn:Hx.
  - intros [= <- <- <-]. by apply Ascii.eqb_eq.
  - destruct (Placeholders.span_body t) as [b r]. intros [= <- ->]. by eapply IH.
Qed.

(** A match is a prefix of the text it is found in. *)
Lemma match_here_split s var_name whole after :
  Placeholders.match_here s = Some (var_name, whole, after) -> s = whole ++ after.
Proof.
  unfold Placeholders.match_here.
  destruct s as [|c1 [|c2 t]]; [done | done |].
  destruct (Ascii.eqb c1 "$") eqn:H1; [|done].
  destruct (Ascii.eqb c2 "{") eqn:H2; [|done]. cbn [andb].
  apply Ascii.eqb_eq in H1 as ->. apply Ascii.eqb_eq in H2 as ->.
  destruct (Placeholders.span_body t) as [[|c b] [|r after']] eqn:Hspan; try done.
  intros [= <- <- <-].
  pose proof (span_body_rest _ _ _ _ Hspan) as ->.
  apply span_body_app in Hspan as ->.
  by rewrite !append_cons, append_empty_l, !append_cons, string_append_assoc.
Qed.

(** The scan leaves alone a text whose matches all name unset variables. *)
Lemma re_sub_fuel_unset env fuel s :
  (forall name, name ∈ Placeholders.pattern_names_fuel fuel s -> env !! name = None) ->
  Placeholders.re_sub_fuel fuel env s = s.
Proof.
  revert s. induction fuel as [|fuel IH]; intros s Hunset; [done|].
  destruct s as [|c t]; [done|].
  cbn [Placeholders.re_sub_fuel Placeholders.pattern_names_fuel] in *.
  destruct (Placeholders.match_here (String c t)) as [[[var_name whole] after]|] eqn:Hm.
  - unfold Placeholders.replace_match.
    rewrite (Hunset var_name) by apply list_elem_of_here.
    rewrite IH.
    + symmetry. by eapply match_here_split.
    + intros name Hname. apply Hunset. by apply list_elem_of_further.
  - by rewrite IH.
Qed.

(** [resolve_env_vars] is the identity on a string that refers to no set
    variable. *)
Lemma resolve_str_unset env s :
  (forall name, name ∈ Placeholders.referenced s -> env !! name = None) ->
  Placeholders.resolve_str env s = s.
Proof.
  unfold Placeholders.resolve_str, Placeholders.referenced, Placeholders.re_sub.
  destruct (Py.startswith s "ENV:"); intros Hunset.
  - by rewrite (Hunset (Py.drop_chars 4 s)) by apply list_elem_of_here.
  - by apply re_sub_fuel_unset.
Qed.

(** More fuel than the length of the text changes nothing. *)
Lemma span_body_length s body rest :
  Placeholders.span_body s = (body, rest) -> String.length rest <= String.length s.
Proof.
  intros H. apply span_body_app in H as ->. rewrite append_length. lia.
Qed.

Lemma match_here_shorter s var_name whole after :
  Placeholders.match_here s = Some (var_name, whole, after) ->
  String.length after < String.length s.
Proof.
  unfold Placeholders.match_here.
  destruct s as [|c1 [|c2 t]]; [done | done |].
  destruct (Ascii.eqb c1 "$" && Ascii.eqb c2 "{"); [|done].
  destruct (Placeholders.span_body t) as [[|c b] [|r after']] eqn:Hspan; try done.
  intros [= <- <- <-]. apply span_body_length in Hspan. simpl in *. lia.
Qed.

Lemma re_sub_fuel_enough env fuel s :
  String.length s <= fuel ->
  Placeholders.re_sub_fuel fuel env s = Placeholders.re_sub env s.
Proof.
  unfold Placeholders.re_sub.
  assert (forall n s f1 f2, String.length s <= n -> n <= f1 -> n <= f2 ->
            Placeholders.re_sub_fuel f1 env s = Placeholders.re_sub_fuel f2 env s) as Hgen.
  { induction n as [|n IH]; intros s' f1 f2 Hs H1 H2.
    - destruct s'; [|simpl in Hs; lia]. by destruct f1, f2.
    - destruct f1 as [|f1]; [lia|]. destruct f2 as [|f2]; [lia|].
      destruct s' as [|c t]; [done|]. cbn [Placeholders.re_sub_fuel].
      destruct (Placeholders.match_here (String c t)) as [[[v w] a]|] eqn:Hm.
      + f_equal. apply IH; [|lia..].
        apply match_here_shorter in Hm. simpl in *. lia.
      + f_equal. apply IH; simpl in *; lia. }
  intros Hfuel. by apply (Hgen (String.length s)).
Qed.

Lemma resolve_scalar env v :
  Placeholders.is_scalar v = true -> Placeholders.resolve_env_vars env v = v.
Proof. by destruct v. Qed.

(** C9, amended. Resolving a string twice yields what resolving it once
    yields when every variable the string refers to is set and the
    once-resolved string refers to no set variable (the substituted values
    bring in no resolvable placeholder); values that are neither strings nor
    containers pass through unchanged. *)
Theorem resolve_twice_fixed env s :
  (forall name, name ∈ Placeholders.referenced s -> is_Some (env !! name)) ->
  (forall name,
     name ∈ Placeholders.referenced (Placeholders.resolve_str env s) -> env !! name = None) ->
  Placeholders.resolve_env_vars env (Placeholders.resolve_env_vars env (JStr s))
    = Placeholders.resolve_env_vars env (JStr s) /\
  (forall v, Placeholders.is_scalar v = true -> Placeholders.resolve_env_vars env v = v).
Proof.
  intros _ Hunset. split; [|apply resolve_scalar].
  cbn [Placeholders.resolve_env_vars]. f_equal. by apply resolve_str_unset.
Qed.

End PlaceholderFacts.

(** The header of the gateway scenario: [Bearer ${TOK}] with [TOK=abc]. *)
Lemma resolve_twice_fixed_witness :
  let env : gmap string string := {[ "TOK" := "abc" ]} in
  Placeholders.resolve_env_vars env (JStr "Bearer ${TOK}") = JStr "Bearer abc" /\
  Placeholders.resolve_env_vars env
    (Placeholders.resolve_env_vars env (JStr "Bearer ${TOK}"))
    = Placeholders.resolve_env_vars env (JStr "Bearer ${TOK}").
Proof.
  intros env. split; [reflexivity|].
  refine (proj1 (resolve_twice_fixed env "Bearer ${TOK}" _ _)).
  - intros name Hname. vm_compute in Hname.
    apply list_elem_of_singleton in Hname as ->. by eexists.
  - intros name Hname. vm_compute in Hname. by apply elem_of_nil in Hname.
Defined.

(** C9, as stated, fails: with [A] set to a text that contains its own
    placeholder, every variable of [${A}] is set and each resolution grows
    the string. *)
Lemma resolution_idempotent_fails : ~ Placeholders.resolution_idempotent.
Proof.
  intros Hclaim.
  specialize (Hclaim {[ "A" := "${A}!" ]} "${A}").
  assert (forall name, name ∈ Placeholders.referenced "${A}" ->
            is_Some (({[ "A" := "${A}!" ]} : gmap string string) !! name)) as Hset.
  { intros name Hname. vm_compute in Hname.
    apply list_elem_of_singleton in Hname as ->. by eexists. }
  specialize (Hclaim Hset). vm_compute in Hclaim. discriminate.
Qed.

(* ===================================================================== *)
(** * Listing the tools of a server                                       *)
(* ===================================================================== *)

Section ServerToolsFacts.

Lemma tool_json_name t :
  Gateway.json_field "name" (Gateway.tool_json t) = Some (JStr (Retriever.ti_name t)).
Proof. reflexivity. Qed.

Lemma tool_json_fields t :
  exists tool_id title description input_schema requires_auth server,
    Gateway.tool_json t =
    JObj [ ("tool_id", JInt tool_id); ("name", JStr (Retriever.ti_name t));
           ("title", title); ("description", description);
           ("input_schema", input_schema); ("requires_auth", JBool requires_auth);
           ("server", JObj server) ].
Proof. unfold Gateway.tool_json. by eexists _, _, _, _, _, _. Qed.

Lemma filter_all {A : Type} (P : A -> Prop) `{!forall x, Decision (P x)} (l : list A) :
  Forall P l -> filter P l = l.
Proof.
  induction 1 as [|x l Hx _ IH]; [done|].
  by rewrite filter_cons, decide_True, IH.
Qed.

Lemma filter_none {A : Type} (P : A -> Prop) `{!forall x, Decision (P x)} (l : list A) :
  Forall (fun x => ~ P x) l -> filter P l = [].
Proof.
  induction 1 as [|x l Hx _ IH]; [done|].
  by rewrite filter_cons, decide_False.
Qed.

Lemma view_cons db t l :
  Db.v_tools_full
    {| Db.servers := Db.servers db; Db.tools := t :: l;
       Db.environment_variables := Db.environment_variables db;
       Db.tools_search := Db.tools_search db;
       Db.market_rankings := Db.market_rankings db |}
  = (Db.view_rows_of_tool db t ++
     Db.v_tools_full
       {| Db.servers := Db.servers db; Db.tools := l;
          Db.environment_variables := Db.environment_variables db;
          Db.tools_search := Db.tools_search db;
          Db.market_rankings := Db.market_rankings db |})%list.
Proof.
  unfold Db.view_rows_of_tool, Db.v_tools_full. cbn [Db.tools Db.servers Db.environment_variables].
  by rewrite bind_cons, bind_singleton.
Qed.

Lemma view_rows_of_tool_server db t vt :
  vt ∈ Db.view_rows_of_tool db t ->
  Db.vt_server_name vt = Db.tool_server_name t /\ Db.vt_tool_name vt = Db.tool_name t.
Proof.
  unfold Db.view_rows_of_tool, Db.v_tools_full. cbn [Db.tools Db.servers Db.environment_variables].
  rewrite bind_singleton.
  intros Hin. apply list_elem_of_bind in Hin as (s & Hvt & Hs).
  apply list_elem_of_singleton in Hvt as ->.
  apply list_elem_of_filter in Hs as [Hs _]. done.
Qed.

Lemma view_rows_of_tool_unique db t s :
  filter (fun s => Db.srv_name s = Db.tool_server_name t) (Db.servers db) = [s] ->
  map Db.vt_tool_name (Db.view_rows_of_tool db t) = [Db.tool_name t].
Proof.
  unfold Db.view_rows_of_tool, Db.v_tools_full. cbn [Db.tools Db.servers Db.environment_variables].
  rewrite bind_singleton. by intros ->.
Qed.

(** The view lists, for a server present once in [servers], one row per row
    of [tools] carrying the server's name. *)
Lemma view_rows_of_server db server_name s :
  filter (fun s => Db.srv_name s = server_name) (Db.servers db) = [s] ->
  map Db.vt_tool_name
    (filter (fun vt => Db.vt_server_name vt = server_name) (Db.v_tools_full db))
  = map Db.tool_name
      (filter (fun t => Db.tool_server_name t = server_name) (Db.tools db)).
Proof.
  intros Hs. destruct db as [servers tools envs docs ranks]. cbn [Db.servers Db.tools] in *.
  induction tools as [|t l IH]; [done|].
  pose proof (view_cons {| Db.servers := servers; Db.tools := l;
                           Db.environment_variables := envs; Db.tools_search := docs;
                           Db.market_rankings := ranks |} t l) as Hcons.
  cbn [Db.servers Db.tools Db.environment_variables Db.tools_search Db.market_rankings]
    in Hcons.
  rewrite Hcons, filter_app, List.map_app, IH, filter_cons. clear Hcons IH.
  set (db0 := {| Db.servers := servers; Db.tools := l; Db.environment_variables := envs;
                 Db.tools_search := docs; Db.market_rankings := ranks |}).
  destruct (decide (Db.tool_server_name t = server_name)) as [Ht | Ht].
  - rewrite (filter_all _ (Db.view_rows_of_tool db0 t)).
    + rewrite (view_rows_of_tool_unique db0 t s); [done|]. by rewrite Ht.
    + apply Forall_forall. intros vt Hvt.
      apply view_rows_of_tool_server in Hvt as [-> _]. done.
  - rewrite (filter_none _ (Db.view_rows_of_tool db0 t)); [done|].
    apply Forall_forall. intros vt Hvt.
    apply view_rows_of_tool_server in Hvt as [-> _]. done.
Qed.

End ServerToolsFacts.

Section ServerToolsResponse.

Variable json_loads : string -> option json.

Variable format_detail : json -> string.

Lemma get_tools_names db server_name :
  map Retriever.ti_name (Retriever.get_tools_for_server json_loads db server_name)
  = Gateway.server_tool_names db server_name.
Proof.
  unfold Retriever.get_tools_for_server, Gateway.server_tool_names.
  induction (filter _ (Db.v_tools_full db)) as [|vt l IH]; [done|].
  cbn [map]. by rewrite IH.
Qed.

(** C10 at its failing input. [GET /servers/<name>/tools] answers
    [{server, tools}] with one object per tool of the server — [tool_id],
    [name], [title], [description], [input_schema], [requires_auth],
    [server] — and the client's [list_tools], declared to return the list of
    the names ([List[str]]), hands these objects on.  No entry is a string:
    the tool names are only the [name] fields of the objects, in order, and
    for a server with a tool the list is not the list of its tool names.
    The names are those of the rows of [tools] that carry the server's name
    when the server is registered once. *)
Theorem list_tools_returns_objects db server_name :
  exists tools,
    Gateway.list_server_tools json_loads db server_name
      = JObj [ ("server", JStr server_name); ("tools", JArr tools) ] /\
    Sdk.list_tools format_detail None
      (fun name => Gateway.Ok200 (Gateway.list_server_tools json_loads db name)) server_name
      = Sdk.Returned (JArr tools) /\
    Forall (fun o =>
      (exists tool_id name title description input_schema requires_auth server,
         o = JObj [ ("tool_id", JInt tool_id); ("name", JStr name);
                    ("title", title); ("description", description);
                    ("input_schema", input_schema); ("requires_auth", JBool requires_auth);
                    ("server", JObj server) ]) /\
      (forall name, o <> JStr name)) tools /\
    map (Gateway.json_field "name") tools
      = map (fun n => Some (JStr n)) (Gateway.server_tool_names db server_name) /\
    (Gateway.server_tool_names db server_name <> [] ->
     tools <> map JStr (Gateway.server_tool_names db server_name)) /\
    (forall s,
       filter (fun s => Db.srv_name s = server_name) (Db.servers db) = [s] ->
       Gateway.server_tool_names db server_name
       = map Db.tool_name
           (filter (fun t => Db.tool_server_name t = server_name) (Db.tools db))).
Proof.
  unfold Gateway.list_server_tools.
  eexists. split; [reflexivity|]. split; [reflexivity|]. split; [|split; [|split]].
  - apply Forall_forall. intros o Ho.
    apply list_elem_of_fmap in Ho as (t & -> & _).
    destruct (tool_json_fields t) as (i & ti & d & sch & a & srv & ->).
    split; [by eexists _, _, _, _, _, _, _ | done].
  - rewrite <- get_tools_names.
    induction (Retriever.get_tools_for_server json_loads db server_name) as [|t l IH];
      [done|].
    cbn [map]. by rewrite IH.
  - rewrite <- get_tools_names.
    destruct (Retriever.get_tools_for_server json_loads db server_name) as [|t l];
      [done|].
    intros _. cbn [map]. unfold Gateway.tool_json. discriminate.
  - intros s Hs. by apply (view_rows_of_server db server_name s).
Qed.

End ServerToolsResponse.

(** The response shape of the specification does not hold of the handler:
    for the store with one tool the [tools] entry is a list of one object,
    not the list of the name [t]. *)
Lemma tools_are_names_fails : ~ Gateway.tools_are_names.
Proof.
  intros Hclaim.
  specialize (Hclaim (fun _ => None) Retriever.one_tool_db "s").
  vm_compute in Hclaim. discriminate.
Qed.

(* ===================================================================== *)
(** * The HTTP fetcher: backoff                                           *)
(* ===================================================================== *)

Section FetcherFacts.

Local Open Scope R_scope.

Variable request : nat -> Fetcher.outcome.

Lemma backoff_from_waits max_retries base_delay fuel attempt :
  snd (Fetcher.backoff_from request max_retries base_delay fuel attempt)
  = map (fun i => base_delay * 2 ^ i)
        (seq attempt
           (List.length (snd (Fetcher.backoff_from request max_retries base_delay fuel attempt)))).
Proof.
  revert attempt. induction fuel as [|fuel IH]; intros attempt; [done|].
  cbn [Fetcher.backoff_from].
  destruct (request attempt) as [code| |]; [| |done].
  - destruct (code =? 200)%Z; [done|]. destruct (code =? 404)%Z; [done|].
    destruct (Fetcher.retried code); [|done].
    destruct (Z.of_nat attempt <? max_retries)%Z; [|done].
    specialize (IH (S attempt)).
    destruct (Fetcher.backoff_from request max_retries base_delay fuel (S attempt)) as [r sl].
    cbn [snd] in *. cbn [List.length seq map]. by rewrite <- IH.
  - destruct (Z.of_nat attempt <? max_retries)%Z; [|done].
    specialize (IH (S attempt)).
    destruct (Fetcher.backoff_from request max_retries base_delay fuel (S attempt)) as [r sl].
    cbn [snd] in *. cbn [List.length seq map]. by rewrite <- IH.
Qed.

Lemma backoff_from_count max_retries base_delay fuel attempt :
  (Z.of_nat attempt +
   Z.of_nat (List.length (snd (Fetcher.backoff_from request max_retries base_delay fuel attempt)))
   <= Z.max (Z.of_nat attempt) max_retries)%Z.
Proof.
  revert attempt. induction fuel as [|fuel IH]; intros attempt; [cbn; lia|].
  cbn [Fetcher.backoff_from].
  destruct (request attempt) as [code| |]; [| |cbn; lia].
  - destruct (code =? 200)%Z; [cbn; lia|]. destruct (code =? 404)%Z; [cbn; lia|].
    destruct (Fetcher.retried code); [|cbn; lia].
    destruct (Z.of_nat attempt <? max_retries)%Z eqn:Hlt; [|cbn; lia].
    apply Z.ltb_lt in Hlt. specialize (IH (S attempt)).
    destruct (Fetcher.backoff_from request max_retries base_delay fuel (S attempt)) as [r sl].
    cbn [snd List.length] in *. lia.
  - destruct (Z.of_nat attempt <? max_retries)%Z eqn:Hlt; [|cbn; lia].
    apply Z.ltb_lt in Hlt. specialize (IH (S attempt)).
    destruct (Fetcher.backoff_from request max_retries base_delay fuel (S attempt)) as [r sl].
    cbn [snd List.length] in *. lia.
Qed.

Lemma schedule_total base_delay n :
  Fetcher.total (Fetcher.schedule base_delay n) = base_delay * (2 ^ n - 1).
Proof.
  unfold Fetcher.schedule.
  assert (forall a, Fetcher.total (map (fun i => base_delay * 2 ^ i) (seq a n))
                    = base_delay * 2 ^ a * (2 ^ n - 1)) as Hgen.
  { induction n as [|n IH]; intros a; cbn [seq map Fetcher.total foldr].
    - cbn. lra.
    - fold (Fetcher.total (map (fun i => base_delay * 2 ^ i) (seq (S a) n))).
      rewrite IH. cbn [pow]. lra. }
  rewrite Hgen. cbn. lra.
Qed.

(** X1. The fetcher sleeps [base_delay * 2^attempt] before retry number
    [attempt + 1]: the waits of a run are [base_delay, 2*base_delay, ...],
    there are at most [max_retries] of them, and they add up to
    [base_delay * (2^n - 1)] for [n] waits. *)
Theorem backoff_schedule max_retries base_delay :
  let sleeps := snd (Fetcher.exponential_backoff_request request max_retries base_delay) in
  sleeps = Fetcher.schedule base_delay (List.length sleeps) /\
  (Z.of_nat (List.length sleeps) <= Z.max 0 max_retries)%Z /\
  Fetcher.total sleeps = base_delay * (2 ^ List.length sleeps - 1).
Proof.
  cbv zeta. unfold Fetcher.exponential_backoff_request.
  pose proof (backoff_from_waits max_retries base_delay (Z.to_nat (max_retries + 1)) 0) as Hw.
  pose proof (backoff_from_count max_retries base_delay (Z.to_nat (max_retries + 1)) 0) as Hc.
  split; [exact Hw|]. split; [exact Hc|].
  rewrite Hw at 1. apply schedule_total.
Qed.




End FetcherFacts.


(* ===================================================================== *)
(** * Enrichment status: classification, counters, skipping               *)
(* ===================================================================== *)

Section StatusFacts.

Lemma prefix_split p s : String.prefix p s = true -> exists r, s = p ++ r.
Proof.
  revert s. induction p as [|c p IH]; intros s; [by exists s|].
  destruct s as [|d s]; [done|]. cbn [String.prefix].
  destruct (ascii_dec c d) as [<- | ?]; [|done].
  intros [r ->]%IH. exists r. by rewrite append_cons.
Qed.

Lemma prefix_append p r : String.prefix p (p ++ r) = true.
Proof.
  induction p as [|c p IH]; [by destruct r|].
  rewrite append_cons. cbn [String.prefix]. by destruct (ascii_dec c c).
Qed.

Lemma contains_skip needle a s :
  Py.contains needle s = true -> Py.contains needle (a ++ s) = true.
Proof.
  intros Hs. induction a as [|c a IH]; [done|].
  rewrite append_cons. cbn [Py.contains]. rewrite IH. apply orb_true_r.
Qed.

Lemma contains_here needle r : Py.contains needle (needle ++ r) = true.
Proof.
  destruct (needle ++ r) eqn:E; cbn [Py.contains]; rewrite <- E, prefix_append; done.
Qed.

Lemma contains_split needle hay :
  Py.contains needle hay = true -> exists pre post, hay = pre ++ needle ++ post.
Proof.
  induction hay as [|c hay IH]; cbn [Py.contains].
  - rewrite orb_false_r. intros [r Hr]%prefix_split. by exists "", r.
  - intros [Hp | Hrest]%orb_true_iff.
    + apply prefix_split in Hp as [r Hr]. by exists "", r.
    + destruct (IH Hrest) as (pre & post & ->). by exists (String c pre), post.
Qed.

(** A text that contains [a ++ b] contains [b]. *)
Lemma contains_tail a b hay :
  Py.contains (a ++ b) hay = true -> Py.contains b hay = true.
Proof.
  intros (pre & post & ->)%contains_split.
  rewrite string_append_assoc. by apply contains_skip, contains_skip, contains_here.
Qed.

Ltac classified :=
  cbn [orb fst snd];
  first [ by left | by right | split; discriminate ].

Lemma message_reason_dead msg :
  let error_lower := Py.lower msg in
  Py.contains "not found" error_lower = false ->
  Py.contains "package not found" error_lower = false /\
  Py.contains "repository not found" error_lower = false.
Proof.
  intros error_lower Hnf.
  split; apply not_true_is_false; intros H.
  - apply (contains_tail "package " "not found") in H. congruence.
  - apply (contains_tail "repository " "not found") in H. congruence.
Qed.

(** The status the classifier answers is one the status column accepts. *)
Lemma categorize_status status_code error_message :
  let result := Enrich.categorize_enrichment_failure status_code error_message in
  fst result = "permanent_failure" \/ fst result = "transient_failure".
Proof.
  cbv zeta. unfold Enrich.categorize_enrichment_failure.
  set (by_message := match Py.truthy_str error_message with
                     | Some msg => _
                     | None => _
                     end).
  assert (fst by_message = "permanent_failure" \/ fst by_message = "transient_failure")
    as Hmsg.
  { unfold by_message. clear by_message.
    destruct (Py.truthy_str error_message) as [msg|]; [|classified].
    cbv zeta. destruct (_ || _); [classified|].
    repeat (destruct (Py.contains _ _); [classified|]). classified. }
  destruct status_code as [code|]; [|done].
  destruct (code =? 0)%Z; [done|].
  destruct (code =? 404)%Z; [classified|].
  destruct ((code =? 401)%Z || (code =? 403)%Z); [classified|].
  destruct (code =? 429)%Z; [classified|].
  destruct (500 <=? code)%Z; [classified|done].
Qed.

(** X3. Whatever the status code and the message, the classifier answers
    [permanent_failure] or [transient_failure] (a value the status column
    accepts) and never gives the reasons [package_not_found] or
    [repo_not_found]: the tests for them come after the test for
    ["not found"], which every such message passes. *)
Theorem categorize_reasons status_code error_message :
  let result := Enrich.categorize_enrichment_failure status_code error_message in
  (fst result = "permanent_failure" \/ fst result = "transient_failure") /\
  snd result <> "package_not_found" /\ snd result <> "repo_not_found".
Proof.
  cbv zeta. split; [apply categorize_status|].
  unfold Enrich.categorize_enrichment_failure.
  set (by_message := match Py.truthy_str error_message with
                     | Some msg => _
                     | None => _
                     end).
  assert (snd by_message <> "package_not_found" /\
          snd by_message <> "repo_not_found") as Hmsg.
  { unfold by_message. clear by_message.
    destruct (Py.truthy_str error_message) as [msg|]; [|classified].
    destruct (Py.contains "not found" (Py.lower msg)) eqn:Hnf; [classified|].
    destruct (message_reason_dead msg Hnf) as [-> ->]. clear Hnf.
    cbn [orb]. repeat (destruct (Py.contains _ _); [classified|]). classified. }
  destruct status_code as [code|]; [|done].
  destruct (code =? 0)%Z; [done|].
  destruct (code =? 404)%Z; [classified|].
  destruct ((code =? 401)%Z || (code =? 403)%Z); [classified|].
  destruct (code =? 429)%Z; [classified|].
  destruct (500 <=? code)%Z; [|done].
  cbn [snd]. rewrite append_cons. split; discriminate.
Qed.

(** X4. After any sequence of status updates applied to an empty table,
    every row is well formed: a [success] row has no failure reason and
    [retry_count = 0]; any other row is a permanent or transient failure
    with a reason and [retry_count >= 1]. *)
Theorem status_rows_well_formed (updates : list StatusLog.update) :
  map_Forall (fun _ row => StatusLog.well_formed row)
    (StatusLog.apply_updates ∅ updates).
Proof.
  unfold StatusLog.apply_updates.
  assert (forall conn : Enrich.status_table,
            map_Forall (fun _ row => StatusLog.well_formed row) conn ->
            map_Forall (fun _ row => StatusLog.well_formed row) (foldl StatusLog.apply_update conn updates))
    as Hgen.
  { induction updates as [|u us IH]; intros conn Hconn; [done|].
    cbn [foldl]. apply IH.
    unfold StatusLog.apply_update, Enrich.update_enrichment_status.
    destruct (StatusLog.upd_success u).
    - apply map_Forall_insert_2; [|done]. left. done.
    - pose proof (categorize_status None (StatusLog.upd_failure_reason u)) as Hst.
      destruct (Enrich.categorize_enrichment_failure None _) as [st reason].
      apply map_Forall_insert_2; [|done]. right. cbn in *.
      split; [done|]. split; [by eexists|].
      destruct (conn !! _) as [old|] eqn:Hold; [|lia].
      destruct (Hconn _ _ Hold) as [(_ & _ & ->) | (_ & _ & ?)]; lia. }
  apply Hgen, map_Forall_empty.
Qed.

Lemma apply_update_other conn u key :
  key <> (StatusLog.upd_server_name u, StatusLog.upd_enrichment_type u) ->
  StatusLog.apply_update conn u !! key = conn !! key.
Proof.
  intros Hne. unfold StatusLog.apply_update, Enrich.update_enrichment_status.
  destruct (StatusLog.upd_success u).
  - by rewrite lookup_insert_ne.
  - destruct (Enrich.categorize_enrichment_failure None _). by rewrite lookup_insert_ne.
Qed.

Lemma failure_retries conn server_name enrichment_type attempt :
  StatusLog.retries
    (StatusLog.apply_update conn (StatusLog.failure server_name enrichment_type attempt))
    (server_name, enrichment_type)
  = (StatusLog.retries conn (server_name, enrichment_type) + 1)%Z.
Proof.
  unfold StatusLog.apply_update, Enrich.update_enrichment_status, StatusLog.retries.
  cbn [StatusLog.failure StatusLog.upd_success StatusLog.upd_server_name
       StatusLog.upd_enrichment_type StatusLog.upd_now StatusLog.upd_failure_reason].
  destruct (Enrich.categorize_enrichment_failure None _).
  rewrite lookup_insert_eq. cbn. by destruct (conn !! _).
Qed.

(** X5. Failed updates of one [(server, enrichment_type)] add one to its
    [retry_count] each (a missing row counting 0) and leave every other row
    as it was; a successful update then resets the count to 0. *)
Theorem retry_count_accumulates conn server_name enrichment_type
    (attempts : list (string * option string)) now :
  let key := (server_name, enrichment_type) in
  let failed :=
    StatusLog.apply_updates conn
      (map (StatusLog.failure server_name enrichment_type) attempts) in
  StatusLog.retries failed key
    = (StatusLog.retries conn key + Z.of_nat (List.length attempts))%Z /\
  (forall other, other <> key -> failed !! other = conn !! other) /\
  StatusLog.retries
    (Enrich.update_enrichment_status failed now server_name enrichment_type true None) key
  = 0%Z.
Proof.
  cbv zeta. split; [|split].
  - revert conn. induction attempts as [|a l IH]; intros conn.
    + cbn. lia.
    + unfold StatusLog.apply_updates in *. cbn [map foldl List.length].
      rewrite IH, failure_retries. lia.
  - intros other Hne. revert conn. induction attempts as [|a l IH]; intros conn; [done|].
    unfold StatusLog.apply_updates in *. cbn [map foldl].
    rewrite IH. by apply apply_update_other.
  - unfold StatusLog.retries. by rewrite update_success_row.
Qed.

End StatusFacts.

(* ===================================================================== *)
(** * The package workers and the list of permanent failures              *)
(* ===================================================================== *)

Section WorkerFacts.

Variable now : string.

Lemma permanent_failures_spec conn enrichment_type server_name :
  server_name ∈ Enrich.get_permanent_failures conn enrichment_type <->
  exists row, conn !! (server_name, enrichment_type) = Some row /\
              Enrich.status row = "permanent_failure".
Proof.
  unfold Enrich.get_permanent_failures. rewrite list_elem_of_omap. split.
  - intros ([[s ty] row] & Hin & Hrow). apply elem_of_map_to_list in Hin.
    cbn [fst snd] in Hrow.
    destruct (String.eqb ty enrichment_type) eqn:Hty; [|done].
    destruct (String.eqb (Enrich.status row) "permanent_failure") eqn:Hst; [|done].
    apply String.eqb_eq in Hty as ->. apply String.eqb_eq in Hst.
    cbn in Hrow. injection Hrow as ->. by exists row.
  - intros (row & Hrow & Hst). exists ((server_name, enrichment_type), row).
    split; [by apply elem_of_map_to_list|].
    cbn [fst snd]. by rewrite String.eqb_refl, Hst.
Qed.

(** An update that does not write [permanent_failure] adds nothing to any
    list of permanent failures. *)
Lemma update_adds_no_permanent conn server_name enrichment_type success reason ty :
  (success = true \/
   fst (Enrich.categorize_enrichment_failure None reason) <> "permanent_failure") ->
  Enrich.get_permanent_failures
    (Enrich.update_enrichment_status conn now server_name enrichment_type success reason) ty
  ⊆ Enrich.get_permanent_failures conn ty.
Proof.
  intros Hok s. rewrite !permanent_failures_spec. intros (row & Hrow & Hst).
  exists row. split; [|done].
  destruct (decide ((s, ty) = (server_name, enrichment_type))) as [Heq|Hne].
  - exfalso. rewrite Heq in Hrow. unfold Enrich.update_enrichment_status in Hrow.
    destruct success.
    + rewrite lookup_insert_eq in Hrow. injection Hrow as <-. done.
    + destruct Hok as [?|Hok]; [done|].
      destruct (Enrich.categorize_enrichment_failure None reason) as [st r].
      rewrite lookup_insert_eq in Hrow. injection Hrow as <-. done.
  - unfold Enrich.update_enrichment_status in Hrow.
    destruct success; [by rewrite lookup_insert_ne in Hrow|].
    destruct (Enrich.categorize_enrichment_failure None reason) as [st r].
    by rewrite lookup_insert_ne in Hrow.
Qed.

Lemma foldl_adds_no_permanent {A : Type} (step : Enrich.store -> A -> Enrich.store) ty :
  (forall db a,
     Enrich.get_permanent_failures (Enrich.enrichment_status (step db a)) ty
     ⊆ Enrich.get_permanent_failures (Enrich.enrichment_status db) ty) ->
  forall l db,
    Enrich.get_permanent_failures (Enrich.enrichment_status (foldl step db l)) ty
    ⊆ Enrich.get_permanent_failures (Enrich.enrichment_status db) ty.
Proof.
  intros Hstep l. induction l as [|a l IH]; intros db; [done|].
  cbn [foldl]. etrans; [apply IH|apply Hstep].
Qed.

(** X6. The Docker, dependents, NPM and PyPI workers never add a server to
    a list of permanent failures, whatever the fetchers answer: the reasons
    they pass, [image_not_found] and [package_not_found], are classified as
    transient. So no server is ever skipped on account of these workers. *)
Theorem workers_add_no_permanent fetch_docker fetch_librariesio fetch_npm fetch_pypi
    db packages limit skip_failures ty :
  let before := Enrich.get_permanent_failures (Enrich.enrichment_status db) ty in
  let after (db' : Enrich.store) :=
    Enrich.get_permanent_failures (Enrich.enrichment_status db') ty in
  after (Enrich.enrich_docker now fetch_docker db packages skip_failures) ⊆ before /\
  after (Enrich.enrich_dependents now fetch_librariesio db packages skip_failures) ⊆ before /\
  after (Downloads.enrich_npm now fetch_npm db packages limit skip_failures) ⊆ before /\
  after (Downloads.enrich_pypi now fetch_pypi db packages limit skip_failures) ⊆ before.
Proof.
  cbv zeta. split_and!.
  - apply foldl_adds_no_permanent. intros d p. unfold Enrich.enrich_docker_step.
    destruct (fetch_docker _); cbn [Enrich.enrichment_status];
      apply update_adds_no_permanent; [by left|by right].
  - apply foldl_adds_no_permanent. intros d p. unfold Enrich.enrich_dependents_step.
    destruct (fetch_librariesio _ _); cbn [Enrich.enrichment_status]; [done|].
    apply update_adds_no_permanent. by right.
  - apply foldl_adds_no_permanent. intros d p. unfold Downloads.enrich_step.
    destruct (fetch_npm _); cbn [Enrich.enrichment_status];
      apply update_adds_no_permanent; [by left|by right].
  - apply foldl_adds_no_permanent. intros d p. unfold Downloads.enrich_step.
    destruct (fetch_pypi _); cbn [Enrich.enrichment_status];
      apply update_adds_no_permanent; [by left|by right].
Qed.

Let attempted := StatusLog.attempted now "docker".

Lemma docker_step_attempted fetch db pkg :
  attempted (Enrich.enrichment_status (Enrich.enrich_docker_step now fetch db pkg))
    (Enrich.pc_server_name pkg).
Proof.
  unfold Enrich.enrich_docker_step, attempted, StatusLog.attempted.
  destruct (fetch _); cbn [Enrich.enrichment_status].
  - rewrite update_success_row. eexists. split; [done|]. split; [done|by left].
  - unfold Enrich.update_enrichment_status. rewrite categorize_image_not_found.
    rewrite lookup_insert_eq. eexists. split; [done|]. split; [done|by right].
Qed.

Lemma docker_step_keeps fetch db pkg server_name :
  attempted (Enrich.enrichment_status db) server_name ->
  attempted (Enrich.enrichment_status (Enrich.enrich_docker_step now fetch db pkg)) server_name.
Proof.
  intros Hin. destruct (decide (server_name = Enrich.pc_server_name pkg)) as [->|Hne].
  - apply docker_step_attempted.
  - destruct Hin as (row & Hrow & Hnow & Hst). exists row. split; [|done].
    unfold Enrich.enrich_docker_step, Enrich.update_enrichment_status.
    destruct (fetch _); cbn [Enrich.enrichment_status].
    + rewrite lookup_insert_ne; [done|congruence].
    + rewrite categorize_image_not_found. rewrite lookup_insert_ne; [done|congruence].
Qed.

Lemma docker_foldl_keeps fetch l db server_name :
  attempted (Enrich.enrichment_status db) server_name ->
  attempted (Enrich.enrichment_status (foldl (Enrich.enrich_docker_step now fetch) db l))
    server_name.
Proof.
  revert db. induction l as [|p l IH]; intros db Hin; [done|].
  cbn [foldl]. by apply IH, docker_step_keeps.
Qed.

(** X7. After a run of the Docker worker every package that was not skipped
    has a status row for its server, stamped with the time of the run and
    holding [success] or [transient_failure]; with [skip_failures] off
    (the [--clean] flag) that is every package handed in. *)
Theorem docker_rows_written fetch db packages skip_failures :
  let after := Enrich.enrichment_status (Enrich.enrich_docker now fetch db packages skip_failures) in
  Forall (fun pkg => StatusLog.attempted now "docker" after (Enrich.pc_server_name pkg))
    (filter (fun pkg =>
               skip_failures = false \/
               Enrich.pc_server_name pkg ∉
                 Enrich.get_permanent_failures (Enrich.enrichment_status db) "docker")
            packages).
Proof.
  cbv zeta. unfold Enrich.enrich_docker.
  assert (forall l db0,
            Forall (fun pkg =>
                      attempted
                        (Enrich.enrichment_status
                           (foldl (Enrich.enrich_docker_step now fetch) db0 l))
                        (Enrich.pc_server_name pkg)) l) as Hall.
  { induction l as [|p l IH]; intros db0; [done|].
    cbn [foldl]. constructor; [|apply IH].
    apply docker_foldl_keeps, docker_step_attempted. }
  apply Forall_forall. intros pkg [Hkeep Hin]%list_elem_of_filter.
  specialize (Hall (Enrich.skip_permanent Enrich.pc_server_name (Enrich.enrichment_status db)
                      "docker" skip_failures packages) db).
  rewrite Forall_forall in Hall. apply Hall.
  unfold Enrich.skip_permanent. apply list_elem_of_filter. split; [|done].
  destruct skip_failures; [|by apply not_elem_of_nil].
  by destruct Hkeep.
Qed.

Lemma lower_length s : String.length (Py.lower s) = String.length s.
Proof. induction s as [|c s IH]; [done|]. cbn. by rewrite IH. Qed.

Lemma contains_length needle hay :
  Py.contains needle hay = true -> (String.length needle <= String.length hay)%nat.
Proof.
  intros (pre & post & ->)%contains_split. rewrite !append_length. lia.
Qed.

Lemma with_limit_length query limit :
  (String.length query <= String.length (Downloads.with_limit query limit))%nat.
Proof.
  unfold Downloads.with_limit. destruct limit as [n|]; [|done].
  destruct (n =? 0)%Z; [done|]. rewrite append_length. lia.
Qed.

Lemma selected_short registry conn fetched limit skip_failures :
  (registry = "npm" \/ registry = "pypi") ->
  Forall (fun p => (String.length (Enrich.pc_server_name p) < 400)%nat) fetched ->
  Downloads.selected registry conn fetched limit skip_failures = [].
Proof.
  intros Hreg Hshort. unfold Downloads.selected.
  pose proof (with_limit_length (Downloads.select_text registry) limit) as Hlen.
  assert (String.length (Downloads.select_text registry) >= 409)%nat as Hbase
    by (destruct Hreg as [-> | ->]; vm_compute; lia).
  destruct (Downloads.with_limit _ _) as [|c query] eqn:Hq; [cbn [String.length] in Hlen; lia|].
  cbn [Py.truthy_str]. cbv zeta.
  apply filter_none, Forall_forall. intros p Hp.
  apply list_elem_of_filter in Hp as [_ Hp].
  rewrite Forall_forall in Hshort. specialize (Hshort p Hp).
  intros Hc%contains_length. rewrite !lower_length in Hc. lia.
Qed.

(** X8. The NPM and PyPI workers overwrite their [query] argument with the
    SQL text before they filter by it, so the filter keeps only the servers
    whose name contains that whole text: when every server name is shorter
    than 400 characters, no package is fetched and the store is left as it
    was, whatever the argument, the limit and the fetchers. *)
Theorem download_workers_idle fetch_npm fetch_pypi db fetched limit skip_failures :
  Forall (fun p => (String.length (Enrich.pc_server_name p) < 400)%nat) fetched ->
  Downloads.enrich_npm now fetch_npm db fetched limit skip_failures = db /\
  Downloads.enrich_pypi now fetch_pypi db fetched limit skip_failures = db.
Proof.
  intros Hshort. unfold Downloads.enrich_npm, Downloads.enrich_pypi.
  rewrite !selected_short by (done || by (left + right)). done.
Qed.

End WorkerFacts.

Lemma download_workers_idle_witness :
  let pkg := {| Enrich.pc_server_name := "io.github.acme/files";
                Enrich.pc_identifier := "@acme/files";
                Enrich.pc_registry_type := "npm" |} in
  let db := {| Enrich.github_signals := []; Enrich.package_downloads := [];
               Enrich.dependency_signals := []; Enrich.enrichment_status := ∅ |} in
  Downloads.enrich_npm "2025-01-01" (fun _ => true) db [pkg] (Some 10%Z) true = db.
Proof.
  intros pkg db.
  refine (proj1 (download_workers_idle "2025-01-01" (fun _ => true) (fun _ => true)
                   db [pkg] (Some 10%Z) true _)).
  constructor; [vm_compute; lia|constructor].
Defined.

(* ===================================================================== *)
(** * GitHub URLs and Docker image names                                  *)
(* ===================================================================== *)

Section UrlFacts.

Lemma append_empty_r (s : string) : s ++ "" = s.
Proof. induction s as [|c s IH]; [done|]. by rewrite append_cons, IH. Qed.

Lemma span_spec p s :
  let '(taken, rest) := Urls.span p s in
  s = taken ++ rest /\ Urls.all_chars p taken = true /\
  match rest with
  | EmptyString => True
  | String c _ => p c = false
  end.
Proof.
  induction s as [|c s IH]; [done|]. cbn [Urls.span].
  destruct (p c) eqn:Hc; [|done].
  destruct (Urls.span p s) as [taken rest]. destruct IH as (-> & Hall & Hrest).
  rewrite append_cons. cbn [Urls.all_chars]. by rewrite Hc, Hall.
Qed.

Lemma span_app p taken rest :
  Urls.all_chars p taken = true ->
  match rest with
  | EmptyString => True
  | String c _ => p c = false
  end ->
  Urls.span p (taken ++ rest) = (taken, rest).
Proof.
  intros Hall Hrest. induction taken as [|c taken IH].
  - rewrite append_empty_l. destruct rest as [|c rest]; [done|].
    cbn [Urls.span]. by rewrite Hrest.
  - cbn [Urls.all_chars] in Hall. apply andb_true_iff in Hall as [Hc Hall].
    rewrite append_cons. cbn [Urls.span]. by rewrite Hc, IH.
Qed.

Lemma all_chars_weaken (p q : ascii -> bool) s :
  (forall c, p c = true -> q c = true) ->
  Urls.all_chars p s = true -> Urls.all_chars q s = true.
Proof.
  intros Hpq. induction s as [|c s IH]; [done|]. cbn [Urls.all_chars].
  intros [Hc Hs]%andb_true_iff. by rewrite (Hpq c Hc), IH.
Qed.

Lemma not_slash_dot_weaken c : Urls.not_slash_dot c = true -> Urls.not_slash c = true.
Proof. unfold Urls.not_slash_dot, Urls.not_slash. by intros [? _]%andb_true_iff. Qed.

Lemma rstrip_chars_all p chars s :
  Urls.all_chars p s = true -> Urls.all_chars p (Urls.rstrip_chars chars s) = true.
Proof.
  induction s as [|c s IH]; [done|]. cbn [Urls.all_chars Urls.rstrip_chars].
  intros [Hc Hs]%andb_true_iff. specialize (IH Hs).
  destruct (Urls.rstrip_chars chars s) as [|d r].
  - destruct (Urls.in_chars c chars); [done|]. cbn [Urls.all_chars]. by rewrite Hc.
  - cbn [Urls.all_chars] in *. by rewrite Hc, IH.
Qed.

(** What [rstrip] leaves does not end in a character of the set. *)
Lemma rstrip_chars_last chars s pre c :
  Urls.rstrip_chars chars s = pre ++ String c "" -> Urls.in_chars c chars = false.
Proof.
  revert pre. induction s as [|a s IH]; intros pre; cbn [Urls.rstrip_chars].
  - by destruct pre.
  - destruct (Urls.rstrip_chars chars s) as [|d r] eqn:Hr.
    + destruct (Urls.in_chars a chars) eqn:Ha; [by destruct pre|].
      destruct pre as [|b pre]; [rewrite append_empty_l; congruence|].
      rewrite append_cons. intros [= _ Hpre]. by destruct pre.
    + destruct pre as [|b pre]; [rewrite append_empty_l; discriminate|].
      rewrite append_cons. intros [= _ Hpre]. by apply (IH pre).
Qed.

Lemma rstrip_chars_keep chars s c :
  Urls.in_chars c chars = false ->
  Urls.rstrip_chars chars (s ++ String c "") = s ++ String c "".
Proof.
  intros Hc. induction s as [|a s IH].
  - rewrite append_empty_l. cbn [Urls.rstrip_chars]. by rewrite Hc.
  - rewrite append_cons. cbn [Urls.rstrip_chars]. rewrite IH.
    by destruct s.
Qed.

Lemma search_found match_at s groups :
  Urls.search match_at s = Some groups -> exists t, match_at t = Some groups.
Proof.
  induction s as [|c s IH]; cbn [Urls.search].
  - destruct (match_at "") eqn:H; [|done]. intros [= <-]. by exists "".
  - destruct (match_at (String c s)) eqn:H; [|done]. intros [= <-]. by eexists.
Qed.

Lemma search_here match_at s groups :
  match_at s = Some groups -> Urls.search match_at s = Some groups.
Proof. intros H. destruct s; cbn [Urls.search]; by rewrite H. Qed.

Lemma match_github_shape s owner repo :
  Urls.match_github s = Some (owner, repo) ->
  owner <> "" /\ Urls.all_chars Urls.not_slash owner = true /\
  Urls.all_chars Urls.not_slash repo = true.
Proof.
  unfold Urls.match_github.
  destruct (Placeholders.strip_prefix _ s) as [[|sep rest]|]; [done| |done].
  destruct (_ || _); [|done].
  pose proof (span_spec Urls.not_slash rest) as H1.
  destruct (Urls.span Urls.not_slash rest) as [[|c o] [|x rest']]; [done..|].
  pose proof (span_spec Urls.not_slash_dot rest') as H2.
  destruct (Urls.span Urls.not_slash_dot rest') as [[|d r] after]; [done|].
  intros [= <- <-]. destruct H1 as (_ & H1 & _), H2 as (_ & H2 & _).
  split; [done|]. split; [done|].
  by apply (all_chars_weaken Urls.not_slash_dot), H2; apply not_slash_dot_weaken.
Qed.

Lemma match_raw_shape s owner repo :
  Urls.match_raw s = Some (owner, repo) ->
  owner <> "" /\ Urls.all_chars Urls.not_slash owner = true /\
  Urls.all_chars Urls.not_slash repo = true.
Proof.
  unfold Urls.match_raw.
  destruct (Placeholders.strip_prefix _ s) as [rest|]; [|done].
  pose proof (span_spec Urls.not_slash rest) as H1.
  destruct (Urls.span Urls.not_slash rest) as [[|c o] [|x rest']]; [done..|].
  pose proof (span_spec Urls.not_slash rest') as H2.
  destruct (Urls.span Urls.not_slash rest') as [[|d r] after]; [done|].
  intros [= <- <-]. by destruct H1 as (_ & H1 & _), H2 as (_ & H2 & _).
Qed.

(** X9. Whatever the URL, a parsed [(owner, repo)] has a non-empty owner,
    no slash in either part, and a repo that does not end in one of the
    characters [.], [g], [i], [t]: [rstrip('.git')] removes every trailing
    character of that set, not the suffix [.git], so a repository name that
    ends in such a letter is cut short (and may be left empty). A missing or
    empty URL gives [None]. *)
Theorem parse_github_url_shape url owner repo :
  Urls.parse_github_url url = Some (owner, repo) ->
  owner <> "" /\
  Urls.all_chars Urls.not_slash owner = true /\
  Urls.all_chars Urls.not_slash repo = true /\
  (forall pre c, repo = pre ++ String c "" -> Urls.in_chars c ".git" = false) /\
  url <> None /\ url <> Some "".
Proof.
  unfold Urls.parse_github_url. intros Hparse.
  assert (exists s full,
            (Urls.match_github s = Some (owner, full) \/
             Urls.match_raw s = Some (owner, full)) /\
            repo = Urls.rstrip_chars ".git" full /\
            url <> None /\ url <> Some "") as (s & full & Hm & -> & Hurl).
  { destruct url as [[|c u]|]; [done| |done]. cbn [Py.truthy_str] in Hparse.
    destruct (Urls.search Urls.match_github _) as [[o r]|] eqn:Hg.
    - injection Hparse as <- <-. apply search_found in Hg as [t Ht].
      exists t, r. by eauto.
    - destruct (Urls.search Urls.match_raw _) as [[o r]|] eqn:Hr; [|done].
      injection Hparse as <- <-. apply search_found in Hr as [t Ht].
      exists t, r. by eauto. }
  assert (owner <> "" /\ Urls.all_chars Urls.not_slash owner = true /\
          Urls.all_chars Urls.not_slash full = true) as (Ho & Hoc & Hfc)
    by (destruct Hm as [Hm|Hm]; [by apply match_github_shape in Hm
                                |by apply match_raw_shape in Hm]).
  split_and!; [done|done|by apply rstrip_chars_all| |apply Hurl..].
  intros pre c. apply rstrip_chars_last.
Qed.

Lemma match_github_here sep owner repo after :
  Ascii.eqb sep "/" || Ascii.eqb sep ":" = true ->
  owner <> "" -> repo <> "" ->
  Urls.all_chars Urls.not_slash owner = true ->
  Urls.all_chars Urls.not_slash_dot repo = true ->
  match after with
  | EmptyString => True
  | String c _ => Urls.not_slash_dot c = false
  end ->
  Urls.match_github ("github.com" ++ String sep (owner ++ "/" ++ repo ++ after))
  = Some (owner, repo).
Proof.
  intros Hsep Ho Hr Hoc Hrc Hafter. unfold Urls.match_github.
  change (Placeholders.strip_prefix "github.com" ("github.com" ++ ?x)) with (Some x).
  cbv beta iota. rewrite Hsep.
  rewrite (span_app Urls.not_slash owner ("/" ++ repo ++ after)) by done.
  destruct owner as [|c o]; [done|]. rewrite append_cons, append_empty_l.
  rewrite (span_app Urls.not_slash_dot repo after) by done.
  by destruct repo.
Qed.

(** X10. For an owner without a slash and a repository name without slash
    or dot, both non-empty, the HTTPS URL, the same URL with [.git]
    appended, with a path appended, and the SSH form all parse to the owner
    and the repository name with its trailing [.], [g], [i], [t] characters
    removed; the name itself comes back when it does not end in one of
    them. *)
Theorem parse_github_url_forms owner repo :
  owner <> "" -> repo <> "" ->
  Urls.all_chars Urls.not_slash owner = true ->
  Urls.all_chars Urls.not_slash_dot repo = true ->
  let parsed := Some (owner, Urls.rstrip_chars ".git" repo) in
  Urls.parse_github_url (Some ("https://github.com/" ++ owner ++ "/" ++ repo)) = parsed /\
  Urls.parse_github_url (Some ("https://github.com/" ++ owner ++ "/" ++ repo ++ ".git"))
    = parsed /\
  (forall path,
     Urls.parse_github_url (Some ("https://github.com/" ++ owner ++ "/" ++ repo ++ "/" ++ path))
     = parsed) /\
  Urls.parse_github_url (Some ("git@github.com:" ++ owner ++ "/" ++ repo ++ ".git")) = parsed /\
  (forall stem c, repo = stem ++ String c "" -> Urls.in_chars c ".git" = false ->
                  Urls.rstrip_chars ".git" repo = repo).
Proof.
  intros Ho Hr Hoc Hrc parsed.
  assert (forall sep after,
            Ascii.eqb sep "/" || Ascii.eqb sep ":" = true ->
            match after with
            | EmptyString => True
            | String c _ => Urls.not_slash_dot c = false
            end ->
            forall url,
              Urls.search Urls.match_github url
              = Urls.search Urls.match_github
                  ("github.com" ++ String sep (owner ++ "/" ++ repo ++ after)) ->
              url <> "" ->
              Urls.parse_github_url (Some url) = parsed) as Hform.
  { intros sep after Hsep Hafter url Hsearch Hne. unfold Urls.parse_github_url.
    destruct url as [|c u]; [done|]. cbn [Py.truthy_str].
    rewrite Hsearch.
    by rewrite (search_here _ _ (owner, repo))
      by by apply match_github_here. }
  split_and!.
  - apply (Hform "/"%char ""); [done..| |done].
    by rewrite append_empty_r.
  - by apply (Hform "/"%char ".git").
  - intros path. by apply (Hform "/"%char ("/" ++ path)).
  - by apply (Hform ":"%char ".git").
  - intros stem c -> Hc. by apply rstrip_chars_keep.
Qed.

Lemma split_join sep s : Urls.join (String sep "") (Urls.split sep s) = s.
Proof.
  induction s as [|c s IH]; [done|]. cbn [Urls.split].
  destruct (Ascii.eqb c sep) eqn:Hc.
  - apply Ascii.eqb_eq in Hc as ->. cbn [Urls.join].
    destruct (Urls.split sep s) as [|p rest] eqn:Hs.
    + by destruct s; [|cbn in Hs; destruct (Ascii.eqb _ _), (Urls.split _ _)].
    + by rewrite IH.
  - destruct (Urls.split sep s) as [|p rest]; [by cbn in IH; subst|].
    cbn [Urls.join] in *. destruct rest; [by subst|].
    by rewrite append_cons, IH.
Qed.

Lemma split_parts sep s :
  exists first rest,
    Urls.split sep s = first :: rest /\
    Urls.all_chars (fun c => negb (Ascii.eqb c sep)) first = true /\
    (rest = [] <-> Urls.all_chars (fun c => negb (Ascii.eqb c sep)) s = true).
Proof.
  induction s as [|c s IH]; [by exists "", []|].
  cbn [Urls.split Urls.all_chars]. destruct IH as (first & rest & -> & Hfirst & Hrest).
  destruct (Ascii.eqb c sep) eqn:Hc; cbn [negb andb].
  - exists "", (first :: rest). by split_and!.
  - exists (String c first), rest. split_and!; [done| |done].
    cbn [Urls.all_chars]. by rewrite Hc.
Qed.

Lemma split_head sep s :
  exists tag,
    s = hd "" (Urls.split sep s) ++ tag /\
    (tag = "" \/ exists t, tag = String sep t).
Proof.
  destruct (split_parts sep s) as (first & rest & Hs & _ & _).
  pose proof (split_join sep s) as Hj. rewrite Hs in *. cbn [hd Urls.join] in *.
  destruct rest as [|p rest].
  - exists "". split; [|by left]. by rewrite append_empty_r.
  - eexists. split; [symmetry; apply Hj|]. right. by eexists.
Qed.

(** X11. The namespace and repository [fetch_docker_pulls] derives from an
    image name: the namespace has no slash and the repository no colon; an
    image without a slash is looked up under [library]; otherwise the image
    is the namespace, a slash, the repository and a tag that is empty or
    starts at the first colon after the first slash (so a registry host
    with a port is taken as the namespace). *)
Theorem docker_repository_parts image :
  let '(namespace, repo) := Urls.docker_repository image in
  Urls.all_chars Urls.not_slash namespace = true /\
  Urls.all_chars (fun c => negb (Ascii.eqb c ":")) repo = true /\
  exists tag,
    (tag = "" \/ exists t, tag = String ":" t) /\
    if Urls.all_chars Urls.not_slash image
    then namespace = "library" /\ image = repo ++ tag
    else image = namespace ++ "/" ++ repo ++ tag.
Proof.
  unfold Urls.docker_repository.
  destruct (split_parts "/" image) as (first & rest & Hs & Hfirst & Hrest).
  pose proof (split_join "/" image) as Hj. rewrite Hs in *.
  fold Urls.not_slash in *.
  destruct rest as [|p rest].
  - destruct (split_parts ":" first) as (r & others & Hr & Hrc & _).
    destruct (split_head ":" first) as (tag & Htag & Hshape).
    rewrite Hr in *. cbn [hd] in *.
    rewrite (proj1 Hrest eq_refl). cbn [Urls.join] in Hj. subst image.
    split; [done|]. split; [done|]. exists tag. by eauto.
  - set (repo := Urls.join "/" (p :: rest)) in *.
    destruct (split_parts ":" repo) as (r & others & Hr & Hrc & _).
    destruct (split_head ":" repo) as (tag & Htag & Hshape).
    rewrite Hr in *. cbn [hd] in *.
    assert (Urls.all_chars Urls.not_slash image = false) as ->.
    { apply not_true_is_false. by intros ?%Hrest. }
    split; [done|]. split; [done|]. exists tag. split; [done|].
    rewrite <- Hj. change (Urls.join "/" (first :: p :: rest)) with (first ++ "/" ++ repo).
    by rewrite Htag at 1.
Qed.

End UrlFacts.

Lemma parse_github_url_shape_witness :
  Urls.parse_github_url (Some "https://github.com/acme/widget") = Some ("acme", "widge") /\
  "acme" <> "".
Proof.
  split; [reflexivity|].
  refine (proj1 (parse_github_url_shape (Some "https://github.com/acme/widget")
                   "acme" "widge" _)).
  reflexivity.
Defined.

Lemma parse_github_url_forms_witness :
  Urls.parse_github_url (Some "git@github.com:acme/mcp-tools.git") = Some ("acme", "mcp-tools").
Proof.
  refine (proj1 (proj2 (proj2 (proj2
            (parse_github_url_forms "acme" "mcp-tools" _ _ _ _))))); 
    first [discriminate | reflexivity].
Defined.

(* ===================================================================== *)
(** * Search: what the relevance floor lets through, and paging           *)
(* ===================================================================== *)

Section SearchFacts.

Local Open Scope R_scope.

Variable json_loads : string -> option json.
Variable embedding : Type.
Variable encode : string -> embedding.
Variable vec_distance_cosine : embedding -> embedding -> R.
Variable fts_match : string -> option (list (Z * R)).
Variable tool_embeddings : list (Z * embedding).

Lemma foldl_Rmax_ge (l : list R) a :
  a <= foldl Rmax a l /\ Forall (fun x => x <= foldl Rmax a l) l.
Proof.
  revert a. induction l as [|x l IH]; intros a; cbn [foldl]; [split; [lra|done]|].
  destruct (IH (Rmax a x)) as [Ha Hl].
  pose proof (Rmax_l a x). pose proof (Rmax_r a x).
  split; [lra|]. constructor; [lra|done].
Qed.

Lemma max_agg_ge (l : list R) x :
  x ∈ l -> exists m, Sql.max_agg l = Some m /\ x <= m.
Proof.
  destruct l as [|a l]; [by intros ?%elem_of_nil|].
  intros Hx. eexists. split; [done|].
  destruct (foldl_Rmax_ge l a) as [Ha Hl].
  apply elem_of_cons in Hx as [->|Hx]; [done|].
  rewrite Forall_forall in Hl. by apply Hl.
Qed.

Lemma hit_in (hits : list (Z * R)) tid x :
  Relevance.hit hits tid = Some x -> (tid, x) ∈ hits.
Proof.
  unfold Relevance.hit, Sql.find_row.
  destruct (list_find _ hits) as [[i [t y]]|] eqn:Hfind; [|done].
  cbn. intros [= <-]. apply list_find_Some in Hfind as (Hi & Ht & _).
  cbn in Ht. subst t. by eapply list_elem_of_lookup_2.
Qed.

(** The keyword side of the relevance never exceeds 1: the score of a hit
    is at most the greatest score of the hit list. *)
Lemma relevance_keyword_bound (k : list (Z * R)) tid s_score :
  Relevance.relevance_spec s_score (Relevance.hit k tid) (Relevance.k_stats k)
  <= 0.7 * (match s_score with Some s => s | None => 0 end) + 0.3.
Proof.
  unfold Relevance.relevance_spec.
  apply Rplus_le_compat_l.
  destruct (Relevance.hit k tid) as [kr|] eqn:Hhit; [|destruct s_score; lra].
  apply hit_in in Hhit.
  destruct (max_agg_ge (map snd k) kr) as (km & Hkm & Hle).
  { apply list_elem_of_fmap. by exists (tid, kr). }
  unfold Relevance.k_stats. rewrite Hkm.
  destruct (decide (km <= 0)) as [|Hpos]; [lra|].
  assert (0 < Py.log1p (Rmax 0 km)) as Hlog.
  { rewrite Rmax_right by lra. apply log1p_pos. lra. }
  assert (Py.log1p (Rmax 0 kr) <= Py.log1p (Rmax 0 km)) as Hmono.
  { apply log1p_mono; [apply Rmax_l|].
    apply Rmax_lub; [apply Rmax_l|]. etrans; [exact Hle|apply Rmax_r]. }
  assert (Py.log1p (Rmax 0 kr) / Py.log1p (Rmax 0 km) <= 1).
  { apply (Rmult_le_reg_r (Py.log1p (Rmax 0 km))); [done|].
    unfold Rdiv. rewrite Rmult_assoc, Rinv_l by lra. lra. }
  lra.
Qed.

(** X12. Every result of the hybrid search is one of the vector hits, with
    a positive similarity: the keyword side contributes at most [0.3], which
    does not clear the floor [relevance > 0.3], so a document matched by
    keywords alone is never returned, however well it matches. *)
Theorem results_need_vector_hit db query limit results :
  Relevance.hybrid_search embedding encode vec_distance_cosine fts_match tool_embeddings
    db query limit = Some results ->
  let v := Relevance.vector_hits embedding encode vec_distance_cosine tool_embeddings query in
  Forall (fun c =>
            exists s_score,
              Relevance.hit v (Relevance.cand_tool_id c) = Some s_score /\
              0 < s_score /\
              0.3 < Relevance.cand_relevance c <= 0.7 * s_score + 0.3) results.
Proof.
  intros Hsearch v. unfold Relevance.hybrid_search in Hsearch.
  destruct (fts_match _) as [matches|]; [|done].
  injection Hsearch as <-. fold v. apply Forall_forall. intros c Hc.
  apply sql_limit_subset in Hc. rewrite sort_desc_perm in Hc.
  apply list_elem_of_filter in Hc as [Hfloor Hc].
  apply joined_row_in in Hc as (ts & _ & _ & ->).
  cbn [Relevance.joined_row Relevance.cand_relevance Relevance.cand_tool_id] in *.
  rewrite relevance_of_spec in *.
  pose proof (relevance_keyword_bound (Relevance.fts_hits matches) (Db.doc_tool_id ts)
                (Relevance.hit v (Db.doc_tool_id ts))) as Hbound.
  destruct (Relevance.hit v (Db.doc_tool_id ts)) as [s|]; [|lra].
  exists s. split; [done|]. lra.
Qed.

Lemma slice_beyond {A : Type} (l : list A) start stop :
  (Z.of_nat (List.length l) <= start)%Z -> Py.slice l start stop = [].
Proof.
  intros Hstart. unfold Py.slice, Py.slice_index.
  destruct (start <? 0)%Z eqn:Hneg; [apply Z.ltb_lt in Hneg; lia|].
  cbv zeta. rewrite (Z.min_r start) by lia. rewrite Nat2Z.id, drop_all. apply take_nil.
Qed.

Lemma slice_subset {A : Type} (l : list A) start stop x :
  x ∈ Py.slice l start stop -> x ∈ l.
Proof.
  unfold Py.slice. intros Hx. eapply subseteq_drop, subseteq_take, Hx.
Qed.

(** X13. An answer of [retrieve] echoes the query, the page and the limit;
    its results are in descending order of score; every result clears the
    relevance floor and scores [0.8*relevance + 0.2*quality];
    [total_candidates] is between 0 and the candidate limit 100; and a page
    that starts at or after [total_candidates] is empty. *)
Theorem retrieve_page db query page limit resp :
  Retriever.retrieve json_loads embedding encode vec_distance_cosine fts_match
    tool_embeddings db query page limit = Some resp ->
  (Retriever.resp_query resp, Retriever.resp_page resp, Retriever.resp_limit resp)
    = (query, page, limit) /\
  Sorted (Py.desc_by Retriever.sr_score) (Retriever.resp_results resp) /\
  Forall (fun r =>
            0.3 < Retriever.sr_relevance r /\
            Retriever.sr_score r
              = 0.8 * Retriever.sr_relevance r + 0.2 * Retriever.sr_quality r)
         (Retriever.resp_results resp) /\
  (0 <= Retriever.resp_total_candidates resp <= 100)%Z /\
  ((Retriever.resp_total_candidates resp <= (page - 1) * limit)%Z ->
   Retriever.resp_results resp = []).
Proof.
  unfold Retriever.retrieve, Retriever.hybrid_search.
  destruct (Relevance.hybrid_search _ _ _ _ _ db query 100) as [candidates|] eqn:Hsearch;
    [|done].
  assert (List.length candidates <= 100)%nat as Hlen.
  { unfold Relevance.hybrid_search in Hsearch.
    destruct (fts_match _) as [matches|]; [|done]. injection Hsearch as <-.
    change 100%Z with (Z.of_nat 100). rewrite sql_limit_length. lia. }
  assert (Forall (fun c => 0.3 < Relevance.cand_relevance c /\
                           Relevance.cand_final_score c
                           = 0.8 * Relevance.cand_relevance c + 0.2 * Relevance.cand_quality c)
                 candidates) as Hcands.
  { unfold Relevance.hybrid_search in Hsearch.
    destruct (fts_match _) as [matches|]; [|done]. injection Hsearch as <-.
    apply Forall_forall. intros c Hc.
    apply sql_limit_subset in Hc. rewrite sort_desc_perm in Hc.
    apply list_elem_of_filter in Hc as [Hfloor Hc]. split; [done|].
    by apply joined_row_in in Hc as (ts & _ & _ & ->). }
  destruct (Py.slice candidates _ _) as [|c0 paged] eqn:Hpage.
  - intros [= <-]. cbn. split; [done|]. split; [constructor|]. split; [constructor|].
    split; [lia|done].
  - intros [= <-].
    cbn [Retriever.resp_query Retriever.resp_page Retriever.resp_limit
         Retriever.resp_results Retriever.resp_total_candidates].
    split; [done|]. split; [apply sort_desc_sorted|]. split; [|split; [lia|]].
    + apply Forall_forall. intros r Hr. rewrite sort_desc_perm in Hr.
      apply list_elem_of_omap in Hr as (db_r & _ & Hr).
      destruct (Retriever.cand_map_of (c0 :: paged) !! Db.vt_tool_id db_r) as [cand|] eqn:Hcand;
        [|done].
      cbn in Hr. injection Hr as <-. cbn.
      apply cand_map_of_lookup in Hcand as [Hin _].
      rewrite <- Hpage in Hin. apply slice_subset in Hin.
      rewrite Forall_forall in Hcands. by apply Hcands.
    + intros Hbeyond. by rewrite slice_beyond in Hpage.
Qed.

Lemma map_chars_all (f : ascii -> ascii) (p : ascii -> bool) s :
  (forall c, p (f c) = true) -> Urls.all_chars p (Relevance.map_chars f s) = true.
Proof.
  intros Hf. induction s as [|c s IH]; [done|].
  cbn [Relevance.map_chars Urls.all_chars]. by rewrite Hf, IH.
Qed.

Lemma map_chars_id (f : ascii -> ascii) (p : ascii -> bool) s :
  (forall c, p c = true -> f c = c) ->
  Urls.all_chars p s = true -> Relevance.map_chars f s = s.
Proof.
  intros Hf. induction s as [|c s IH]; [done|].
  cbn [Relevance.map_chars Urls.all_chars]. intros [Hc Hs]%andb_true_iff.
  by rewrite (Hf c Hc), IH.
Qed.

Lemma lstrip_all p s :
  Urls.all_chars p s = true -> Urls.all_chars p (Relevance.lstrip s) = true.
Proof.
  induction s as [|c s IH]; [done|]. cbn [Relevance.lstrip].
  destruct (Relevance.is_space c); [|done].
  cbn [Urls.all_chars]. intros [_ Hs]%andb_true_iff. by apply IH.
Qed.

Lemma rstrip_all p s :
  Urls.all_chars p s = true -> Urls.all_chars p (Relevance.rstrip s) = true.
Proof.
  induction s as [|c s IH]; [done|]. cbn [Urls.all_chars Relevance.rstrip].
  intros [Hc Hs]%andb_true_iff. specialize (IH Hs).
  destruct (Relevance.rstrip s) as [|d r].
  - destruct (Relevance.is_space c); [done|]. cbn [Urls.all_chars]. by rewrite Hc.
  - cbn [Urls.all_chars] in *. by rewrite Hc, IH.
Qed.

Lemma lstrip_head s : 
  match Relevance.lstrip s with
  | EmptyString => True
  | String c _ => Relevance.is_space c = false
  end.
Proof.
  induction s as [|c s IH]; [done|]. cbn [Relevance.lstrip].
  by destruct (Relevance.is_space c) eqn:Hc.
Qed.

Lemma rstrip_head s :
  match s with
  | EmptyString => True
  | String c _ => Relevance.is_space c = false
  end ->
  match Relevance.rstrip s with
  | EmptyString => True
  | String c _ => Relevance.is_space c = false
  end.
Proof.
  destruct s as [|c s]; [done|]. cbn [Relevance.rstrip]. intros Hc.
  destruct (Relevance.rstrip s); [by rewrite Hc|done].
Qed.

Lemma lstrip_fixed s :
  match s with
  | EmptyString => True
  | String c _ => Relevance.is_space c = false
  end ->
  Relevance.lstrip s = s.
Proof. destruct s as [|c s]; [done|]. cbn [Relevance.lstrip]. by intros ->. Qed.

Lemma rstrip_rstrip s : Relevance.rstrip (Relevance.rstrip s) = Relevance.rstrip s.
Proof.
  induction s as [|c s IH]; [done|]. cbn [Relevance.rstrip].
  destruct (Relevance.rstrip s) as [|d r] eqn:Hr.
  - destruct (Relevance.is_space c) eqn:Hc; [done|].
    cbn [Relevance.rstrip]. by rewrite Hc.
  - change (Relevance.rstrip (String c (String d r)))
      with (match Relevance.rstrip (String d r) with
            | EmptyString => if Relevance.is_space c then EmptyString else String c EmptyString
            | t' => String c t'
            end).
    by rewrite IH.
Qed.

Lemma rstrip_last s pre c :
  Relevance.rstrip s = pre ++ String c "" -> Relevance.is_space c = false.
Proof.
  revert pre. induction s as [|a s IH]; intros pre; cbn [Relevance.rstrip].
  - by destruct pre.
  - destruct (Relevance.rstrip s) as [|d r] eqn:Hr.
    + destruct (Relevance.is_space a) eqn:Ha; [by destruct pre|].
      destruct pre as [|b pre]; [rewrite append_empty_l; congruence|].
      rewrite append_cons. intros [= _ Hpre]. by destruct pre.
    + destruct pre as [|b pre]; [rewrite append_empty_l; discriminate|].
      rewrite append_cons. intros [= _ Hpre]. by apply (IH pre).
Qed.

(** X14. The text handed to the full-text index holds only ASCII letters,
    digits and white space (so no FTS5 operator character), neither starts
    nor ends with white space, and sanitising it again changes nothing. *)
Theorem sanitize_clean query :
  let fts_query := Relevance.sanitize query in
  Urls.all_chars (fun c => Relevance.is_alnum c || Relevance.is_space c) fts_query = true /\
  match fts_query with
  | EmptyString => True
  | String c _ => Relevance.is_space c = false
  end /\
  (forall pre c, fts_query = pre ++ String c "" -> Relevance.is_space c = false) /\
  Relevance.sanitize fts_query = fts_query.
Proof.
  cbv zeta. unfold Relevance.sanitize.
  set (keep := fun c => Relevance.is_alnum c || Relevance.is_space c).
  set (f := fun c : ascii => if Relevance.is_alnum c || Relevance.is_space c then c else " "%char).
  assert (Urls.all_chars keep (Relevance.rstrip (Relevance.lstrip (Relevance.map_chars f query)))
          = true) as Hall.
  { apply rstrip_all, lstrip_all, map_chars_all. intros c. unfold f, keep.
    by destruct (Relevance.is_alnum c || Relevance.is_space c) eqn:Hc. }
  pose proof (rstrip_head _ (lstrip_head (Relevance.map_chars f query))) as Hhead.
  split_and!; [done|done|apply rstrip_last|].
  rewrite (map_chars_id f keep); [|by intros c; unfold f, keep; intros ->|done].
  by rewrite lstrip_fixed, rstrip_rstrip.
Qed.

End SearchFacts.

Lemma results_need_vector_hit_witness :
  let results :=
    Relevance.sql_limit 10
      (Py.sort_desc Relevance.cand_final_score
         (filter (fun c => (0.3 < Relevance.cand_relevance c)%R)
            (Relevance.joined_candidates Retriever.one_tool_db
               (Relevance.vector_hits unit (fun _ => tt) (fun _ _ => 0.2%R) [(1%Z, tt)] "q")
               (Relevance.fts_hits [])))) in
  Forall (fun c =>
            exists s_score,
              Relevance.hit
                (Relevance.vector_hits unit (fun _ => tt) (fun _ _ => 0.2%R) [(1%Z, tt)] "q")
                (Relevance.cand_tool_id c) = Some s_score /\
              (0 < s_score)%R /\
              (0.3 < Relevance.cand_relevance c <= 0.7 * s_score + 0.3)%R) results.
Proof.
  intros results.
  apply (results_need_vector_hit unit (fun _ => tt) (fun _ _ => 0.2%R) (fun _ => Some [])
           [(1%Z, tt)] Retriever.one_tool_db "q" 10 results).
  reflexivity.
Defined.

Lemma retrieve_page_witness :
  exists resp,
    Retriever.retrieve (fun _ => None) unit (fun _ => tt) (fun _ _ => 0.8%R)
      (fun _ => Some []) [(1%Z, tt)] Retriever.one_tool_db "q" 1 10 = Some resp /\
    Retriever.resp_query resp = "q".
Proof.
  destruct (retrieve_of_candidates (fun _ => None) unit (fun _ => tt) (fun _ _ => 0.8%R)
              (fun _ => Some []) [(1%Z, tt)] Retriever.one_tool_db "q" 1 10 _
              (search_total unit (fun _ => tt) (fun _ _ => 0.8%R) (fun _ => Some [])
                 [(1%Z, tt)] Retriever.one_tool_db "q" 100 [] eq_refl))
    as (resp & Hresp & _).
  exists resp. split; [exact Hresp|].
  exact (f_equal (fun t => fst (fst t))
           (proj1 (retrieve_page (fun _ => None) unit (fun _ => tt) (fun _ _ => 0.8%R)
                     (fun _ => Some []) [(1%Z, tt)] Retriever.one_tool_db "q" 1 10 resp
                     Hresp))).
Defined.

(* ===================================================================== *)
(** * The backlink scorer: edges and contributions                        *)
(* ===================================================================== *)

Section BacklinkInvariants.

Local Open Scope R_scope.

Variable days_since : string -> option Z.
Variable search_own_repo : string -> option string.
Variable lookup_metadata : string -> option Backlinks.repo_metadata.

(** Every configuration type is scored in the first tier. *)
Lemma tier_of_config_type config_type :
  Py.dict_get Backlinks.CONFIG_TYPE_TO_TIER config_type "tier1_config" = "tier1_config".
Proof.
  unfold Backlinks.CONFIG_TYPE_TO_TIER. cbn [Py.dict_get].
  by repeat destruct (String.eqb _ config_type).
Qed.

Lemma tier1_weight : Py.dict_get Backlinks.TIER_WEIGHTS "tier1_config" 0.5 = 1.
Proof. cbn. apply one_point_zero. Qed.

Lemma edge_total_snoc edges e :
  Scores.edge_total (edges ++ [e])%list = Scores.edge_total edges + Backlinks.edge_score e.
Proof.
  unfold Scores.edge_total. induction edges as [|x l IH]; cbn [foldr app]; [lra|].
  rewrite IH. lra.
Qed.

Lemma lower_empty s : Py.lower s = "" -> s = "".
Proof. by destruct s. Qed.

(** One iteration over a sample repository either changes nothing or
    buffers one edge for a referencer that is named, is not the server's
    own repository and was not seen before. *)
Lemma process_sample_repo_step server_name own_repo tier tier_weight st repo :
  let st' := Backlinks.process_sample_repo days_since lookup_metadata
               server_name own_repo tier tier_weight st repo in
  st' = st \/
  repo <> "" /\ own_repo <> Some (Py.lower repo) /\
  ((Py.lower repo, tier) ∉ Backlinks.st_unique_repos st) /\
  exists stars pushed_at is_archived is_fork,
    (stars = 0%Z \/
     exists m, lookup_metadata repo = Some m /\ Backlinks.meta_repo_stars m = Some stars) /\
    let e := {| Backlinks.edge_server_name := server_name;
                Backlinks.edge_referencer_repo := repo;
                Backlinks.edge_tier := tier;
                Backlinks.edge_tier_weight := tier_weight;
                Backlinks.edge_repo_stars := stars;
                Backlinks.edge_repo_pushed_at := pushed_at;
                Backlinks.edge_is_archived := is_archived;
                Backlinks.edge_is_fork := is_fork;
                Backlinks.edge_score :=
                  Backlinks.compute_edge_score days_since tier_weight stars pushed_at
                    is_archived is_fork |} in
    st' = {| Backlinks.st_tier1 := Backlinks.st_tier1 st + Backlinks.edge_score e;
             Backlinks.st_unique_repos := (Py.lower repo, tier) :: Backlinks.st_unique_repos st;
             Backlinks.st_edges_to_store := (Backlinks.st_edges_to_store st ++ [e])%list |}.
Proof.
  cbv zeta. unfold Backlinks.process_sample_repo.
  destruct (String.eqb repo "") eqn:Hrepo; [by left|].
  apply String.eqb_neq in Hrepo.
  destruct (match Py.truthy_str own_repo with
            | Some o => String.eqb (Py.lower repo) o
            | None => false
            end) eqn:Hown; [by left|].
  case_bool_decide as Hseen; [by left|]. right.
  split; [done|]. split.
  { intros ->. destruct (Py.lower repo) as [|c l] eqn:Hl; [by apply lower_empty in Hl|].
    cbn [Py.truthy_str] in Hown. by rewrite String.eqb_refl in Hown. }
  split; [done|].
  destruct (lookup_metadata repo) as [[[stars|] p a f]|] eqn:Hmeta.
  - exists stars, p, a, f. split; [right; by eexists|done].
  - exists 0%Z, None, false, false. split; [by left|done].
  - exists 0%Z, None, false, false. split; [by left|done].
Qed.

Lemma process_sample_repo_ok server_name own_repo st repo :
  Scores.state_ok server_name own_repo st ->
  Scores.state_ok server_name own_repo
    (Backlinks.process_sample_repo days_since lookup_metadata
       server_name own_repo "tier1_config" 1 st repo).
Proof.
  intros (Hsum & Hok & Hkeys & Hnodup).
  destruct (process_sample_repo_step server_name own_repo "tier1_config" 1 st repo)
    as [-> | (Hrepo & Hown & Hnew & stars & p & a & f & _ & ->)]; [done|].
  unfold Scores.state_ok.
  cbn [Backlinks.st_tier1 Backlinks.st_edges_to_store Backlinks.st_unique_repos
       Backlinks.edge_score].
  split_and!.
  - rewrite edge_total_snoc, Hsum. done.
  - apply Forall_app. split; [done|]. by repeat constructor.
  - apply Forall_app. split.
    + eapply Forall_impl; [exact Hkeys|]. intros e He. by apply list_elem_of_further.
    + constructor; [apply list_elem_of_here|constructor].
  - rewrite List.map_app. apply NoDup_app. split; [done|]. split.
    + intros key Hkey Hlast. cbn [map] in Hlast.
      apply list_elem_of_singleton in Hlast. subst key.
      apply list_elem_of_fmap in Hkey as (e & Heq & He).
      rewrite Forall_forall in Hkeys. specialize (Hkeys e He).
      assert (Scores.edge_key e = (Py.lower repo, "tier1_config")) as Hk
        by (symmetry; exact Heq).
      apply Hnew. by rewrite <- Hk.
    + apply NoDup_singleton.
Qed.

Lemma process_config_reference_ok server_name own_repo st ref :
  Scores.state_ok server_name own_repo st ->
  Scores.state_ok server_name own_repo
    (Backlinks.process_config_reference days_since lookup_metadata
       server_name own_repo st ref).
Proof.
  unfold Backlinks.process_config_reference. cbv zeta.
  rewrite tier_of_config_type, tier1_weight.
  generalize (Sql.coalesce (Backlinks.cr_sample_repos ref) []). intros repos.
  revert st. induction repos as [|r repos IH]; intros st Hst; cbn [foldl]; [done|].
  by apply IH, process_sample_repo_ok.
Qed.

Lemma score_server_ok config_references dependency_signals server :
  let res := Backlinks.score_server days_since search_own_repo lookup_metadata
               config_references dependency_signals server in
  Backlinks.res_server_name res = Backlinks.srv_name server /\
  Backlinks.res_tier1 res = Scores.edge_total (Backlinks.res_edges_to_store res) /\
  Forall (Scores.edge_ok (Backlinks.srv_name server)
            (Backlinks.own_repo_of search_own_repo (Backlinks.srv_repository_url server)))
         (Backlinks.res_edges_to_store res) /\
  NoDup (map Scores.edge_key (Backlinks.res_edges_to_store res)) /\
  Backlinks.res_raw_score res = Backlinks.res_tier1 res + Backlinks.res_tier2 res /\
  Backlinks.res_tier3 res = 0 /\ Backlinks.res_tier4 res = 0.
Proof.
  cbv zeta. unfold Backlinks.score_server. cbv zeta.
  cbn [Backlinks.res_server_name Backlinks.res_tier1 Backlinks.res_edges_to_store
       Backlinks.res_raw_score Backlinks.res_tier2 Backlinks.res_tier3 Backlinks.res_tier4].
  set (own_repo := Backlinks.own_repo_of search_own_repo (Backlinks.srv_repository_url server)).
  match goal with
  | |- context [foldl (Backlinks.process_config_reference _ _ _ _) ?st0 ?refs] =>
      assert (Scores.state_ok (Backlinks.srv_name server) own_repo
                (foldl (Backlinks.process_config_reference days_since lookup_metadata
                          (Backlinks.srv_name server) own_repo) st0 refs))
        as (Hsum & Hok & _ & Hnodup);
      [ generalize refs; intros l;
        assert (Scores.state_ok (Backlinks.srv_name server) own_repo st0) as H0
          by (unfold Scores.state_ok; cbn; rewrite zero_point_zero;
              split_and!; [done|constructor|constructor|constructor]);
        revert H0; generalize st0; induction l as [|r l IH]; intros st H0; cbn [foldl];
        [done|by apply IH, process_config_reference_ok]
      | ]
  end.
  split_and!; [done|done|done|done|lra|lra|lra].
Qed.

(** X15. Every edge the scorer stores is a first-tier edge of weight 1
    (every configuration type maps to [tier1_config]), names its
    referencer, belongs to one of the scored servers and does not come from
    that server's own repository, compared without regard to case. *)
Theorem stored_edges_shape servers config_references dependency_signals query :
  Forall (fun e =>
            Backlinks.edge_tier e = "tier1_config" /\
            Backlinks.edge_tier_weight e = 1 /\
            Backlinks.edge_referencer_repo e <> "" /\
            exists server,
              server ∈ servers /\
              Backlinks.edge_server_name e = Backlinks.srv_name server /\
              Backlinks.own_repo_of search_own_repo (Backlinks.srv_repository_url server)
              <> Some (Py.lower (Backlinks.edge_referencer_repo e)))
    (fst (Backlinks.compute_backlink_scores days_since search_own_repo lookup_metadata
            servers config_references dependency_signals query)).
Proof.
  unfold Backlinks.compute_backlink_scores. cbn [fst].
  match goal with
  | |- context [map (Backlinks.score_server _ _ _ _ _) ?l] =>
      assert (l ⊆ servers) as Hsub
        by (destruct (Py.truthy_str query); [apply sublist_subseteq, sublist_filter|done]);
      revert Hsub; generalize l
  end.
  intros l Hsub. induction l as [|s l IH]; cbn [map List.concat]; [constructor|].
  apply Forall_app. split.
  - destruct (score_server_ok config_references dependency_signals s)
      as (_ & _ & Hok & _).
    eapply Forall_impl; [exact Hok|].
    intros e (Hname & Htier & Hweight & Hrepo & Hown).
    split_and!; [done..|]. exists s. split; [|done].
    apply Hsub, list_elem_of_here.
  - apply IH. intros x Hx. by apply Hsub, list_elem_of_further.
Qed.

Lemma edges_of_other server_name config_references dependency_signals l :
  server_name ∉ map Backlinks.srv_name l ->
  Scores.edges_of server_name
    (List.concat
       (map (fun s => Backlinks.res_edges_to_store
                        (Backlinks.score_server days_since search_own_repo lookup_metadata
                           config_references dependency_signals s)) l))
  = [].
Proof.
  unfold Scores.edges_of.
  induction l as [|s l IH]; cbn [map List.concat]; [done|].
  intros Hnot. apply not_elem_of_cons in Hnot as [Hne Hnot].
  rewrite filter_app, (IH Hnot), app_nil_r.
  apply filter_none.
  destruct (score_server_ok config_references dependency_signals s) as (_ & _ & Hok & _).
  eapply Forall_impl; [exact Hok|]. intros e (Hname & _). congruence.
Qed.

Lemma edges_of_own config_references dependency_signals s :
  Scores.edges_of (Backlinks.srv_name s)
    (Backlinks.res_edges_to_store
       (Backlinks.score_server days_since search_own_repo lookup_metadata
          config_references dependency_signals s))
  = Backlinks.res_edges_to_store
      (Backlinks.score_server days_since search_own_repo lookup_metadata
         config_references dependency_signals s).
Proof.
  apply filter_all.
  destruct (score_server_ok config_references dependency_signals s) as (_ & _ & Hok & _).
  eapply Forall_impl; [exact Hok|]. by intros e (Hname & _).
Qed.

(** X16. With distinct server names, the first-tier contribution written
    to [backlink_scores] for a server is the sum of the edge scores written
    to [backlink_edges] for it in the same run; these edges have distinct
    referencers, compared without regard to case; the raw score is the sum
    of the first- and second-tier contributions, and the third and fourth
    are 0. *)
Theorem tier1_sums_edges servers config_references dependency_signals query :
  NoDup (map Backlinks.srv_name servers) ->
  let stored := Backlinks.compute_backlink_scores days_since search_own_repo lookup_metadata
                  servers config_references dependency_signals query in
  Forall (fun s =>
            let own := Scores.edges_of (Backlinks.bs_server_name s) (fst stored) in
            Backlinks.bs_tier1_contribution s = Scores.edge_total own /\
            NoDup (map Scores.edge_key own) /\
            Backlinks.bs_raw_score s
              = Backlinks.bs_tier1_contribution s + Backlinks.bs_tier2_contribution s /\
            Backlinks.bs_tier3_contribution s = 0 /\
            Backlinks.bs_tier4_contribution s = 0)
    (snd stored).
Proof.
  intros Hnodup. cbv zeta. unfold Backlinks.compute_backlink_scores. cbn [fst snd].
  match goal with
  | |- context [map (Backlinks.score_server _ _ _ _ _) ?l] =>
      assert (NoDup (map Backlinks.srv_name l)) as Hl
        by (destruct (Py.truthy_str query); [|done];
            eapply sublist_NoDup; [exact Hnodup|];
            apply fmap_sublist, sublist_filter);
      revert Hl; generalize l
  end.
  clear Hnodup. intros l Hl.
  generalize (Backlinks.q99_log_raw
                (map (Backlinks.score_server days_since search_own_repo lookup_metadata
                        config_references dependency_signals) l)).
  intros q99. rewrite !Forall_fmap.
  apply Forall_forall. intros s Hs.
  cbn [Backlinks.store_score Backlinks.bs_server_name Backlinks.bs_tier1_contribution
       Backlinks.bs_raw_score Backlinks.bs_tier2_contribution
       Backlinks.bs_tier3_contribution Backlinks.bs_tier4_contribution compose].
  rewrite map_map.
  destruct (score_server_ok config_references dependency_signals s)
    as (Hname & Hsum & _ & Hkeys & Hraw & H3 & H4).
  rewrite Hname.
  assert (Scores.edges_of (Backlinks.srv_name s)
            (List.concat
               (map (fun s0 => Backlinks.res_edges_to_store
                                 (Backlinks.score_server days_since search_own_repo
                                    lookup_metadata config_references dependency_signals s0))
                    l))
          = Backlinks.res_edges_to_store
              (Backlinks.score_server days_since search_own_repo lookup_metadata
                 config_references dependency_signals s)) as ->; [|done].
  clear Hname Hsum Hkeys Hraw H3 H4.
  induction l as [|x l IH]; [by apply elem_of_nil in Hs|].
  cbn [map] in Hl. apply NoDup_cons in Hl as [Hx Hl].
  cbn [map List.concat]. unfold Scores.edges_of in *. rewrite filter_app.
  apply elem_of_cons in Hs as [->|Hs].
  - fold (Scores.edges_of (Backlinks.srv_name x)
            (Backlinks.res_edges_to_store
               (Backlinks.score_server days_since search_own_repo lookup_metadata
                  config_references dependency_signals x))).
    rewrite edges_of_own.
    pose proof (edges_of_other (Backlinks.srv_name x) config_references dependency_signals l Hx)
      as Hother.
    unfold Scores.edges_of in Hother. rewrite Hother. apply app_nil_r.
  - rewrite (IH Hl Hs).
    rewrite filter_none; [done|].
    destruct (score_server_ok config_references dependency_signals x) as (_ & _ & Hok & _).
    eapply Forall_impl; [exact Hok|]. intros e (Hname & _) Heq.
    apply Hx. rewrite <- Hname, Heq. apply list_elem_of_fmap. by exists s.
Qed.

Lemma compute_edge_score_pos stars pushed_at is_archived is_fork :
  (0 <= stars)%Z ->
  0 < Backlinks.compute_edge_score days_since 1 stars pushed_at is_archived is_fork.
Proof.
  intros Hstars. unfold Backlinks.compute_edge_score. cbv zeta.
  rewrite compute_quality_factor_product.
  assert (0 <= Py.log1p (IZR stars)) by (apply log1p_nonneg, IZR_le; lia).
  assert (0 < Backlinks.compute_recency_factor days_since pushed_at 0.5) as Hrec.
  { unfold Backlinks.compute_recency_factor.
    destruct (Py.truthy_str pushed_at) as [s|]; [|lra].
    destruct (days_since s); [apply exp_pos|lra]. }
  assert (0 < (if is_archived then 0.2 else 1) * (if is_fork then 0.5 else 1))
    by (destruct is_archived, is_fork; lra).
  rewrite one_point_zero.
  apply Rmult_lt_0_compat; [|done].
  apply Rmult_lt_0_compat; [|done]. lra.
Qed.

Lemma dep_score_nonneg dep :
  (0 <= Py.or_zero (Backlinks.ds_dependents_count dep))%Z ->
  0 <= Backlinks.dep_score dep.
Proof.
  intros Hdep. unfold Backlinks.dep_score. cbv zeta.
  change (Py.dict_get Backlinks.TIER_WEIGHTS "tier2_dependency" 0) with 0.8.
  assert (0 <= Py.log1p (IZR (Py.or_zero (Backlinks.ds_dependents_count dep))))
    by (apply log1p_nonneg, IZR_le; lia).
  apply Rmult_le_pos; [|apply sqrt_pos].
  apply Rmult_le_pos; [lra|done].
Qed.

Lemma edge_total_nonneg edges :
  Forall (fun e => 0 < Backlinks.edge_score e) edges -> 0 <= Scores.edge_total edges.
Proof.
  unfold Scores.edge_total. induction 1 as [|e l He _ IH]; cbn [foldr]; lra.
Qed.

Lemma process_sample_repo_positive server_name own_repo st repo :
  (forall repo m stars,
     lookup_metadata repo = Some m -> Backlinks.meta_repo_stars m = Some stars ->
     (0 <= stars)%Z) ->
  Forall (fun e => 0 < Backlinks.edge_score e) (Backlinks.st_edges_to_store st) ->
  Forall (fun e => 0 < Backlinks.edge_score e)
    (Backlinks.st_edges_to_store
       (Backlinks.process_sample_repo days_since lookup_metadata
          server_name own_repo "tier1_config" 1 st repo)).
Proof.
  intros Hmeta Hst.
  destruct (process_sample_repo_step server_name own_repo "tier1_config" 1 st repo)
    as [-> | (_ & _ & _ & stars & p & a & f & Hstars & ->)]; [done|].
  cbn [Backlinks.st_edges_to_store]. apply Forall_app. split; [done|].
  repeat constructor. cbn [Backlinks.edge_score]. apply compute_edge_score_pos.
  destruct Hstars as [->|(m & Hm & Hs)]; [done|]. by eapply Hmeta.
Qed.

Lemma score_server_positive config_references dependency_signals server :
  (forall repo m stars,
     lookup_metadata repo = Some m -> Backlinks.meta_repo_stars m = Some stars ->
     (0 <= stars)%Z) ->
  Forall (fun d => (0 <= Py.or_zero (Backlinks.ds_dependents_count d))%Z) dependency_signals ->
  let res := Backlinks.score_server days_since search_own_repo lookup_metadata
               config_references dependency_signals server in
  Forall (fun e => 0 < Backlinks.edge_score e) (Backlinks.res_edges_to_store res) /\
  0 <= Backlinks.res_tier2 res.
Proof.
  intros Hmeta Hdeps. cbv zeta. split.
  - unfold Backlinks.score_server. cbv zeta. cbn [Backlinks.res_edges_to_store].
    match goal with
    | |- context [foldl (Backlinks.process_config_reference _ _ ?n ?o) ?st0 ?refs] =>
        assert (Forall (fun e => 0 < Backlinks.edge_score e) (Backlinks.st_edges_to_store st0))
          as H0 by constructor;
        revert H0; generalize st0; generalize refs
    end.
    intros refs. induction refs as [|r refs IH]; intros st Hst; cbn [foldl]; [done|].
    apply IH. unfold Backlinks.process_config_reference. cbv zeta.
    rewrite tier_of_config_type, tier1_weight.
    generalize (Sql.coalesce (Backlinks.cr_sample_repos r) []). intros repos.
    revert st Hst. induction repos as [|x repos IHr]; intros st Hst; cbn [foldl]; [done|].
    by apply IHr, process_sample_repo_positive.
  - unfold Backlinks.score_server. cbv zeta. cbn [Backlinks.res_tier2].
    match goal with
    | |- context [foldl _ ?a (filter ?P dependency_signals)] =>
        assert (Forall (fun d => (0 <= Py.or_zero (Backlinks.ds_dependents_count d))%Z)
                  (filter P dependency_signals)) as Hf
          by (eapply Forall_forall; intros d [_ Hd]%list_elem_of_filter;
              rewrite Forall_forall in Hdeps; by apply Hdeps);
        revert Hf; generalize (filter P dependency_signals);
        assert (0 <= a) as Ha by lra; revert Ha; generalize a
    end.
    intros a Ha deps. revert a Ha. induction deps as [|d deps IH]; intros a Ha Hf; [done|].
    cbn [foldl]. apply Forall_cons in Hf as [Hd Hf]. apply IH; [|done].
    pose proof (dep_score_nonneg d Hd). lra.
Qed.

(** X17. When the cached star counts and the dependent counts are not
    negative, every stored edge has a positive score, and every row of
    [backlink_scores] has non-negative first- and second-tier contributions
    and raw score, and a normalised score in [[0, 1]]. *)
Theorem scores_nonnegative servers config_references dependency_signals query :
  (forall repo m stars,
     lookup_metadata repo = Some m -> Backlinks.meta_repo_stars m = Some stars ->
     (0 <= stars)%Z) ->
  Forall (fun d => (0 <= Py.or_zero (Backlinks.ds_dependents_count d))%Z) dependency_signals ->
  let stored := Backlinks.compute_backlink_scores days_since search_own_repo lookup_metadata
                  servers config_references dependency_signals query in
  Forall (fun e => 0 < Backlinks.edge_score e) (fst stored) /\
  Forall (fun s =>
            0 <= Backlinks.bs_tier1_contribution s /\
            0 <= Backlinks.bs_tier2_contribution s /\
            0 <= Backlinks.bs_raw_score s /\
            0 <= Backlinks.bs_normalized_score s <= 1)
    (snd stored).
Proof.
  intros Hmeta Hdeps stored. unfold stored, Backlinks.compute_backlink_scores.
  cbn [fst snd].
  match goal with
  | |- context [map (Backlinks.score_server _ _ _ _ _) ?l] => generalize l
  end.
  intros l. split.
  - induction l as [|s l IH]; cbn [map List.concat]; [constructor|].
    apply Forall_app. split; [|done].
    by apply (score_server_positive config_references dependency_signals s).
  - pose proof (q99_log_raw_floor
                  (map (Backlinks.score_server days_since search_own_repo lookup_metadata
                          config_references dependency_signals) l)) as Hq.
    revert Hq. generalize (Backlinks.q99_log_raw
                             (map (Backlinks.score_server days_since search_own_repo
                                     lookup_metadata config_references dependency_signals) l)).
    intros q Hq. rewrite !Forall_fmap. apply Forall_forall. intros srv _.
    cbn [compose Backlinks.store_score Backlinks.bs_tier1_contribution
         Backlinks.bs_tier2_contribution Backlinks.bs_raw_score
         Backlinks.bs_normalized_score].
    destruct (score_server_ok config_references dependency_signals srv)
      as (_ & Hsum & _ & _ & Hraw & _).
    destruct (score_server_positive config_references dependency_signals srv Hmeta Hdeps)
      as [Hpos H2].
    apply edge_total_nonneg in Hpos. rewrite <- Hsum in Hpos.
    split_and!; [done|done|lra|apply normalized_of_range; lra..].
Qed.

End BacklinkInvariants.

(** A run of the scorer on one server referenced twice from one repository
    under two spellings. *)
Lemma tier1_sums_edges_witness :
  let servers := [ {| Backlinks.srv_name := "x"; Backlinks.srv_repository_url := None |} ] in
  let refs := [ {| Backlinks.cr_server_name := "x"; Backlinks.cr_config_type := "cursor";
                   Backlinks.cr_reference_count := 2;
                   Backlinks.cr_sample_repos := Some ["Other/Repo"; "other/repo"] |} ] in
  let stored := Backlinks.compute_backlink_scores (fun _ => None) (fun _ => None)
                  (fun _ => None) servers refs [] None in
  List.length (fst stored) = 1%nat /\
  Forall (fun s => Backlinks.bs_tier3_contribution s = 0%R) (snd stored).
Proof.
  intros servers refs stored. split; [reflexivity|].
  eapply Forall_impl.
  - apply (tier1_sums_edges (fun _ => None) (fun _ => None) (fun _ => None)
             servers refs [] None).
    apply NoDup_singleton.
  - intros s H. apply H.
Defined.

Lemma scores_nonnegative_witness :
  let servers := [ {| Backlinks.srv_name := "x"; Backlinks.srv_repository_url := None |} ] in
  let refs := [ {| Backlinks.cr_server_name := "x"; Backlinks.cr_config_type := "cursor";
                   Backlinks.cr_reference_count := 1;
                   Backlinks.cr_sample_repos := Some ["other/repo"] |} ] in
  let lookup := fun _ : string =>
    Some {| Backlinks.meta_repo_stars := Some 7%Z;
            Backlinks.meta_repo_pushed_at := None;
            Backlinks.meta_is_archived := false;
            Backlinks.meta_is_fork := false |} in
  let stored := Backlinks.compute_backlink_scores (fun _ => None) (fun _ => None)
                  lookup servers refs [] None in
  List.length (fst stored) = 1%nat /\
  Forall (fun e => (0 < Backlinks.edge_score e)%R) (fst stored).
Proof.
  intros servers refs lookup stored. split; [reflexivity|].
  refine (proj1 (scores_nonnegative (fun _ => None) (fun _ => None) lookup
                   servers refs [] None _ _)).
  - intros repo m stars [= <-] [= <-]. lia.
  - constructor.
Defined.

(* ===================================================================== *)
(** * The market ranking: order and the top of a pillar                   *)
(* ===================================================================== *)

Section MarketOrder.

Local Open Scope R_scope.

Variable days_since : string -> option Z.

Lemma get_q99_le_top vals top :
  vals <> [] -> Forall (fun x => x <= top) vals -> 1e-6 <= top ->
  Market.get_q99 vals <= top.
Proof.
  intros Hne Hall Htop. unfold Market.get_q99.
  destruct vals as [|v vals]; [done|]. cbv zeta.
  apply Rmax_lub; [|done].
  set (l := v :: vals) in *.
  assert (nth (Py.percentile_index (List.length (Py.sorted l))) (Py.sorted l) 0
          ∈ Py.sorted l) as Hin.
  { apply list_elem_of_In, nth_In.
    apply percentile_index_lt. rewrite sorted_length. cbn. lia. }
  revert Hin. generalize (nth (Py.percentile_index (List.length (Py.sorted l))) (Py.sorted l) 0).
  intros x Hin. rewrite sorted_perm in Hin.
  rewrite Forall_forall in Hall. by apply Hall.
Qed.

Lemma norm_mono q a b : 0 < q -> a <= b -> Rmin 1.0 (a / q) <= Rmin 1.0 (b / q).
Proof.
  intros Hq Hab. apply Rle_min_compat_l.
  apply Rmult_le_compat_r; [|done]. left. by apply Rinv_0_lt_compat.
Qed.

Lemma log10_mono x y : 0 < x -> x <= y -> Py.log10 x <= Py.log10 y.
Proof.
  intros Hx Hxy. unfold Py.log10.
  apply Rmult_le_compat_r; [left; apply Rinv_0_lt_compat, ln_10_pos|].
  destruct Hxy as [Hlt | ->]; [|lra]. left. by apply ln_increasing.
Qed.

(** Two rows of one run are normalised by the same quantiles. *)
Lemma rank_lookup_pair db i j ri rj mi mj :
  Market.select_signals db !! i = Some ri ->
  Market.select_signals db !! j = Some rj ->
  Market.compute_market_rankings days_since db !! i = Some mi ->
  Market.compute_market_rankings days_since db !! j = Some mj ->
  exists q_u q_r q_c,
    0 < q_u /\ 0 < q_r /\ 0 < q_c /\
    mi = Market.rank_entry q_u q_r q_c (Market.raw_entry_of days_since ri) /\
    mj = Market.rank_entry q_u q_r q_c (Market.raw_entry_of days_since rj).
Proof.
  unfold Market.compute_market_rankings, Market.rank_rows.
  intros Hi Hj Hmi Hmj.
  rewrite !list_lookup_fmap, Hi in Hmi. rewrite !list_lookup_fmap, Hj in Hmj.
  cbn in Hmi, Hmj.
  eexists _, _, _. split_and!; [| | |by inversion Hmi|by inversion Hmj].
  all: eapply Rlt_le_trans; [|apply get_q99_floor]; lra.
Qed.

(** X18. Within one run of the ranker the pillars keep the order of the
    signals: a server with no smaller backlink raw score has no smaller
    usage score, one with no fewer stars and forks no smaller reputation
    score, and one with no fewer weekly downloads no smaller reach score. *)
Theorem pillars_monotone db i j ri rj mi mj :
  Market.select_signals db !! i = Some ri ->
  Market.select_signals db !! j = Some rj ->
  Market.compute_market_rankings days_since db !! i = Some mi ->
  Market.compute_market_rankings days_since db !! j = Some mj ->
  (0 <= Market.sig_usage_raw ri <= Market.sig_usage_raw rj ->
   Market.mr_usage_score mi <= Market.mr_usage_score mj) /\
  ((0 <= Market.sig_stars ri <= Market.sig_stars rj)%Z ->
   (0 <= Market.sig_forks ri <= Market.sig_forks rj)%Z ->
   Market.mr_reputation_score mi <= Market.mr_reputation_score mj) /\
  ((0 <= Market.sig_downloads ri <= Market.sig_downloads rj)%Z ->
   Market.mr_reach_score mi <= Market.mr_reach_score mj).
Proof.
  intros Hi Hj Hmi Hmj.
  destruct (rank_lookup_pair db i j ri rj mi mj Hi Hj Hmi Hmj)
    as (q_u & q_r & q_c & Hu & Hr & Hc & -> & ->).
  cbn [Market.rank_entry Market.mr_usage_score Market.mr_reputation_score
       Market.mr_reach_score Market.raw_entry_of Market.u_raw Market.r_raw Market.c_raw].
  split_and!.
  - intros [H0 Hle]. apply norm_mono; [done|]. by apply log1p_mono.
  - intros [Hs0 Hs] [Hf0 Hf]. apply norm_mono; [done|].
    apply Rplus_le_compat; apply log10_mono; try (apply IZR_lt; lia); apply IZR_le; lia.
  - intros [Hd0 Hd]. apply norm_mono; [done|].
    apply log10_mono; [apply IZR_lt; lia|apply IZR_le; lia].
Qed.

(** X19. The server with the greatest backlink raw score of a run gets the
    usage score 1, provided its [log1p(raw_score)] reaches the floor [1e-6]
    of the quantile: the 99th percentile is never above the greatest
    value. *)
Theorem top_usage_scores_one db i r mr :
  Market.select_signals db !! i = Some r ->
  Market.compute_market_rankings days_since db !! i = Some mr ->
  Forall (fun r' => 0 <= Market.sig_usage_raw r' <= Market.sig_usage_raw r)
         (Market.select_signals db) ->
  1e-6 <= Py.log1p (Market.sig_usage_raw r) ->
  Market.mr_usage_score mr = 1.
Proof.
  unfold Market.compute_market_rankings, Market.rank_rows.
  intros Hr Hmr Htop Hfloor.
  rewrite !list_lookup_fmap, Hr in Hmr. cbn in Hmr. injection Hmr as <-.
  cbn [Market.rank_entry Market.mr_usage_score Market.raw_entry_of Market.u_raw].
  set (vals := map Market.u_raw (map (Market.raw_entry_of days_since) (Market.select_signals db))).
  assert (Market.get_q99 vals <= Py.log1p (Market.sig_usage_raw r)) as Hq.
  { apply get_q99_le_top; [| |done].
    - unfold vals. destruct (Market.select_signals db); [done|discriminate].
    - unfold vals. rewrite !Forall_fmap. eapply Forall_impl; [exact Htop|].
      intros r' [H0 Hle]. cbn. by apply log1p_mono. }
  pose proof (get_q99_floor vals) as Hfl.
  rewrite one_point_zero. apply Rmin_left.
  apply (Rmult_le_reg_r (Market.get_q99 vals)); [lra|].
  unfold Rdiv. rewrite Rmult_assoc, Rinv_l by lra. lra.
Qed.

End MarketOrder.

(** Two servers of one run: the second has the greater backlink score, more
    stars and forks, and more weekly downloads, and no smaller pillar. *)
Lemma pillars_monotone_witness :
  let db := {| Market.servers :=
                 [ {| Market.srv_name := "a"; Market.srv_repository_url := None |};
                   {| Market.srv_name := "b"; Market.srv_repository_url := None |} ];
               Market.backlink_scores :=
                 [ {| Market.bsr_server_name := "a"; Market.bsr_raw_score := Some 1%R |};
                   {| Market.bsr_server_name := "b"; Market.bsr_raw_score := Some 3%R |} ];
               Market.github_signals :=
                 [ {| Market.gs_server_name := "a"; Market.gs_repo_owner := Some "acme";
                      Market.gs_stars := Some 10%Z; Market.gs_forks := Some 1%Z;
                      Market.gs_last_push := None |};
                   {| Market.gs_server_name := "b"; Market.gs_repo_owner := Some "acme";
                      Market.gs_stars := Some 100%Z; Market.gs_forks := Some 10%Z;
                      Market.gs_last_push := None |} ];
               Market.package_downloads :=
                 [ {| Market.pd_server_name := "a";
                      Market.pd_downloads_last_week := Some 100%Z |};
                   {| Market.pd_server_name := "b";
                      Market.pd_downloads_last_week := Some 1000%Z |} ];
               Market.environment_variables := [] |} in
  exists mi mj,
    Market.compute_market_rankings (fun _ => None) db !! 0%nat = Some mi /\
    Market.compute_market_rankings (fun _ => None) db !! 1%nat = Some mj /\
    (Market.mr_usage_score mi <= Market.mr_usage_score mj)%R /\
    (Market.mr_reputation_score mi <= Market.mr_reputation_score mj)%R /\
    (Market.mr_reach_score mi <= Market.mr_reach_score mj)%R.
Proof.
  intros db.
  set (ri := {| Market.sig_name := "a"; Market.sig_repository_url := None;
                Market.sig_usage_raw := 1%R; Market.sig_stars := 10; Market.sig_forks := 1;
                Market.sig_last_push := None; Market.sig_downloads := 100;
                Market.sig_auth_count := 0; Market.sig_repo_owner := Some "acme" |}).
  set (rj := {| Market.sig_name := "b"; Market.sig_repository_url := None;
                Market.sig_usage_raw := 3%R; Market.sig_stars := 100; Market.sig_forks := 10;
                Market.sig_last_push := None; Market.sig_downloads := 1000;
                Market.sig_auth_count := 0; Market.sig_repo_owner := Some "acme" |}).
  set (di := Market.raw_entry_of (fun _ => None) ri).
  set (dj := Market.raw_entry_of (fun _ => None) rj).
  set (q_u := Market.get_q99 [Market.u_raw di; Market.u_raw dj]).
  set (q_r := Market.get_q99 [Market.r_raw di; Market.r_raw dj]).
  set (q_c := Market.get_q99 [Market.c_raw di; Market.c_raw dj]).
  exists (Market.rank_entry q_u q_r q_c di), (Market.rank_entry q_u q_r q_c dj).
  split; [reflexivity|]. split; [reflexivity|].
  destruct (pillars_monotone (fun _ => None) db 0%nat 1%nat ri rj
              (Market.rank_entry q_u q_r q_c di) (Market.rank_entry q_u q_r q_c dj)
              eq_refl eq_refl eq_refl eq_refl) as (Husage & Hreputation & Hreach).
  split; [|split].
  - apply Husage. cbn [Market.sig_usage_raw ri rj]. lra.
  - apply Hreputation; cbn [Market.sig_stars Market.sig_forks ri rj]; lia.
  - apply Hreach. cbn [Market.sig_downloads ri rj]. lia.
Defined.

(** One server with a backlink raw score of 2. *)
Lemma top_usage_scores_one_witness :
  let db := {| Market.servers :=
                 [ {| Market.srv_name := "x"; Market.srv_repository_url := None |} ];
               Market.backlink_scores :=
                 [ {| Market.bsr_server_name := "x"; Market.bsr_raw_score := Some 2%R |} ];
               Market.github_signals := [];
               Market.package_downloads := [];
               Market.environment_variables := [] |} in
  exists mr,
    Market.compute_market_rankings (fun _ => None) db !! 0%nat = Some mr /\
    Market.mr_usage_score mr = 1%R.
Proof.
  intros db.
  set (row := {| Market.sig_name := "x"; Market.sig_repository_url := None;
                 Market.sig_usage_raw := 2%R; Market.sig_stars := 0; Market.sig_forks := 0;
                 Market.sig_last_push := None; Market.sig_downloads := 0;
                 Market.sig_auth_count := 0; Market.sig_repo_owner := None |}).
  set (d := Market.raw_entry_of (fun _ => None) row).
  exists (Market.rank_entry (Market.get_q99 [Market.u_raw d]) (Market.get_q99 [Market.r_raw d])
            (Market.get_q99 [Market.c_raw d]) d).
  split; [reflexivity|].
  apply (top_usage_scores_one (fun _ => None) db 0%nat row).
  - reflexivity.
  - reflexivity.
  - change (Market.select_signals db) with [row].
    constructor; [|constructor]. cbn [Market.sig_usage_raw row]. lra.
  - cbn [Market.sig_usage_raw row]. unfold Py.log1p. replace (1 + 2)%R with 3%R by lra.
    apply Rle_trans with 1%R; [lra|].
    rewrite <- (ln_exp 1) at 1.
    destruct exp_le_3 as [Hlt | Heq]; [|rewrite Heq; lra].
    left. apply ln_increasing; [apply exp_pos|done].
Defined.

(* ===================================================================== *)
(** * GitHub code search and the configuration references                 *)
(* ===================================================================== *)

Section CodeSearchFacts.

Variable request : nat -> CodeSearch.answer.

Lemma collect_spec names repos :
  NoDup repos -> "" ∉ repos ->
  NoDup (CodeSearch.collect repos names) /\ ("" ∉ CodeSearch.collect repos names) /\
  (forall r, r ∈ CodeSearch.collect repos names -> r ∈ repos \/ r ∈ names).
Proof.
  revert repos. induction names as [|n names IH]; intros repos Hnodup Hempty.
  - cbn. split_and!; [done|done|by left].
  - cbn [CodeSearch.collect].
    destruct (String.eqb n "") eqn:Hn; cbn [negb andb].
    + destruct (IH repos Hnodup Hempty) as (H1 & H2 & H3). split_and!; [done|done|].
      intros r [?|?]%H3; [by left|right; by apply list_elem_of_further].
    + apply String.eqb_neq in Hn. case_bool_decide as Hin; cbn [negb].
      * destruct (IH repos Hnodup Hempty) as (H1 & H2 & H3). split_and!; [done|done|].
        intros r [?|?]%H3; [by left|right; by apply list_elem_of_further].
      * destruct (IH (repos ++ [n])%list) as (H1 & H2 & H3).
        { apply NoDup_app. split; [done|]. split; [|apply NoDup_singleton].
          intros x Hx Hxn. apply list_elem_of_singleton in Hxn. by subst x. }
        { intros Hin'. apply elem_of_app in Hin' as [?|Hin']; [done|].
          apply list_elem_of_singleton in Hin'. done. }
        split_and!; [done|done|].
        intros r Hr. apply H3 in Hr as [Hr|Hr].
        -- apply elem_of_app in Hr as [?|Hr]; [by left|].
           apply list_elem_of_singleton in Hr. subst r. right. apply list_elem_of_here.
        -- right. by apply list_elem_of_further.
Qed.

Lemma wait_secs_bounds reset now retry_count :
  (retry_count < 3)%nat ->
  (30 <= CodeSearch.wait_secs reset now retry_count <= 240)%Z /\
  (forall reset_ts, reset = CodeSearch.ResetAt reset_ts ->
                    (CodeSearch.wait_secs reset now retry_count <= 120)%Z).
Proof.
  intros Hr. unfold CodeSearch.wait_secs. split; [|intros ts ->; lia].
  assert (retry_count = 0 \/ retry_count = 1 \/ retry_count = 2)%nat as [->|[->| ->]] by lia;
    destruct reset; cbn; lia.
Qed.

Lemma search_from_spec fuel retry_count :
  (fuel + retry_count = 4)%nat -> (0 < fuel)%nat ->
  let '(result, waits) := CodeSearch.search_from request fuel retry_count in
  (List.length waits <= 3 - retry_count)%nat /\
  (forall i, (i < List.length waits)%nat ->
     exists reset now,
       request (retry_count + i)%nat = CodeSearch.Forbidden reset now /\
       waits !! i = Some (CodeSearch.wait_secs reset now (retry_count + i))) /\
  result = match request (retry_count + List.length waits)%nat with
           | CodeSearch.Found total names => (total, CodeSearch.collect [] names)
           | _ => (0%Z, [])
           end.
Proof.
  revert retry_count. induction fuel as [|fuel IH]; intros r Hsum Hpos; [lia|].
  cbn [CodeSearch.search_from].
  destruct (request r) as [total names|reset now|code|] eqn:Hreq.
  - cbn [List.length]. rewrite Nat.add_0_r, Hreq. split_and!; [lia| |done].
    intros i Hi. lia.
  - destruct (r <? 3)%nat eqn:Hr.
    + apply Nat.ltb_lt in Hr.
      specialize (IH (S r)). 
      destruct (CodeSearch.search_from request fuel (S r)) as [result waits].
      destruct IH as (Hlen & Hwaits & Hlast); [lia|lia|].
      cbn [List.length]. split_and!; [lia| |].
      * intros [|i] Hi.
        -- exists reset, now. by rewrite Nat.add_0_r.
        -- destruct (Hwaits i) as (rs & nw & Hrq & Hw); [lia|].
           exists rs, nw. replace (r + S i)%nat with (S r + i)%nat by lia. done.
      * by replace (r + S (List.length waits))%nat with (S r + List.length waits)%nat by lia.
    + cbn [List.length]. rewrite Nat.add_0_r, Hreq. split_and!; [lia| |done].
      intros i Hi. lia.
  - cbn [List.length]. rewrite Nat.add_0_r, Hreq. split_and!; [lia| |done].
    intros i Hi. lia.
  - cbn [List.length]. rewrite Nat.add_0_r, Hreq. split_and!; [lia| |done].
    intros i Hi. lia.
Qed.

(** X20. A code search started with [retry_count = 0] sleeps at most three
    times, each time after a 403 answer and for [min(max(reset - now + 5,
    30), 120)] seconds when the reset header holds an integer, for
    [60 * 2^retry_count] seconds otherwise, so for 30 to 240 seconds; it
    returns the [total_count] and the distinct non-empty repository names of
    the first answer that is not a retried 403 when that is a 200 answer,
    and [(0, [])] in every other case. *)
Theorem search_github_code_run :
  let '(result, waits) := CodeSearch.search_github_code request 0 in
  (List.length waits <= 3)%nat /\
  (forall i, (i < List.length waits)%nat ->
     exists reset now,
       request i = CodeSearch.Forbidden reset now /\
       waits !! i = Some (CodeSearch.wait_secs reset now i)) /\
  Forall (fun w => 30 <= w <= 240)%Z waits /\
  result = match request (List.length waits) with
           | CodeSearch.Found total names => (total, CodeSearch.collect [] names)
           | _ => (0%Z, [])
           end /\
  NoDup (snd result) /\ "" ∉ snd result.
Proof.
  unfold CodeSearch.search_github_code.
  pose proof (search_from_spec 4 0 eq_refl) as Hspec.
  change (S (3 - 0)) with 4%nat.
  destruct (CodeSearch.search_from request 4 0) as [result waits].
  destruct Hspec as (Hlen & Hwaits & Hlast); [lia|]. cbn [Nat.add] in *.
  split_and!; [lia|done| |done| |].
  - apply Forall_forall. intros w Hw.
    apply list_elem_of_lookup in Hw as [i Hi].
    pose proof (lookup_lt_Some _ _ _ Hi) as Hlt.
    destruct (Hwaits i Hlt) as (reset & now & _ & Hw).
    rewrite Hw in Hi. injection Hi as <-. apply wait_secs_bounds. lia.
  - rewrite Hlast. destruct (request _); cbn [snd]; try constructor.
    by apply collect_spec; [constructor|apply not_elem_of_nil].
  - rewrite Hlast. destruct (request _); cbn [snd]; try apply not_elem_of_nil.
    by apply collect_spec; [constructor|apply not_elem_of_nil].
Qed.

(** X21. The row written to [config_references] for one search: the
    reference count is the [total_count] of the search as it came (the
    own repository is filtered out of the names before the test that would
    lower the count, so that test never succeeds), and the sample is [NULL]
    when no name is left after the own repository is removed, otherwise the
    first five names left, none of them the own repository in any
    spelling of case. *)
Theorem config_reference_row own_repo total repos :
  let '(reference_count, sample_repos) :=
    CodeSearch.config_reference_of own_repo (total, repos) in
  let kept :=
    match Py.truthy_str own_repo with
    | Some own => filter (fun r => Py.lower r <> Py.lower own) repos
    | None => repos
    end in
  reference_count = total /\
  match sample_repos with
  | None => kept = []
  | Some sample => sample <> [] /\ sample = take 5 kept /\ (List.length sample <= 5)%nat
  end.
Proof.
  unfold CodeSearch.config_reference_of.
  destruct (Py.truthy_str own_repo) as [own|] eqn:Hown.
  - set (kept := filter (fun r => Py.lower r <> Py.lower own) repos).
    assert (Py.lower own ∉ map Py.lower kept) as Hnot.
    { intros (r & Heq & Hr)%list_elem_of_fmap.
      apply list_elem_of_filter in Hr as [Hr _]. by apply Hr. }
    rewrite bool_decide_eq_false_2 by done.
    split; [done|]. destruct kept as [|r l] eqn:Hl; [done|].
    split_and!; [done|done|]. rewrite length_take. lia.
  - split; [done|]. destruct repos as [|r l]; [done|].
    split_and!; [done|done|]. rewrite length_take. lia.
Qed.

Lemma strip_prefix_spec p s rest :
  Placeholders.strip_prefix p s = Some rest -> s = p ++ rest.
Proof.
  revert s. induction p as [|a p IH]; intros s; cbn [Placeholders.strip_prefix].
  - intros [= ->]. by rewrite append_empty_l.
  - destruct s as [|b s]; [done|].
    destruct (Ascii.eqb a b) eqn:Hab; [|done].
    apply Ascii.eqb_eq in Hab as ->. intros ->%IH. by rewrite append_cons.
Qed.

Lemma search_suffix match_at s groups :
  Urls.search match_at s = Some groups ->
  exists pre t, s = pre ++ t /\ match_at t = Some groups.
Proof.
  induction s as [|c s IH]; cbn [Urls.search].
  - destruct (match_at "") eqn:H; [|done]. intros [= <-]. by exists "", "".
  - destruct (match_at (String c s)) eqn:H.
    + intros [= <-]. exists "", (String c s). by rewrite append_empty_l.
    + intros (pre & t & -> & Ht)%IH. exists (String c pre), t. by rewrite append_cons.
Qed.

Lemma match_github_contains url groups :
  Urls.search Urls.match_github url = Some groups -> Py.contains "github.com" url = true.
Proof.
  intros (pre & t & -> & Ht)%search_suffix. apply contains_skip.
  unfold Urls.match_github in Ht.
  destruct (Placeholders.strip_prefix "github.com" t) as [rest|] eqn:Hrest; [|done].
  apply strip_prefix_spec in Hrest as ->. apply contains_here.
Qed.

(** X22. The own repository the configuration search excludes is the
    [owner/repo] of the first GitHub match in the repository URL, taken as
    it stands, whereas [parse_github_url] on the same URL
    gives the same owner and the repository with its trailing [.], [g], [i],
    [t] characters removed; without such a match there is no own
    repository. *)
Theorem own_repo_of_url url :
  match Urls.search Urls.match_github url with
  | Some (owner, repo) =>
      CodeSearch.get_own_repo (Some url) = Some (owner ++ "/" ++ repo) /\
      Urls.parse_github_url (Some url) = Some (owner, Urls.rstrip_chars ".git" repo)
  | None => CodeSearch.get_own_repo (Some url) = None
  end.
Proof.
  unfold CodeSearch.get_own_repo, Urls.parse_github_url.
  destruct (Urls.search Urls.match_github url) as [[owner repo]|] eqn:Hsearch.
  - pose proof (match_github_contains url _ Hsearch) as Hcontains.
    destruct url as [|c u]; [done|]. cbn [Py.truthy_str].
    by rewrite Hcontains, Hsearch.
  - destruct url as [|c u]; [done|]. cbn [Py.truthy_str].
    rewrite Hsearch. by destruct (Py.contains _ _).
Qed.

End CodeSearchFacts.

(* ===================================================================== *)
(** * Service cost hints                                                  *)
(* ===================================================================== *)

Section CostFacts.

(** The loop over the table collects the names of the entries whose key
    occurs in the variable names, and whether all of them have a free
    tier. *)
Lemma check_services vars_lower l paid has_free_tier :
  foldl (Costs.check_service vars_lower) (paid, has_free_tier) l
  = ((paid ++ map (fun e => fst (fst (snd e)))
               (filter (fun e => Py.contains (fst e) vars_lower = true) l))%list,
     has_free_tier &&
     forallb (fun e => snd (fst (snd e)))
             (filter (fun e => Py.contains (fst e) vars_lower = true) l)).
Proof.
  revert paid has_free_tier. induction l as [|[k [[name free] pricing]] l IH];
    intros paid has_free_tier.
  - cbn. by rewrite app_nil_r, andb_true_r.
  - cbn [foldl Costs.check_service]. rewrite filter_cons.
    destruct (Py.contains k vars_lower) eqn:Hk; cbn [fst].
    + rewrite decide_True by done. rewrite IH. cbn [map forallb fst snd].
      rewrite <- app_assoc. cbn [app]. f_equal.
      destruct free, has_free_tier; cbn; try done.
    + rewrite decide_False by (cbn; congruence). by rewrite IH.
Qed.

Lemma forallb_false {A : Type} (f : A -> bool) (l : list A) :
  forallb f l = false <-> exists x, x ∈ l /\ f x = false.
Proof.
  induction l as [|a l IH]; cbn [forallb].
  - split; [done|]. by intros (x & ?%elem_of_nil & _).
  - rewrite andb_false_iff, IH. split.
    + intros [Ha|(x & Hx & Hf)]; [exists a; split; [apply list_elem_of_here|done]|].
      exists x. split; [by apply list_elem_of_further|done].
    + intros (x & Hx & Hf). apply elem_of_cons in Hx as [->|Hx]; [by left|].
      right. by exists x.
Qed.

(** The entries without a free tier, and those whose lower-cased service
    name is the key of an entry without a free tier. *)
Lemma paid_only_entries :
  Forall (fun e =>
            snd (fst (snd e))
            = negb (bool_decide (fst e ∈ ["openai"; "anthropic"; "stripe"; "perplexity"])) /\
            Costs.free_available_of (Py.lower (fst (fst (snd e))))
            = negb (bool_decide (fst e ∈ ["openai"; "stripe"; "perplexity"])))
         Costs.KNOWN_PAID_SERVICES.
Proof. unfold Costs.KNOWN_PAID_SERVICES. repeat constructor. Qed.

Lemma known_key key :
  key ∈ ["openai"; "anthropic"; "stripe"; "perplexity"] ->
  exists e, e ∈ Costs.KNOWN_PAID_SERVICES /\ fst e = key.
Proof.
  intros Hkey. repeat (apply elem_of_cons in Hkey as [->|Hkey]).
  - eexists. split; [apply (list_elem_of_lookup_2 _ 0); reflexivity|done].
  - eexists. split; [apply (list_elem_of_lookup_2 _ 1); reflexivity|done].
  - eexists. split; [apply (list_elem_of_lookup_2 _ 9); reflexivity|done].
  - eexists. split; [apply (list_elem_of_lookup_2 _ 28); reflexivity|done].
  - by apply elem_of_nil in Hkey.
Qed.

(** X24. The cost hint of a server: a row is written exactly when the
    server has a secret variable; [requires_paid_service] is set exactly
    when the lower-cased variable names contain [openai], [stripe] or
    [perplexity], while [free_tier_available] is false exactly when they
    contain one of these or [anthropic] (the service name
    [Anthropic Claude], lower-cased, is not a key of the table, so its
    look-up falls back to "free tier available"); [requires_paid_service]
    thus implies that no free tier is recorded, but not the other way
    round. *)
Theorem service_cost_hint secret_vars :
  let has key := Py.contains key (Py.lower (Sql.coalesce secret_vars "")) = true in
  (Costs.analyze secret_vars = None <-> Sql.coalesce secret_vars "" = "") /\
  forall row,
    Costs.analyze secret_vars = Some row ->
    (Costs.requires_paid_service row = true <->
     has "openai" \/ has "stripe" \/ has "perplexity") /\
    (Costs.free_tier_available row = Some false <->
     has "openai" \/ has "anthropic" \/ has "stripe" \/ has "perplexity") /\
    (Costs.requires_paid_service row = true -> Costs.free_tier_available row = Some false) /\
    (is_Some (Costs.notes row) <-> Costs.paid_services row = None).
Proof.
  intros has. unfold Costs.analyze. cbv zeta.
  set (vars := Sql.coalesce secret_vars "") in *.
  rewrite check_services. cbn [app andb].
  set (matched := filter (fun e => Py.contains (fst e) (Py.lower vars) = true)
                         Costs.KNOWN_PAID_SERVICES).
  set (paid := map (fun e => fst (fst (snd e))) matched).
  pose proof paid_only_entries as Htable. rewrite Forall_forall in Htable.
  assert (forallb (fun e => snd (fst (snd e))) matched = false <->
          has "openai" \/ has "anthropic" \/ has "stripe" \/ has "perplexity") as Hfree.
  { rewrite forallb_false. split.
    - intros (e & He & Hflag).
      assert (fst e ∈ ["openai"; "anthropic"; "stripe"; "perplexity"]) as Hk.
      { apply list_elem_of_filter in He as [_ He]. destruct (Htable e He) as [H1 _].
        rewrite H1 in Hflag. apply negb_false_iff, bool_decide_eq_true in Hflag. done. }
      apply list_elem_of_filter in He as [Hp _].
      repeat (apply elem_of_cons in Hk as [Hk|Hk]; [rewrite Hk in Hp; by auto|]).
      by apply elem_of_nil in Hk.
    - intros Hhas.
      assert (exists key, key ∈ ["openai"; "anthropic"; "stripe"; "perplexity"] /\ has key)
        as (key & Hk & Hkey).
      { destruct Hhas as [?|[?|[?|?]]]; eexists; (split; [|done]);
          repeat first [apply list_elem_of_here | apply list_elem_of_further]. }
      destruct (known_key key Hk) as (e & He & <-).
      exists e. split; [by apply list_elem_of_filter|].
      destruct (Htable e He) as [-> _]. by rewrite bool_decide_eq_true_2. }
  assert (forallb (fun s => Costs.free_available_of (Py.lower s)) paid = false <->
          has "openai" \/ has "stripe" \/ has "perplexity") as Hpaid.
  { rewrite forallb_false. split.
    - intros (s & (e & -> & He)%list_elem_of_fmap & Hflag).
      assert (fst e ∈ ["openai"; "stripe"; "perplexity"]) as Hk.
      { apply list_elem_of_filter in He as [_ He]. destruct (Htable e He) as [_ H2].
        rewrite H2 in Hflag. apply negb_false_iff, bool_decide_eq_true in Hflag. done. }
      apply list_elem_of_filter in He as [Hp _].
      repeat (apply elem_of_cons in Hk as [Hk|Hk]; [rewrite Hk in Hp; by auto|]).
      by apply elem_of_nil in Hk.
    - intros Hhas.
      assert (exists key, key ∈ ["openai"; "stripe"; "perplexity"] /\ has key)
        as (key & Hk & Hkey).
      { destruct Hhas as [?|[?|?]]; eexists; (split; [|done]);
          repeat first [apply list_elem_of_here | apply list_elem_of_further]. }
      destruct (known_key key) as (e & He & <-).
      { repeat (apply elem_of_cons in Hk as [->|Hk]);
          [repeat first [apply list_elem_of_here | apply list_elem_of_further]..
          |by apply elem_of_nil in Hk]. }
      exists (fst (fst (snd e))). split.
      + apply list_elem_of_fmap. exists e. split; [done|]. by apply list_elem_of_filter.
      + destruct (Htable e He) as [_ ->]. by rewrite bool_decide_eq_true_2. }
  assert (vars = "" -> paid = []) as Hblank.
  { intros Hv. unfold paid, matched. rewrite Hv. cbn [Py.lower].
    rewrite filter_none; [done|].
    unfold Costs.KNOWN_PAID_SERVICES.
    repeat constructor; cbn; discriminate. }
  split.
  - destruct (decide (paid = [])) as [Hp|Hp].
    + rewrite bool_decide_eq_true_2 by done. cbn [negb orb].
      destruct (String.eqb vars "") eqn:Hv; cbn [negb].
      * apply String.eqb_eq in Hv. done.
      * apply String.eqb_neq in Hv. split; [done|]. intros. done.
    + rewrite bool_decide_eq_false_2 by done. cbn [negb orb].
      split; [done|]. intros Hv. by apply Hblank in Hv.
  - intros row Hrow.
    assert (exists req, 
              row = {| Costs.requires_paid_service := req ;
                       Costs.paid_services := if negb (bool_decide (paid = []))
                                              then Some paid else None;
                       Costs.free_tier_available :=
                         if negb (bool_decide (paid = []))
                         then Some (forallb (fun e => snd (fst (snd e))) matched) else None;
                       Costs.notes := if negb (String.eqb vars "") && negb (negb (bool_decide (paid = [])))
                                      then Some ("Secret vars: " ++ vars) else None |} /\
              req = (0 <? List.length paid)%nat &&
                    negb (forallb (fun s => Costs.free_available_of (Py.lower s)) paid) /\
              (paid = [] -> vars <> ""))
      as (req & -> & Hreq & Hvars).
    { destruct (negb (bool_decide (paid = [])) || negb (String.eqb vars "")) eqn:Hw; [|done].
      injection Hrow as <-. eexists. split; [done|]. split; [done|].
      intros Hp. rewrite bool_decide_eq_true_2 in Hw by done. cbn in Hw.
      apply negb_true_iff in Hw. by apply String.eqb_neq. }
    cbn [Costs.requires_paid_service Costs.paid_services Costs.free_tier_available
         Costs.notes].
    assert (req = true <-> has "openai" \/ has "stripe" \/ has "perplexity") as Hrequires.
    { rewrite Hreq, <- Hpaid, andb_true_iff, negb_true_iff. split; [by intros [_ ?]|].
      intros Hf. split; [|done]. apply Nat.ltb_lt.
      destruct paid; [done|cbn; lia]. }
    assert ((if negb (bool_decide (paid = []))
             then Some (forallb (fun e => snd (fst (snd e))) matched) else None) = Some false
            <-> has "openai" \/ has "anthropic" \/ has "stripe" \/ has "perplexity") as Htier.
    { rewrite <- Hfree. destruct (decide (paid = [])) as [Hp|Hp].
      - rewrite bool_decide_eq_true_2 by done. cbn [negb].
        split; [done|]. intros Hf. exfalso.
        apply forallb_false in Hf as (e & He & _).
        assert (fst (fst (snd e)) ∈ paid) as Hin
          by (apply list_elem_of_fmap; by exists e).
        rewrite Hp in Hin. by apply elem_of_nil in Hin.
      - rewrite bool_decide_eq_false_2 by done. cbn [negb].
        split; [by intros [= ->]|by intros ->]. }
    split_and!; [done|done| |].
    + rewrite Hrequires, Htier. intros [?|[?|?]]; auto.
    + destruct (decide (paid = [])) as [Hp|Hp].
      * rewrite bool_decide_eq_true_2 by done. cbn [negb].
        specialize (Hvars Hp). apply String.eqb_neq in Hvars. rewrite Hvars.
        cbn. split; [done|]. intros _. by eexists.
      * rewrite bool_decide_eq_false_2 by done. cbn [negb]. rewrite andb_false_r.
        split; [by intros [? [=]]|done].
Qed.

End CostFacts.

(* ===================================================================== *)
(** * Extraction status                                                   *)
(* ===================================================================== *)

Section ExtractionFacts.

Ltac case_patterns tac :=
  repeat (destruct (Py.contains _ _); cbv beta iota; cbn [fst snd]; [by tac|]);
  cbv beta iota; cbn [fst snd]; by tac.

(** The category is one of the four the function documents, and is
    [unknown] exactly for a missing or empty message. *)
Lemma categorize_failure_category error_message :
  let result := McpClient.categorize_failure error_message in
  (fst result = "unknown" <-> Py.truthy_str error_message = None) /\
  (fst result = "permanent" \/ fst result = "auth_required" \/
   fst result = "transient" \/ fst result = "unknown").
Proof.
  cbv zeta. unfold McpClient.categorize_failure.
  destruct (Py.truthy_str error_message) as [msg|];
    [|cbn [fst]; split; [done|by repeat right]].
  cbv zeta. generalize (Py.lower msg). intros error_lower.
  cbn [McpClient.first_reason McpClient.permanent_patterns McpClient.auth_patterns
       McpClient.docker_patterns McpClient.transient_patterns McpClient.protocol_errors].
  split.
  - split; [|done].
    case_patterns ltac:(discriminate).
  - case_patterns ltac:(auto).
Qed.

(** X25. The failure classifier: the category is [permanent],
    [auth_required], [transient] or [unknown], the last one exactly for a
    missing or empty message; a message that contains ["not found"] in any
    spelling of case is a permanent failure [package_not_found] whatever
    else it says; and the reason [module_not_found] is never given, since
    its pattern contains ["not found"]. *)
Theorem categorize_failure_cases error_message :
  let result := McpClient.categorize_failure error_message in
  (fst result = "unknown" <-> Py.truthy_str error_message = None) /\
  (fst result = "permanent" \/ fst result = "auth_required" \/
   fst result = "transient" \/ fst result = "unknown") /\
  snd result <> "module_not_found" /\
  (forall msg,
     Py.truthy_str error_message = Some msg ->
     Py.contains "not found" (Py.lower msg) = true ->
     result = ("permanent", "package_not_found")).
Proof.
  cbv zeta.
  destruct (categorize_failure_category error_message) as [Hunknown Hcat].
  split; [done|]. split; [done|]. split.
  - unfold McpClient.categorize_failure.
    destruct (Py.truthy_str error_message) as [msg|]; [|discriminate].
    cbv zeta.
    destruct (Py.contains "not found" (Py.lower msg)) eqn:Hnf.
    { cbn [McpClient.first_reason McpClient.permanent_patterns]. rewrite Hnf.
      discriminate. }
    assert (Py.contains "module not found" (Py.lower msg) = false) as Hmod.
    { apply not_true_is_false. intros H.
      apply (contains_tail "module " "not found") in H. congruence. }
    revert Hnf Hmod. generalize (Py.lower msg). intros error_lower Hnf Hmod.
    cbn [McpClient.first_reason McpClient.permanent_patterns McpClient.auth_patterns
         McpClient.docker_patterns McpClient.transient_patterns McpClient.protocol_errors].
    rewrite Hnf, Hmod. clear Hnf Hmod Hunknown Hcat.
    case_patterns ltac:(discriminate).
  - intros msg Hmsg Hnf. unfold McpClient.categorize_failure. rewrite Hmsg.
    cbv zeta. cbn [McpClient.first_reason McpClient.permanent_patterns]. by rewrite Hnf.
Qed.

Lemma update_extraction_row conn now server_name success method error tools resources prompts :
  (forall key row, conn !! key = Some row -> McpClient.well_formed row) ->
  forall key row,
    McpClient.update_extraction_status conn now server_name success method error
      tools resources prompts !! key = Some row ->
    McpClient.well_formed row.
Proof.
  intros Hconn key row. unfold McpClient.update_extraction_status.
  destruct success.
  - destruct (decide (key = server_name)) as [->|Hne].
    + rewrite lookup_insert_eq. intros [= <-]. left. cbn. split_and!; by eauto.
    + rewrite lookup_insert_ne by done. apply Hconn.
  - pose proof (categorize_failure_category error) as [_ Hcat].
    destruct (McpClient.categorize_failure error) as [category reason]. cbn [fst] in Hcat.
    assert ((String.eqb category "permanent" = true /\ category = "permanent") \/
            (String.eqb category "permanent" = false /\
             (category = "transient" \/ category = "auth_required" \/ category = "unknown")))
      as Hstatus.
    { destruct Hcat as [->|[->|[->| ->]]]; [left|right..]; by auto. }
    destruct (conn !! server_name) as [old|] eqn:Hold.
    + destruct (decide (key = server_name)) as [->|Hne].
      * rewrite lookup_insert_eq. intros [= <-]. right. cbn.
        specialize (Hconn _ _ Hold).
        split_and!.
        -- destruct Hstatus as [[-> ->]|[-> Hc]]; [left; done|right].
           split; [done|]. destruct Hc as [->|[->| ->]]; by auto.
        -- by eexists.
        -- destruct Hconn as [(_ & _ & _ & -> & _)|(_ & _ & ? & _)]; lia.
        -- intros Hnone.
           destruct Hconn as [(_ & _ & _ & _ & [? Hs] & _)|(_ & _ & _ & Hc)];
             [congruence|by apply Hc].
      * rewrite lookup_insert_ne by done. apply Hconn.
    + destruct (decide (key = server_name)) as [->|Hne].
      * rewrite lookup_insert_eq. intros [= <-]. right. cbn.
        split_and!; [|by eexists|lia|done].
        destruct Hstatus as [[-> ->]|[-> Hc]]; [left; done|right].
        split; [done|]. destruct Hc as [->|[->| ->]]; by auto.
      * rewrite lookup_insert_ne by done. apply Hconn.
Qed.

(** X26. After any sequence of extraction-status updates on an empty table
    every row is well formed: a success has no failure category or reason,
    [retry_count = 0] and [last_successful_at = last_attempted_at]; a
    failure has a reason and [retry_count >= 1], and is a
    [permanent_failure] exactly for the category [permanent] (so an
    [auth_required] or [unknown] failure is stored as [transient_failure]
    and tried again); and a row that never succeeded counts no tools,
    resources or prompts. *)
Theorem extraction_rows_well_formed (updates : list McpClient.update) :
  map_Forall (fun _ row => McpClient.well_formed row)
    (foldl McpClient.apply_update ∅ updates).
Proof.
  assert (forall conn : McpClient.status_table,
            (forall key row, conn !! key = Some row -> McpClient.well_formed row) ->
            forall key row,
              foldl McpClient.apply_update conn updates !! key = Some row ->
              McpClient.well_formed row) as Hgen.
  { induction updates as [|u us IH]; intros conn Hconn; [done|].
    cbn [foldl]. apply IH. unfold McpClient.apply_update.
    by apply update_extraction_row. }
  intros key row. apply Hgen. intros k r. by rewrite lookup_empty.
Qed.

(** X27. A failed update after a success keeps what the success recorded:
    the counts of tools, resources and prompts and [last_successful_at]
    stay, while the status, category, reason, method and time of the attempt
    are replaced and the retry count goes from 0 to 1; rows of other servers
    are not touched. *)
Theorem failure_keeps_counts conn now later server_name method method' error
    tools resources prompts :
  let succeeded :=
    McpClient.update_extraction_status conn now server_name true method None
      tools resources prompts in
  let failed :=
    McpClient.update_extraction_status succeeded later server_name false method' error 0 0 0 in
  (exists row,
     failed !! server_name = Some row /\
     McpClient.status row <> "success" /\
     McpClient.failure_category row = Some (fst (McpClient.categorize_failure error)) /\
     McpClient.failure_reason row = Some (snd (McpClient.categorize_failure error)) /\
     (McpClient.tools_count row, McpClient.resources_count row, McpClient.prompts_count row)
       = (tools, resources, prompts) /\
     McpClient.last_successful_at row = Some now /\
     McpClient.last_attempted_at row = Some later /\
     McpClient.connection_method row = Some method' /\
     McpClient.retry_count row = 1%Z) /\
  (forall other, other <> server_name -> failed !! other = conn !! other).
Proof.
  cbv zeta. unfold McpClient.update_extraction_status at 1 3.
  destruct (McpClient.categorize_failure error) as [category reason].
  unfold McpClient.update_extraction_status. rewrite lookup_insert_eq. split.
  - eexists. rewrite lookup_insert_eq. split; [done|]. cbn.
    split_and!; try done. by destruct (String.eqb category "permanent").
  - intros other Hne. by rewrite !lookup_insert_ne.
Qed.

End ExtractionFacts.

(* ===================================================================== *)
(** * The servers tried for extraction                                    *)
(* ===================================================================== *)

Section ConnectableFacts.

Lemma joined_spec {A : Type} `{EqDecision A} db (name : A -> string) (rows : list A) r :
  r ∈ Connectable.joined db name rows <-> r ∈ rows /\ name r ∈ Connectable.servers db.
Proof.
  unfold Connectable.joined. rewrite elem_of_remove_dups, list_elem_of_bind. split.
  - intros (s & [-> Hr]%list_elem_of_filter & Hs). done.
  - intros [Hr Hs]. exists (name r). split; [|done]. by apply list_elem_of_filter.
Qed.

(** The list returned holds exactly the eligible entries. *)
Lemma connectable_spec db skip_auth skip_extracted query d :
  d ∈ Connectable.get_connectable_servers db skip_auth skip_extracted query <->
  Connectable.eligible db skip_auth skip_extracted query d.
Proof.
  unfold Connectable.get_connectable_servers, Connectable.eligible. cbv zeta.
  set (remotes := omap _ (Connectable.joined db Connectable.rem_server_name _)).
  set (stdios := omap _ (Connectable.joined db Connectable.pkg_server_name _)).
  set (locals := omap _ (Connectable.joined db Connectable.loc_server_name _)).
  assert (d ∈ (remotes ++ stdios ++ locals)%list <->
          Connectable.name_of d ∈ Connectable.servers db /\
          Connectable.in_skip_set db skip_extracted (Connectable.name_of d) = false /\
          match d with
          | Connectable.RemoteServer row requires_auth =>
              row ∈ Connectable.server_remotes db /\
              is_Some (Py.truthy_str (Connectable.rem_url row)) /\
              requires_auth = Connectable.has_secret db (Connectable.rem_server_name row) /\
              skip_auth && requires_auth = false
          | Connectable.StdioServer row =>
              row ∈ Connectable.server_packages db /\
              Connectable.pkg_transport_type row = Some "stdio" /\
              skip_auth && Connectable.has_secret db (Connectable.pkg_server_name row) = false
          | Connectable.LocalServer row => row ∈ Connectable.server_local_sources db
          end) as Hall.
  { rewrite !elem_of_app. unfold remotes, stdios, locals.
    rewrite !list_elem_of_omap. split.
    - intros [(row & Hrow & Hd)|[(row & Hrow & Hd)|(row & Hrow & Hd)]];
        apply joined_spec in Hrow as [Hrow Hs]; cbv zeta in Hd.
      + apply list_elem_of_filter in Hrow as [Hurl Hrow].
        destruct (Connectable.in_skip_set _ _ _) eqn:Hskip; [done|].
        destruct (skip_auth && _) eqn:Hauth; [done|]. by injection Hd as <-.
      + apply list_elem_of_filter in Hrow as [Hstdio Hrow].
        destruct (Connectable.in_skip_set _ _ _) eqn:Hskip; [done|].
        destruct (skip_auth && _) eqn:Hauth; [done|]. by injection Hd as <-.
      + destruct (Connectable.in_skip_set _ _ _) eqn:Hskip; [done|]. by injection Hd as <-.
    - intros (Hs & Hskip & Hd). destruct d as [row auth|row|row]; cbn in Hs, Hskip.
      + destruct Hd as (Hrow & Hurl & -> & Hauth). left. exists row. split.
        * apply joined_spec. split; [|done]. by apply list_elem_of_filter.
        * cbv zeta. by rewrite Hskip, Hauth.
      + destruct Hd as (Hrow & Hstdio & Hauth). right. left. exists row. split.
        * apply joined_spec. split; [|done]. by apply list_elem_of_filter.
        * cbv zeta. by rewrite Hskip, Hauth.
      + right. right. exists row. split.
        * by apply joined_spec.
        * by rewrite Hskip. }
  destruct (Py.truthy_str query) as [q|].
  - rewrite list_elem_of_filter, Hall. split.
    + intros (Hq & Hs & Hskip & Hd). split_and!; [done|done| |done]. by intros ? [= <-].
    + intros (Hs & Hskip & Hq & Hd). split_and!; [by apply Hq|done..].
  - rewrite Hall. split.
    + intros (Hs & Hskip & Hd). split_and!; [done|done| |done]. by intros ? [=].
    + intros (Hs & Hskip & _ & Hd). done.
Qed.

(** X28. The servers offered for extraction: every entry belongs to a
    known server and passes the query; with [skip_extracted] none has a row
    in [tools] or a [permanent_failure] status; with [skip_auth] no remote
    or stdio entry has a secret variable, and a remote entry carries
    [requires_auth] as the test for one; but a local-source entry is
    offered whether or not the server has secret variables. *)
Theorem connectable_servers_filter db skip_auth skip_extracted query :
  let offered := Connectable.get_connectable_servers db skip_auth skip_extracted query in
  Forall (fun d =>
            Connectable.name_of d ∈ Connectable.servers db /\
            (forall q, Py.truthy_str query = Some q ->
                       Py.contains (Py.lower q) (Py.lower (Connectable.name_of d)) = true) /\
            (skip_extracted = true ->
             (Connectable.name_of d ∉ map fst (Connectable.tools db)) /\
             forall row,
               Connectable.tool_extraction_status db !! Connectable.name_of d = Some row ->
               McpClient.status row <> "permanent_failure") /\
            match d with
            | Connectable.RemoteServer row requires_auth =>
                requires_auth = Connectable.has_secret db (Connectable.name_of d) /\
                (skip_auth = true -> requires_auth = false) /\
                is_Some (Py.truthy_str (Connectable.rem_url row))
            | Connectable.StdioServer row =>
                (skip_auth = true -> Connectable.has_secret db (Connectable.name_of d) = false)
            | Connectable.LocalServer row => True
            end) offered /\
  (forall row,
     row ∈ Connectable.server_local_sources db ->
     Connectable.loc_server_name row ∈ Connectable.servers db ->
     Connectable.in_skip_set db skip_extracted (Connectable.loc_server_name row) = false ->
     Py.truthy_str query = None ->
     Connectable.LocalServer row ∈ offered).
Proof.
  cbv zeta. split.
  - apply Forall_forall. intros d (Hs & Hskip & Hq & Hd)%connectable_spec.
    split_and!; [done|done| |].
    + intros ->. unfold Connectable.in_skip_set in Hskip.
      apply orb_false_iff in Hskip as [Htools Hstatus].
      apply bool_decide_eq_false in Htools. split; [done|].
      intros row Hrow. rewrite Hrow in Hstatus. by apply String.eqb_neq.
    + destruct d as [row auth|row|row]; [|by intros ->; destruct Hd as (_ & _ & ?)|done].
      destruct Hd as (_ & Hurl & -> & Hauth). split_and!; [done| |done].
      by intros ->.
  - intros row Hrow Hs Hskip Hq. apply connectable_spec.
    split_and!; [done|done| |done]. intros q. by rewrite Hq.
Qed.

Lemma save_tools_keeps rows server_name names x :
  x ∈ rows -> x ∈ Connectable.save_tools rows server_name names.
Proof.
  unfold Connectable.save_tools. revert rows.
  induction names as [|n names IH]; intros rows Hx; [done|].
  cbn [foldl]. apply IH. apply elem_of_app.
  destruct (decide (x = (server_name, n))) as [->|Hne].
  - right. apply list_elem_of_here.
  - left. by apply list_elem_of_filter.
Qed.

Lemma save_tools_adds rows server_name names n :
  n ∈ names -> (server_name, n) ∈ Connectable.save_tools rows server_name names.
Proof.
  revert rows. induction names as [|m names IH]; intros rows Hn;
    [by apply elem_of_nil in Hn|].
  apply elem_of_cons in Hn as [->|Hn].
  - unfold Connectable.save_tools. cbn [foldl].
    apply (save_tools_keeps _ server_name names).
    apply elem_of_app. right. apply list_elem_of_here.
  - unfold Connectable.save_tools. cbn [foldl]. by apply IH.
Qed.

(** X29. What a try leaves for the next run, which skips the extracted
    servers: after a fetch without error that returned a tool the server is
    no longer offered, and likewise after an error that mentions
    ["not found"] (a permanent failure); after a fetch that returned only
    resources or prompts the try counts as a success, yet the server is
    offered again if it was offered before, because the skip list is read
    from [tools], not from the status. *)
Theorem extraction_and_skipping db now server result :
  let '(db', success) := Connectable.extract_from_server db now server result in
  let offered_after skip_auth query :=
    Connectable.get_connectable_servers db' skip_auth true query in
  (Connectable.fetched_error result = None -> Connectable.fetched_tools result <> [] ->
   success = true /\
   forall skip_auth query,
     Forall (fun d => Connectable.name_of d <> Connectable.name_of server)
            (offered_after skip_auth query)) /\
  (forall msg,
     Py.truthy_str (Connectable.fetched_error result) = Some msg ->
     Py.contains "not found" (Py.lower msg) = true ->
     success = false /\
     forall skip_auth query,
       Forall (fun d => Connectable.name_of d <> Connectable.name_of server)
              (offered_after skip_auth query)) /\
  (Connectable.fetched_error result = None -> Connectable.fetched_tools result = [] ->
   (0 < Connectable.fetched_resources result + Connectable.fetched_prompts result)%nat ->
   success = true /\
   forall skip_auth query,
     server ∈ Connectable.get_connectable_servers db skip_auth true query ->
     server ∈ offered_after skip_auth query).
Proof.
  unfold Connectable.extract_from_server. cbv zeta.
  set (name := Connectable.name_of server).
  split_and!.
  - intros Herr Htools. rewrite Herr.
    destruct (Connectable.fetched_tools result) as [|t ts] eqn:Ht; [done|].
    cbn [List.length Nat.ltb Nat.leb orb andb bool_decide]. 
    rewrite bool_decide_eq_true_2 by done. cbn [andb]. split; [done|].
    intros skip_auth query. apply Forall_forall.
    intros d (_ & Hskip & _)%connectable_spec Hname.
    unfold Connectable.in_skip_set in Hskip. cbn [Connectable.tools] in Hskip.
    apply orb_false_iff in Hskip as [Hin _]. apply bool_decide_eq_false in Hin.
    apply Hin. rewrite Hname. apply list_elem_of_fmap. exists (name, t). split; [done|].
    apply save_tools_adds, list_elem_of_here.
  - intros msg Hmsg Hnf.
    assert (Connectable.fetched_error result <> None) as Herr
      by (by destruct (Connectable.fetched_error result)).
    rewrite bool_decide_eq_false_2 by done. cbn [andb]. split; [done|].
    intros skip_auth query. apply Forall_forall.
    intros d (_ & Hskip & _)%connectable_spec Hname.
    unfold Connectable.in_skip_set in Hskip.
    cbn [Connectable.tool_extraction_status] in Hskip.
    apply orb_false_iff in Hskip as [_ Hstatus]. rewrite Hname in Hstatus.
    unfold McpClient.update_extraction_status in Hstatus.
    assert (McpClient.categorize_failure (Connectable.fetched_error result)
            = ("permanent", "package_not_found")) as Hcat.
    { unfold McpClient.categorize_failure. rewrite Hmsg. cbv zeta.
      cbn [McpClient.first_reason McpClient.permanent_patterns]. by rewrite Hnf. }
    rewrite Hcat in Hstatus. fold name in Hstatus.
    destruct (Connectable.tool_extraction_status db !! name);
      by rewrite lookup_insert_eq in Hstatus.
  - intros Herr Htools Hdata. rewrite Herr, Htools.
    rewrite bool_decide_eq_true_2 by done. cbn [andb List.length].
    assert ((0 <? 0)%nat || (0 <? Connectable.fetched_resources result)%nat
            || (0 <? Connectable.fetched_prompts result)%nat = true) as ->.
    { destruct (Connectable.fetched_resources result), (Connectable.fetched_prompts result);
        cbn; try done. lia. }
    split; [done|].
    intros skip_auth query (Hs & Hskip & Hq & Hd)%connectable_spec.
    apply connectable_spec. split_and!; [done| |done|by destruct server].
    unfold Connectable.in_skip_set in *.
    cbn [Connectable.tools Connectable.tool_extraction_status Connectable.save_tools foldl].
    apply orb_false_iff in Hskip as [Hin _]. rewrite Hin. cbn [orb].
    unfold McpClient.update_extraction_status. fold name. by rewrite lookup_insert_eq.
Qed.

End ConnectableFacts.

(* ===================================================================== *)
(** * Storing the embeddings                                              *)
(* ===================================================================== *)

Section EmbeddingFacts.

Variable embedding : Type.
Variable encode : string -> embedding.

Lemma store_batch_insert (te : gmap Z embedding) (rows : list (Z * string)) :
  Embeddings.store_batch embedding encode te rows
  = foldl (fun te r => <[fst r := encode (snd r)]> te) te rows.
Proof.
  unfold Embeddings.store_batch. cbv zeta. revert te.
  induction rows as [|r rows IH]; intros te; [done|]. cbn. apply IH.
Qed.

Lemma store_batch_app te (l k : list (Z * string)) :
  Embeddings.store_batch embedding encode te (l ++ k)%list
  = Embeddings.store_batch embedding encode (Embeddings.store_batch embedding encode te l) k.
Proof. rewrite !store_batch_insert. apply foldl_app. Qed.

Lemma take_add {A : Type} (a b : nat) (l : list A) :
  take (a + b) l = (take a l ++ take b (drop a l))%list.
Proof.
  revert l. induction a as [|a IH]; intros l; [done|].
  destruct l as [|x l]; [cbn; by rewrite take_nil|]. cbn. by rewrite IH.
Qed.

(** Going through the rows batch by batch stores what one batch of all the
    rows would. *)
Lemma batches_store_all step (rows : list (Z * string)) n k te :
  foldl (fun te i => Embeddings.store_batch embedding encode te (take step (drop i rows)))
        te (map (fun j => j * step)%nat (seq k n))
  = Embeddings.store_batch embedding encode te (take (n * step) (drop (k * step) rows)).
Proof.
  revert k te. induction n as [|n IH]; intros k te; [done|].
  cbn [seq map foldl]. rewrite IH.
  replace (S n * step)%nat with (step + n * step)%nat by lia.
  rewrite take_add, store_batch_app, drop_drop.
  by replace (k * step + step)%nat with (S k * step)%nat by lia.
Qed.

Lemma update_embeddings_positive tools_search te batch_size :
  (0 < batch_size)%Z ->
  Embeddings.update_embeddings embedding encode tools_search te batch_size
  = Some (Embeddings.store_batch embedding encode te
            (filter (fun ts => te !! fst ts = None) tools_search)).
Proof.
  intros Hpos. unfold Embeddings.update_embeddings. cbv zeta.
  destruct (filter _ tools_search) as [|r rows] eqn:Hrows; [done|].
  destruct (batch_size =? 0)%Z eqn:H0; [apply Z.eqb_eq in H0; lia|].
  destruct (batch_size <? 0)%Z eqn:Hneg; [apply Z.ltb_lt in Hneg; lia|].
  f_equal. unfold Embeddings.range_step. rewrite (batches_store_all _ _ _ 0).
  rewrite drop_0, take_ge; [done|].
  set (step := Z.to_nat batch_size). set (total := List.length (r :: rows)).
  assert (0 < step)%nat by (unfold step; lia).
  pose proof (Nat.div_mod_eq (total + step - 1) step) as Hdiv.
  pose proof (Nat.mod_upper_bound (total + step - 1) step) as Hmod. nia.
Qed.

Lemma inserted_lookup (rows : list (Z * string)) (te : gmap Z embedding) :
  let te' := foldl (fun te r => <[fst r := encode (snd r)]> te) te rows in
  (forall tid, tid ∉ map fst rows -> te' !! tid = te !! tid) /\
  (forall r, r ∈ rows -> is_Some (te' !! fst r)) /\
  (forall tid e, te' !! tid = Some e ->
                 te !! tid = Some e \/ exists doc, (tid, doc) ∈ rows /\ e = encode doc) /\
  (NoDup (map fst rows) ->
   forall r, r ∈ rows -> te' !! fst r = Some (encode (snd r))).
Proof.
  cbv zeta. revert te. induction rows as [|[tid0 doc0] rows IH]; intros te.
  - cbn. split_and!; [done|by intros ? ?%elem_of_nil|by left|by intros ? ? ?%elem_of_nil].
  - cbn [foldl map fst snd].
    destruct (IH (<[tid0 := encode doc0]> te)) as (Hout & Hin & Hfrom & Hexact).
    split_and!.
    + intros tid [Hne Hnot]%not_elem_of_cons. rewrite Hout by done.
      by rewrite lookup_insert_ne.
    + intros r [->|Hr]%elem_of_cons; [|by apply Hin].
      cbn [fst]. destruct (decide (tid0 ∈ map fst rows)) as [Hdup|Hnew].
      * apply list_elem_of_fmap in Hdup as (r' & -> & Hr'). by apply Hin.
      * rewrite Hout by done. rewrite lookup_insert_eq. by eexists.
    + intros tid e [Hte|(doc & Hdoc & ->)]%Hfrom.
      * destruct (decide (tid0 = tid)) as [->|Hne].
        -- rewrite lookup_insert_eq in Hte. injection Hte as <-.
           right. exists doc0. split; [apply list_elem_of_here|done].
        -- rewrite lookup_insert_ne in Hte by done. by left.
      * right. exists doc. split; [by apply list_elem_of_further|done].
    + intros [Hnew Hnodup]%NoDup_cons r [->|Hr]%elem_of_cons; [|by apply Hexact].
      cbn [fst snd]. rewrite Hout by done. by rewrite lookup_insert_eq.
Qed.

(** X30. For a positive batch size, [update_embeddings] leaves every
    document of [tools_search] with an embedding; an embedding that was
    already stored is kept as it is (so a document whose text has changed
    since is not embedded again), every new one is the encoding of a
    document of that tool id, and, tool ids being distinct, of its document;
    the table it leaves does not depend on the batch size. *)
Theorem embeddings_filled tools_search te batch_size :
  (0 < batch_size)%Z ->
  exists te',
    Embeddings.update_embeddings embedding encode tools_search te batch_size = Some te' /\
    (forall tid e, te !! tid = Some e -> te' !! tid = Some e) /\
    Forall (fun ts => is_Some (te' !! fst ts)) tools_search /\
    (forall tid e, te' !! tid = Some e ->
                   te !! tid = Some e \/
                   exists doc, (tid, doc) ∈ tools_search /\ e = encode doc) /\
    (NoDup (map fst tools_search) ->
     Forall (fun ts => te !! fst ts = None -> te' !! fst ts = Some (encode (snd ts)))
            tools_search) /\
    (forall other, (0 < other)%Z ->
       Embeddings.update_embeddings embedding encode tools_search te other = Some te').
Proof.
  intros Hpos. eexists. split; [by apply update_embeddings_positive|].
  rewrite store_batch_insert.
  set (rows := filter (fun ts => te !! fst ts = None) tools_search).
  destruct (inserted_lookup rows te) as (Hout & Hin & Hfrom & Hexact).
  split_and!.
  - intros tid e Hte. rewrite Hout; [done|].
    intros (r & -> & [Hnone _]%list_elem_of_filter)%list_elem_of_fmap. congruence.
  - apply Forall_forall. intros ts Hts.
    destruct (te !! fst ts) as [e|] eqn:Hte.
    + rewrite Hout; [by rewrite Hte|].
      intros (r & Heq & [Hnone _]%list_elem_of_filter)%list_elem_of_fmap. congruence.
    + apply Hin. by apply list_elem_of_filter.
  - intros tid e [?|(doc & [_ Hdoc]%list_elem_of_filter & ->)]%Hfrom; [by left|].
    right. by exists doc.
  - intros Hnodup. apply Forall_forall. intros ts Hts Hnone.
    apply Hexact; [|by apply list_elem_of_filter].
    eapply sublist_NoDup; [exact Hnodup|]. apply fmap_sublist, sublist_filter.
  - intros other Hother. rewrite update_embeddings_positive by done.
    by rewrite store_batch_insert.
Qed.

End EmbeddingFacts.

Lemma embeddings_filled_witness :
  exists te',
    Embeddings.update_embeddings string (fun doc => doc)
      [(1%Z, "Tool: a"); (2%Z, "Tool: b"); (3%Z, "Tool: c")] (<[2%Z := "old"]> ∅) 2
    = Some te' /\
    te' !! 2%Z = Some "old".
Proof.
  destruct (embeddings_filled string (fun doc => doc)
              [(1%Z, "Tool: a"); (2%Z, "Tool: b"); (3%Z, "Tool: c")]
              (<[2%Z := "old"]> ∅) 2 eq_refl) as (te' & Hte' & Hkept & _).
  exists te'. split; [exact Hte'|]. apply Hkept. reflexivity.
Defined.
(* ===================================================================== *)
(** * The client against the gateway                                      *)
(* ===================================================================== *)

Section SdkFacts.

Local Open Scope R_scope.

Variable connect : Gateway.launch -> Gateway.session.

Variable validation_errors : json -> json.

Variable format_detail : json -> string.

(** The posted body fits [CallRequest] exactly when the two names are
    strings and the arguments, once a falsy value is replaced by [{}], are an
    object. *)
Lemma validate_payload server_name tool_name arguments :
  Gateway.validate (Sdk.payload server_name tool_name arguments) =
  match server_name, tool_name,
        Sql.coalesce (Gateway.truthy_json (Some arguments)) (JObj []) with
  | JStr s, JStr t, JObj fields =>
      Some {| Gateway.req_server_name := s; Gateway.req_tool_name := t;
              Gateway.req_arguments := fields |}
  | _, _, _ => None
  end.
Proof.
  unfold Sdk.payload, Gateway.validate.
  cbn [Gateway.lookup_field String.eqb Ascii.eqb Bool.eqb].
  destruct server_name, tool_name; reflexivity.
Qed.

Lemma validate_payload_Some server_name tool_name arguments :
  is_Some (Gateway.validate (Sdk.payload server_name tool_name arguments)) <->
  exists s t,
    server_name = JStr s /\ tool_name = JStr t /\
    (Gateway.truthy_json (Some arguments) = None \/ exists fields, arguments = JObj fields).
Proof.
  rewrite validate_payload. split.
  - destruct server_name as [| | | |s| |]; try by intros [? ?].
    destruct tool_name as [| | | |t| |]; try by intros [? ?].
    intros Hsome. exists s, t. split; [done|]. split; [done|].
    destruct (Gateway.truthy_json (Some arguments)) as [v|] eqn:Htruthy; [|by left].
    right. cbn in Hsome.
    assert (v = arguments) as ->.
    { destruct arguments as [|[]|n|x|[]|[]|[]]; cbn in Htruthy; try congruence.
      - destruct (n =? 0)%Z; congruence.
      - destruct (Req_dec_T x 0); congruence. }
    destruct arguments; try by destruct Hsome. by eexists.
  - intros (s & t & -> & -> & [-> | [fields ->]]); [done|].
    destruct fields; done.
Qed.

(** X23. A [call] of the client that reaches the gateway raises
    [WispAPIError] with status 422 exactly when the posted body does not fit
    [CallRequest] (a name that is no string, or truthy arguments that are no
    object).  Otherwise it raises [WispAPIError] with status 404 exactly
    when the server has no connection info, returns the result of the tool
    exactly when the session was entered and the awaited calls produced it,
    and raises [WispAPIError] with status 500 for every exception of the
    awaited calls — the timeout of [asyncio.wait_for] included — and for
    every exception but [TimeoutError] raised on entering;
    [WispTimeoutError] is raised only for a [TimeoutError] raised on
    entering.  No other status and no [WispConnectionError] occurs. *)
Theorem sdk_call_outcomes db environ server_name tool_name arguments :
  let body := Sdk.payload server_name tool_name arguments in
  let out :=
    Sdk.call format_detail None (Gateway.post_call connect validation_errors db environ)
      server_name tool_name arguments in
  ((exists message, out = Sdk.WispAPIError message 422) <-> Gateway.validate body = None) /\
  (is_Some (Gateway.validate body) <->
   exists s t,
     server_name = JStr s /\ tool_name = JStr t /\
     (Gateway.truthy_json (Some arguments) = None \/
      exists fields, arguments = JObj fields)) /\
  (forall request,
     Gateway.validate body = Some request ->
     let info :=
       Gateway.get_server_connection_info db environ (Gateway.req_server_name request) in
     let entered i := Gateway.enter (connect (Gateway.launch_of i)) in
     let calls i :=
       Gateway.awaited_calls (connect (Gateway.launch_of i))
         (Gateway.req_tool_name request) (Gateway.req_arguments request) 60 in
     ((exists message, out = Sdk.WispAPIError message 404) <-> info = None) /\
     ((exists message, out = Sdk.WispTimeoutError message) <->
      exists i, info = Some i /\ entered i = Some Gateway.TimeoutError) /\
     ((exists message, out = Sdk.WispAPIError message 500) <->
      exists i, info = Some i /\
        ((exists e, entered i = Some e /\ e <> Gateway.TimeoutError) \/
         (entered i = None /\ exists e, calls i = inl e))) /\
     (forall result,
        out = Sdk.Returned result <->
        exists i, info = Some i /\ entered i = None /\ calls i = inr result) /\
     (forall i,
        info = Some i -> entered i = None ->
        60 < Gateway.elapsed (Gateway.initialize (connect (Gateway.launch_of i))) ->
        out = Sdk.WispAPIError
                "unhandled errors in a TaskGroup (1 sub-exception) (Status: 500)" 500)) /\
  (forall message status,
     out = Sdk.WispAPIError message status ->
     status = 404%Z \/ status = 422%Z \/ status = 500%Z) /\
  (forall message, out <> Sdk.WispConnectionError message) /\
  out <> Sdk.AttributeError.
Proof.
  cbv zeta. unfold Sdk.call, Gateway.post_call.
  split; [|split; [apply validate_payload_Some|]].
  { destruct (Gateway.validate _) as [request|]; [|split; [done|intros _; by eexists]].
    split; [|done]. intros [message Hout]. exfalso. revert Hout.
    unfold Gateway.call_tool.
    destruct (Gateway.get_server_connection_info _ _ _) as [i|]; [|done].
    cbv zeta. destruct (Gateway.run_session _ _ _ _) as [[| |]|]; done. }
  destruct (Gateway.validate _) as [request|]; [|split; [done|]; split_and!; try done;
    intros message status [= _ <-]; auto].
  assert (forall i,
    Gateway.get_server_connection_info db environ (Gateway.req_server_name request) = Some i ->
    Gateway.call_tool connect db environ request =
    match Gateway.enter (connect (Gateway.launch_of i)) with
    | Some Gateway.TimeoutError => Gateway.HTTPException 504 "Tool execution timed out."
    | Some e => Gateway.HTTPException 500 (Gateway.str e)
    | None =>
        match Gateway.awaited_calls (connect (Gateway.launch_of i))
                (Gateway.req_tool_name request) (Gateway.req_arguments request) 60 with
        | inr result => Gateway.Ok200 result
        | inl _ =>
            Gateway.HTTPException 500 "unhandled errors in a TaskGroup (1 sub-exception)"
        end
    end) as Hresp.
  { intros i Hi. by rewrite (call_tool_responses connect db environ request i Hi). }
  destruct (Gateway.get_server_connection_info db environ (Gateway.req_server_name request))
    as [i|] eqn:Hinfo.
  - specialize (Hresp i eq_refl). rewrite Hresp. clear Hresp.
    split.
    + intros request' [= <-]. rewrite Hinfo.
      destruct (Gateway.enter (connect (Gateway.launch_of i))) as [e|] eqn:Henter.
      * destruct e as [|m|m es]; cbn [Sdk.handle_response]; cbn; split_and!.
        all: try (split; [by intros [? ?]|]).
        all: try by (intros (i' & [= <-] & H); rewrite Henter in H;
                     first [discriminate | by destruct H as [? ?]]).
        all: try done.
        -- split; [intros _; by exists i|intros _; by eexists].
        -- intros (i' & [= <-] & [(e & He & Hne) | [He _]]); rewrite Henter in He;
             [by injection He as <- | done].
        -- intros result. split; [done|]. intros (i' & [= <-] & He & _).
           by rewrite Henter in He.
        -- intros i' [= <-] He. by rewrite Henter in He.
        -- split; [intros _|intros _; by eexists].
           exists i. split; [done|]. left. by eexists.
        -- intros result. split; [done|]. intros (i' & [= <-] & He & _).
           by rewrite Henter in He.
        -- intros i' [= <-] He. by rewrite Henter in He.
        -- split; [intros _|intros _; by eexists].
           exists i. split; [done|]. left. by eexists.
        -- intros result. split; [done|]. intros (i' & [= <-] & He & _).
           by rewrite Henter in He.
        -- intros i' [= <-] He. by rewrite Henter in He.
      * destruct (Gateway.awaited_calls _ _ _ _) as [e|result] eqn:Hcalls;
          cbn [Sdk.handle_response]; cbn; split_and!.
        all: try (split; [by intros [? ?]|]).
        all: try done.
        -- intros (i' & [= <-] & He). by rewrite Henter in He.
        -- split; [intros _|intros _; by eexists].
           exists i. split; [done|]. right. split; [done|by eexists].
        -- intros result. split; [done|]. intros (i' & [= <-] & _ & He).
           by rewrite Hcalls in He.
        -- intros (i' & [= <-] & He). by rewrite Henter in He.
        -- intros (i' & [= <-] & [(e & He & _) | [_ [e He]]]);
             [by rewrite Henter in He | by rewrite Hcalls in He].
        -- intros result'. split.
           ++ intros [= <-]. by exists i.
           ++ intros (i' & [= <-] & _ & He). rewrite Hcalls in He. by injection He as <-.
        -- intros i' [= <-] _ Hslow.
           rewrite (awaited_calls_timeout _ _ _ (or_introl Hslow)) in Hcalls. done.
    + destruct (Gateway.enter (connect (Gateway.launch_of i))) as [[|m|m es]|];
        [| | |destruct (Gateway.awaited_calls _ _ _ _)];
        cbn [Sdk.handle_response]; cbn; split_and!; try done;
        intros message status [= _ <-]; auto.
  - clear Hresp. unfold Gateway.call_tool. rewrite Hinfo.
    cbn [Sdk.handle_response]; cbn. split.
    + intros request' [= <-]. rewrite Hinfo. split_and!.
      * split; [done|intros _; by eexists].
      * split; [by intros [? ?]|by intros (? & ? & _)].
      * split; [by intros [? ?]|by intros (? & ? & _)].
      * intros result. split; [done|by intros (? & ? & _)].
      * done.
    + split_and!; try done. intros message status [= _ <-]. auto.
Qed.

End SdkFacts.
